(** * Live sensor dashboard: ring buffers, windowing, zoom overlay, live append

    A shallow embedding of the two dashboard programs

    - [web_dashboard_1.py]: the single-page dashboard (module [V1]);
    - [web_dashboard_2.py]: the multi-page dashboard with per-sensor detail
      pages (module [V2]);

    and the properties of their streaming core: the bounded buffers, the signal
    generator, the visible window, the zoom/pan overlay applied while paused,
    the incremental append of the detail page and the export table.

    Modelling choices.
    - Python [int] is [Z]; Python [float] is the kernel's binary64 [float], so
      the generator's arithmetic is the one Python performs, bit for bit.
    - [collections.deque(maxlen=...)] is a record of its bound and its items,
      oldest first.
    - A [dict] read by key from a callback argument (the settings store, a
      graph's [relayoutData]) is a [gmap string json]; the module-level
      [sensor_data], whose iteration order fixes the order of the random
      draws and of the export columns, is an association list in insertion
      order.
    - The module-level buffers are a [store] threaded through a small state
      and exception monad [M]; an exception keeps the mutations made before
      it was raised, as in Python.
    - [dt.datetime.now()] and [random.uniform] are read from a [world] value
      handed to each callback: the clock reading and the successive draws of
      that call.
    - Plotly figures are records of the layout and trace attributes the
      programs vary; the constant styling (template, colours, margins, grid)
      is left out. Building a trace checks the two attributes that come
      from the settings, the line shape and the marker size, and raises a
      [ValueError] when Plotly refuses one of them.
    - Sequence indices are bounded by [sys.maxsize] of a 64-bit build, and
      [int] by the digit limit of Python 3.11.
    - A [string] stands for a Python [str] whose code points are below 256,
      one character per code point. *)

From Stdlib Require Import ZArith Floats Lia Bool List Ascii String.
From stdpp Require Import base option list gmap strings pretty.

Set Warnings "-inexact-float,-register-all".
#[local] Open Scope Z_scope.

(** ** Python values *)

(** The exceptions the modelled code can raise. *)
Inductive exn : Type :=
| KeyError (key : string)
| TypeError
| ValueError
| IndexError
| AttributeError.

Inductive result (A : Type) : Type :=
| Ok (a : A)
| Raise (e : exn).
Arguments Ok {A} a.
Arguments Raise {A} e.

(** A JSON value as Dash hands it to a callback. *)
Inductive json : Type :=
| JNull
| JBool (b : bool)
| JInt (z : Z)
| JFloat (f : float)
| JStr (s : string)
| JArr (l : list json)
| JObj (l : list (string * json)).

(** A Python [dict] with string keys received from the browser. *)
Abbreviation dict := (gmap string json).

(** [d.get(key, default)] *)
Definition dict_get (d : dict) (key : string) (default : json) : json :=
  match d !! key with
  | Some v => v
  | None => default
  end.

(** [key in d] *)
Definition dict_in (key : string) (d : dict) : bool :=
  match d !! key with
  | Some _ => true
  | None => false
  end.

(** [d[key]] *)
Definition dict_item (d : dict) (key : string) : result json :=
  match d !! key with
  | Some v => Ok v
  | None => Raise (KeyError key)
  end.

(** Truth value of an optional dict: [None] and [{}] are false. *)
Definition dict_truthy (d : option dict) : bool :=
  match d with
  | Some m => negb (bool_decide (m = ∅))
  | None => false
  end.

(** [v == s] for a string literal [s]. *)
Definition json_eq_str (v : json) (s : string) : bool :=
  match v with
  | JStr t => bool_decide (t = s)
  | _ => false
  end.

(** A clock reading of [dt.datetime.now()], in microseconds. *)
Definition datetime : Type := Z.

(** [sys.maxsize] of a 64-bit build: the largest index a sequence or an
    [islice] accepts. *)
Definition sys_maxsize : Z := 2 ^ 63 - 1.

(** ** Bounded deques *)

Record deque (A : Type) : Type := mkDeque {
  maxlen : Z;
  items : list A   (* oldest first *)
}.
Arguments mkDeque {A} maxlen items.
Arguments maxlen {A} d.
Arguments items {A} d.

Section Deque.
Context {A : Type}.

(** [deque(maxlen=n)] *)
Definition deque_new (n : Z) : deque A := mkDeque n [].

(** [len(d)] *)
Definition len (l : list A) : Z := Z.of_nat (length l).

(** [d.append(x)]: the item is added on the right and, when the deque then
    exceeds its bound, one item is dropped from the left. *)
Definition deque_append (d : deque A) (x : A) : deque A :=
  let items' := items d ++ [x] in
  mkDeque (maxlen d)
          (if maxlen d <? len items' then tail items' else items').

(** [bool(d)] *)
Definition nonempty (l : list A) : bool :=
  match l with
  | [] => false
  | _ :: _ => true
  end.

(** [d[-1]] *)
Definition deque_last (d : deque A) : result A :=
  match last (items d) with
  | Some x => Ok x
  | None => Raise IndexError
  end.

(** [islice(d, start, stop)] for integer bounds: the items at the indices
    [start <= i < stop]; a bound that is negative or above [sys.maxsize] is
    a [ValueError]. The iteration stops at the end of [d], so no more than
    [len(d)] items are skipped or taken. *)
Definition islice (l : list A) (start stop : Z) : result (list A) :=
  if (start <? 0) || (stop <? 0) || (sys_maxsize <? start) || (sys_maxsize <? stop)
  then Raise ValueError
  else Ok (take (Z.to_nat (Z.min (stop - start) (len l)))
                (drop (Z.to_nat (Z.min start (len l))) l)).

(** A sequence of appends, in order. *)
Definition deque_extend (d : deque A) (xs : list A) : deque A :=
  fold_left deque_append xs d.
End Deque.
Arguments deque_append : simpl never.

(** [MAX_BUFFER_SIZE = 10000], the same in both programs. *)
Definition MAX_BUFFER_SIZE : Z := 10000.

(** ** The module-level buffers and the callback monad *)

(** [time_data] and [sensor_data]: one timestamp buffer and one buffer per
    channel, keyed ['s1'] to ['s4'] in insertion order. *)
Record store : Type := mkStore {
  time_data : deque datetime;
  sensor_data : list (string * deque float)
}.

Definition initial_store : store :=
  mkStore (deque_new MAX_BUFFER_SIZE)
          [("s1", deque_new MAX_BUFFER_SIZE); ("s2", deque_new MAX_BUFFER_SIZE);
           ("s3", deque_new MAX_BUFFER_SIZE); ("s4", deque_new MAX_BUFFER_SIZE)].

(** What one callback invocation reads from outside the program: the clock
    and the successive results of [random.uniform(-2.5, 2.5)]. *)
Record world : Type := mkWorld {
  now : datetime;
  uniform : nat -> float
}.

(** A computation over the buffers that returns or raises. *)
Definition M (A : Type) : Type := store -> result A * store.

Definition ret {A} (a : A) : M A := fun st => (Ok a, st).
Definition raise {A} (e : exn) : M A := fun st => (Raise e, st).
Definition bind {A B} (c : M A) (k : A -> M B) : M B :=
  fun st =>
    match c st with
    | (Ok a, st') => k a st'
    | (Raise e, st') => (Raise e, st')
    end.
Definition get : M store := fun st => (Ok st, st).
Definition put (st : store) : M unit := fun _ => (Ok tt, st).
Definition lift {A} (r : result A) : M A := fun st => (r, st).

Declare Scope py_scope.
Delimit Scope py_scope with py.
Notation "x <- c ;; k" := (bind c (fun x => k))
  (at level 100, c at next level, right associativity) : py_scope.
Notation "c ;;; k" := (bind c (fun _ => k))
  (at level 100, right associativity) : py_scope.

(** Sequencing within [result]. *)
Definition rbind {A B} (r : result A) (k : A -> result B) : result B :=
  match r with
  | Ok a => k a
  | Raise e => Raise e
  end.

(** A [for] loop that collects one value per element and stops at the first
    exception. *)
Fixpoint mapM {A B} (f : A -> M B) (l : list A) : M (list B) :=
  match l with
  | [] => ret []
  | a :: l' => (b <- f a ;; bs <- mapM f l' ;; ret (b :: bs))%py
  end.

(** [d[key]] for a dict kept in insertion order. *)
Fixpoint assoc_item {V} (d : list (string * V)) (key : string) : result V :=
  match d with
  | [] => Raise (KeyError key)
  | (k, v) :: d' => if bool_decide (k = key) then Ok v else assoc_item d' key
  end.

(** [d[key] = v] for a dict kept in insertion order: an existing key keeps
    its place, a new key goes last. *)
Fixpoint assoc_set {V} (d : list (string * V)) (key : string) (v : V)
  : list (string * V) :=
  match d with
  | [] => [(key, v)]
  | (k, v0) :: d' =>
      if bool_decide (k = key) then (k, v) :: d' else (k, v0) :: assoc_set d' key v
  end.

(** [d.update(other)] *)
Definition assoc_update {V} (d other : list (string * V)) : list (string * V) :=
  fold_left (fun acc kv => assoc_set acc (fst kv) (snd kv)) other d.

(** ** Signal generator ([generate_new_data]) *)

(** [max(a, b)] and [min(a, b)] of two numbers: the first argument is kept
    unless the second compares strictly greater (smaller). *)
Definition py_max (a b : float) : float := if (a <? b)%float then b else a.
Definition py_min (a b : float) : float := if (b <? a)%float then b else a.

(** [last_val + random.uniform(-2.5, 2.5) - (last_val - 50) * 0.1], with [u]
    the draw. *)
Definition new_val (last_val u : float) : float :=
  (last_val + u - (last_val - 50) * 0.1)%float.

(** [max(0, min(120, new_val))]. The integers [0] and [120] that Python
    returns at the bounds are the floats of the same value. *)
Definition clamp (v : float) : float := py_max 0 (py_min 120 v).

(** [buffer[-1] if buffer else 50.0] *)
Definition last_or_default (buffer : deque float) : float :=
  match last (items buffer) with
  | Some v => v
  | None => 50
  end.

(** The loop over [sensor_data.items()]; the [k]-th channel consumes the
    [k]-th draw. Keys of a dict are unique, so [sensor_data[name]] is the
    [buffer] of the iteration. *)
Fixpoint generate_channels (w : world) (k : nat)
    (sd : list (string * deque float)) : list (string * deque float) :=
  match sd with
  | [] => []
  | (name, buffer) :: rest =>
      let last_val := last_or_default buffer in
      (name, deque_append buffer (clamp (new_val last_val (uniform w k))))
        :: generate_channels w (S k) rest
  end.

Definition generate_new_data (w : world) : M unit :=
  fun st =>
    (Ok tt,
     mkStore (deque_append (time_data st) (now w))
             (generate_channels w 0 (sensor_data st))).

(** ** Numbers in settings *)

(** A Python number: the result of arithmetic on a settings value. *)
Inductive num : Type :=
| NInt (z : Z)
| NFloat (f : float).

Definition float_of_int (z : Z) : float := PrimFloat.of_uint63 (Uint63.of_Z z).

(** [n - v] for a (small, non-negative) integer [n] and a JSON value [v]. *)
Definition int_sub (n : Z) (v : json) : result num :=
  match v with
  | JInt z => Ok (NInt (n - z))
  | JBool b => Ok (NInt (n - (if b then 1 else 0)))
  | JFloat f => Ok (NFloat (float_of_int n - f))
  | _ => Raise TypeError
  end.

(** [max(0, v)] *)
Definition max0 (v : num) : num :=
  match v with
  | NInt z => NInt (Z.max 0 z)
  | NFloat f => if (0 <? f)%float then NFloat f else NInt 0
  end.

(** [list(islice(d, start, stop))]: [islice] refuses a float bound. *)
Definition islice_from {A} (l : list A) (start : num) (stop : Z) : result (list A) :=
  match start with
  | NInt s => islice l s stop
  | NFloat _ => Raise ValueError
  end.

(** ** Figures *)

(** A scatter trace: the attributes the programs set. *)
Record scatter : Type := mkScatter {
  sc_x : list datetime;
  sc_y : list float;
  sc_mode : string;
  sc_marker : list (string * json);
  sc_line : list (string * json)
}.

(** Plotly checks the attributes of a trace when it is built. [line.shape]
    is an enumerated attribute: unset ([None]) or one of six names. *)
Definition LINE_SHAPES : list string :=
  ["linear"; "spline"; "hv"; "vh"; "hvh"; "vhv"]%string.

Definition valid_line_shape (v : json) : bool :=
  match v with
  | JNull => true
  | JStr s => existsb (String.eqb s) LINE_SHAPES
  | _ => false
  end.

(** [marker.size] is a number attribute with minimum [0] that also takes a
    list: unset, a number not below [0] ([nan] is refused, [True] and
    [False] are the numbers [1] and [0]), or a list of such numbers. *)
Definition valid_size_number (v : json) : bool :=
  match v with
  | JInt z => 0 <=? z
  | JFloat f => (0 <=? f)%float
  | JBool _ => true
  | _ => false
  end.

Definition valid_marker_size (v : json) : bool :=
  match v with
  | JNull => true
  | JArr l => forallb valid_size_number l
  | _ => valid_size_number v
  end.

(** An attribute of a [dict] argument passes when it is absent or its value
    is accepted. *)
Fixpoint valid_attr (check : json -> bool) (d : list (string * json)) (key : string)
  : bool :=
  match d with
  | [] => true
  | (k, v) :: d' => if bool_decide (k = key) then check v else valid_attr check d' key
  end.

(** [go.Scatter(x=..., y=..., mode=..., marker=..., line=...)]: a
    [ValueError] when the line shape or the marker size is refused. The
    modes, widths and colours the programs pass are constants that Plotly
    accepts. *)
Definition go_Scatter (x : list datetime) (y : list float) (mode : string)
    (marker line : list (string * json)) : result scatter :=
  if valid_attr valid_line_shape line "shape" && valid_attr valid_marker_size marker "size"
  then Ok (mkScatter x y mode marker line)
  else Raise ValueError.

Record figure : Type := mkFigure {
  fig_title : string;
  fig_height : option Z;
  fig_xaxis_title : option string;
  fig_yaxis_title : option string;
  fig_data : list scatter;
  fig_xaxis_range : option (json * json);
  fig_yaxis_range : option (json * json)
}.

Definition add_trace (fig : figure) (t : scatter) : figure :=
  mkFigure (fig_title fig) (fig_height fig) (fig_xaxis_title fig)
           (fig_yaxis_title fig) (fig_data fig ++ [t])
           (fig_xaxis_range fig) (fig_yaxis_range fig).

(** [fig.update_layout(xaxis_range=[lo, hi])] *)
Definition set_xaxis_range (fig : figure) (lo hi : json) : figure :=
  mkFigure (fig_title fig) (fig_height fig) (fig_xaxis_title fig)
           (fig_yaxis_title fig) (fig_data fig)
           (Some (lo, hi)) (fig_yaxis_range fig).

(** [fig.update_layout(yaxis_range=[lo, hi])] *)
Definition set_yaxis_range (fig : figure) (lo hi : json) : figure :=
  mkFigure (fig_title fig) (fig_height fig) (fig_xaxis_title fig)
           (fig_yaxis_title fig) (fig_data fig)
           (fig_xaxis_range fig) (Some (lo, hi)).

(** ** Export table *)

Inductive cell : Type :=
| CTime (t : datetime)
| CNum (v : float).

(** A [pandas.DataFrame]: column labels and rows. *)
Record dataframe : Type := mkDataFrame {
  columns : list string;
  rows : list (list cell)
}.

(** [pd.DataFrame(data)] for a dict of lists: one column per key in
    insertion order, one row per index; lists of different lengths are a
    [ValueError]. *)
Definition DataFrame (data : list (string * list cell)) : result dataframe :=
  match data with
  | [] => Ok (mkDataFrame [] [])
  | (_, c0) :: _ =>
      if forallb (fun kv => bool_decide (length (snd kv) = length c0)) data
      then Ok (mkDataFrame (map fst data)
                 (map (fun i => omap (fun kv => snd kv !! i) data)
                      (seq 0 (length c0))))
      else Raise ValueError
  end.

(** What the export callback returns: the table given to
    [to_csv(index=False)] and the clock reading formatted into the file
    name. *)
Record download : Type := mkDownload {
  content : dataframe;
  filename_time : datetime
}.

(** [export_data_as_csv], the same in both programs. *)
Definition export_data_as_csv (w : world) (n_clicks : json) : M download :=
  (st <- get ;;
   let df_data := [("timestamp", map CTime (items (time_data st)))] in
   let df_data :=
     assoc_update df_data
       (map (fun nb => (fst nb, map CNum (items (snd nb)))) (sensor_data st)) in
   df <- lift (DataFrame df_data) ;;
   ret (mkDownload df (now w)))%py.

(** ** Controls shared by the two programs *)

Definition ID_BTN_EXPORT : string := "btn-export".
Definition ID_BTN_SETTINGS : string := "btn-settings".

(** [toggle_running_state]: a click flips the capture state. *)
Definition toggle_running_state (n_clicks : json) (is_running : bool) : bool :=
  negb is_running.

(** [update_toggle_button_ui]: the icon class, the label and the class of the
    capture button. *)
Definition update_toggle_button_ui (is_running : bool) : (string * string) * string :=
  if is_running
  then (("fa-solid fa-pause", " Stop Logging"), "control-btn btn-danger")%string
  else (("fa-solid fa-play", " Start Logging"), "control-btn btn-success")%string.

(** [update_status_display]: the status text and its style dict. *)
Definition update_status_display (triggered_id : option string) (is_running : bool)
    (export_clicks : json) : M (string * list (string * string)) :=
  let base_style := [("fontWeight", "700"); ("color", "white")]%string in
  if bool_decide (triggered_id = Some ID_BTN_EXPORT) then
    ret ("Exported CSV"%string,
         base_style ++ [("backgroundColor", "var(--accent-color)")]%string)
  else
    (st <- get ;;
     if negb (nonempty (items (time_data st))) then
       ret ("Waiting for data..."%string,
            base_style ++ [("backgroundColor", "#6B7280")]%string)
     else if is_running then
       ret ("Logging: RUNNING"%string,
            base_style ++ [("backgroundColor", "var(--success-color)")]%string)
     else
       ret ("PAUSED - Zoom/Pan Enabled"%string,
            base_style ++ [("backgroundColor", "var(--warning-color)")]%string))%py.

(** ** Reading the sensor index from a path *)

(** A [string] stands for a Python [str] whose code points are all below
    256, one [ascii] per code point.

    Whitespace that [int] strips: the ASCII blanks (tab, line feed, vertical
    tab, form feed, carriage return, space) and, among the other code points
    below 256, the two Unicode blanks U+0085 and U+00A0. *)
Definition is_space (c : ascii) : bool :=
  let n := nat_of_ascii c in
  ((9 <=? n) && (n <=? 13) || (n =? 32) || (n =? 133) || (n =? 160))%nat.

Definition digit_of (c : ascii) : option Z :=
  let n := Z.of_nat (nat_of_ascii c) in
  if (48 <=? n) && (n <=? 57) then Some (n - 48) else None.

Fixpoint strip_left (l : list ascii) : list ascii :=
  match l with
  | c :: r => if is_space c then strip_left r else l
  | [] => []
  end.

Definition strip (l : list ascii) : list ascii :=
  rev (strip_left (rev (strip_left l))).

(** Decimal digits, with single underscores allowed between digits. *)
Fixpoint parse_digits (acc : Z) (after_digit : bool) (l : list ascii) : option Z :=
  match l with
  | [] => if after_digit then Some acc else None
  | c :: r =>
      if Ascii.eqb c "_" then
        if after_digit then parse_digits acc false r else None
      else
        match digit_of c with
        | Some d => parse_digits (10 * acc + d) true r
        | None => None
        end
  end.

(** [sys.int_info.default_max_str_digits]: [int] refuses a literal with more
    digits. *)
Definition MAX_STR_DIGITS : Z := 4300.

(** The number of digits of a literal. *)
Definition count_digits (l : list ascii) : Z :=
  len (List.filter (fun c => bool_decide (is_Some (digit_of c))) l).

(** [int(s)]: a [ValueError] unless [s] is an optionally signed decimal
    literal of at most [MAX_STR_DIGITS] digits, possibly surrounded by
    whitespace. Below 256 the only decimal digits are ['0'] to ['9']. *)
Definition py_int (s : string) : result Z :=
  let literal := strip (list_ascii_of_string s) in
  let parsed :=
    match literal with
    | c :: r =>
        if Ascii.eqb c "-" then Z.opp <$> parse_digits 0 false r
        else if Ascii.eqb c "+" then parse_digits 0 false r
        else parse_digits 0 false (c :: r)
    | [] => None
    end in
  match parsed with
  | Some z => if MAX_STR_DIGITS <? count_digits literal then Raise ValueError else Ok z
  | None => Raise ValueError
  end.

(** [s.split('-')[-1]]: what follows the last ['-'], or [s] itself. *)
Fixpoint last_segment (acc : list ascii) (l : list ascii) : list ascii :=
  match l with
  | [] => rev acc
  | c :: r => if Ascii.eqb c "-" then last_segment [] r else last_segment (c :: acc) r
  end.

Definition split_last (s : string) : string :=
  string_of_list_ascii (last_segment [] (list_ascii_of_string s)).

(** A callback output: a value, or [dash.no_update]. *)
Inductive output (A : Type) : Type :=
| no_update
| update (a : A).
Arguments no_update {A}.
Arguments update {A} a.

(** ** The single-page dashboard *)

Module V1.

Definition DEFAULT_DISPLAY_POINTS : Z := 50.

Definition create_base_figure (title : string) : figure :=
  mkFigure title (Some 360) (Some "Time"%string) (Some "Value"%string) [] None None.

(** The zoom/pan block of [update_graphs]: each axis is looked up only
    when both of its bounds are in the payload. *)
Definition apply_relayout (is_running : bool) (relayout_data : option dict)
    (fig : figure) : result figure :=
  if negb is_running && dict_truthy relayout_data then
    match relayout_data with
    | Some r =>
        rbind
          (if dict_in "xaxis.range[0]" r && dict_in "xaxis.range[1]" r then
             rbind (dict_item r "xaxis.range[0]") (fun lo =>
             rbind (dict_item r "xaxis.range[1]") (fun hi =>
             Ok (set_xaxis_range fig lo hi)))
           else Ok fig)
          (fun fig =>
             if dict_in "yaxis.range[0]" r && dict_in "yaxis.range[1]" r then
               rbind (dict_item r "yaxis.range[0]") (fun lo =>
               rbind (dict_item r "yaxis.range[1]") (fun hi =>
               Ok (set_yaxis_range fig lo hi)))
             else Ok fig)
    | None => Ok fig
    end
  else Ok fig.

(** The dict comprehension that slices every channel. *)
Fixpoint slice_channels (sd : list (string * deque float)) (start : num) (stop : Z)
  : result (list (string * list float)) :=
  match sd with
  | [] => Ok []
  | (name, buf) :: rest =>
      rbind (islice_from (items buf) start stop) (fun ys =>
      rbind (slice_channels rest start stop) (fun more =>
      Ok ((name, ys) :: more)))
  end.

Definition update_graphs (w : world) (n : json) (is_running : bool)
    (settings : option dict)
    (relayout1 relayout2 relayout3 relayout4 : option dict) : M (list figure) :=
  ((if is_running then generate_new_data w else ret tt) ;;;
   settings <- match settings with
               | Some d => ret d
               | None => raise AttributeError
               end ;;
   let display_points := dict_get settings "display_points" (JInt DEFAULT_DISPLAY_POINTS) in
   let line_shape := dict_get settings "line_shape" (JStr "linear") in
   let show_markers := json_eq_str (dict_get settings "show_markers" JNull) "on" in
   let marker_size := dict_get settings "marker_size" (JInt 6) in
   st <- get ;;
   let num_points := len (items (time_data st)) in
   diff <- lift (int_sub num_points display_points) ;;
   let start_index := max0 diff in
   x_slice <- lift (islice_from (items (time_data st)) start_index num_points) ;;
   sensor_slices <- lift (slice_channels (sensor_data st) start_index num_points) ;;
   let mode := if show_markers then "lines+markers"%string else "lines"%string in
   let marker_dict :=
     if show_markers
     then [("size"%string, marker_size); ("color"%string, JStr "#3B82F6")]
     else [] in
   let line_dict :=
     [("shape"%string, line_shape); ("width"%string, JInt 2);
      ("color"%string, JStr "#3B82F6")] in
   let create_trace x_data y_data :=
     go_Scatter x_data y_data mode marker_dict line_dict in
   mapM (fun ir : Z * option dict =>
           let i := fst ir in
           let relayout_data := snd ir in
           let sensor_name := ("s" +:+ pretty i)%string in
           let fig := create_base_figure ("Sensor " +:+ pretty i) in
           fig <- (if nonempty x_slice
                   then ys <- lift (assoc_item sensor_slices sensor_name) ;;
                        trace <- lift (create_trace x_slice ys) ;;
                        ret (add_trace fig trace)
                   else ret fig) ;;
           lift (apply_relayout is_running relayout_data fig))
        [(1, relayout1); (2, relayout2); (3, relayout3); (4, relayout4)])%py.

(** One firing of the interval: the arguments Dash passes to
    [update_graphs]. *)
Record tick : Type := mkTick {
  t_world : world;
  t_n : json;
  t_is_running : bool;
  t_settings : option dict;
  t_relayout1 : option dict;
  t_relayout2 : option dict;
  t_relayout3 : option dict;
  t_relayout4 : option dict
}.

Definition on_interval (t : tick) : M (list figure) :=
  update_graphs (t_world t) (t_n t) (t_is_running t) (t_settings t)
    (t_relayout1 t) (t_relayout2 t) (t_relayout3 t) (t_relayout4 t).

(** The buffers after a sequence of ticks. *)
Definition run (ticks : list tick) (st : store) : store :=
  fold_left (fun st t => snd (on_interval t st)) ticks st.


(** [toggle_settings_visibility]: the settings and the close button both
    flip the visibility. *)
Definition toggle_settings_visibility (settings_clicks close_clicks : json)
    (is_visible : bool) : bool :=
  negb is_visible.

(** [show_hide_settings_modal]: the [display] style of the modal. *)
Definition show_hide_settings_modal (is_visible : bool) : string :=
  if is_visible then "flex"%string else "none"%string.

(** [toggle_marker_size_slider]: whether the slider is disabled. *)
Definition toggle_marker_size_slider (marker_status : json) : bool :=
  json_eq_str marker_status "off".

(** [sync_settings_to_store] *)
Definition sync_settings_to_store (display_points line_shape show_markers marker_size : json)
  : dict :=
  <["marker_size"%string := marker_size]>
    (<["show_markers"%string := show_markers]>
       (<["line_shape"%string := line_shape]>
          (<["display_points"%string := display_points]> ∅))).

(** What the browser sends to the server: a click on the capture button or a
    firing of the interval, the latter with the state Dash reads for
    [update_graphs] except the capture state, which the running store
    holds. *)
Inductive event : Type :=
| Click (n_clicks : json)
| Interval (w : world) (n : json) (settings : option dict)
    (relayout1 relayout2 relayout3 relayout4 : option dict).

(** The running store and the buffers after one event. *)
Definition app_step (state : bool * store) (ev : event) : bool * store :=
  match ev with
  | Click n_clicks => (toggle_running_state n_clicks (fst state), snd state)
  | Interval w n settings r1 r2 r3 r4 =>
      (fst state, snd (update_graphs w n (fst state) settings r1 r2 r3 r4 (snd state)))
  end.

(** The running store starts at [False], the buffers empty. *)
Definition app_run (events : list event) : bool * store :=
  fold_left app_step events (false, initial_store).

End V1.

(** ** The multi-page dashboard *)

Module V2.

Definition DEFAULT_DISPLAY_POINTS_DASH : Z := 100.
Definition DEFAULT_DISPLAY_POINTS_DETAIL : Z := 500.
Definition ID_INTERVAL : string := "interval-component".
Definition ID_DETAIL_SETTINGS_STORE : string := "detail-settings-store".

(** [create_base_figure(title_text="", height=360)] *)
Definition create_base_figure (title_text : string) (height : option Z) : figure :=
  mkFigure title_text height None None [] None None.

(** [settings or {}] *)
Definition or_empty (settings : option dict) : dict :=
  match settings with
  | Some d => d
  | None => ∅
  end.

(** The zoom/pan block of [update_dashboard_graphs]: one test on the two
    lower bounds guards the lookup of all four keys. *)
Definition apply_relayout (is_running : bool) (relayout : option dict)
    (fig : figure) : result figure :=
  if negb is_running && dict_truthy relayout then
    match relayout with
    | Some r =>
        if dict_in "xaxis.range[0]" r && dict_in "yaxis.range[0]" r then
          rbind (dict_item r "xaxis.range[0]") (fun x0 =>
          rbind (dict_item r "xaxis.range[1]") (fun x1 =>
          rbind (dict_item r "yaxis.range[0]") (fun y0 =>
          rbind (dict_item r "yaxis.range[1]") (fun y1 =>
          Ok (set_yaxis_range (set_xaxis_range fig x0 x1) y0 y1)))))
        else Ok fig
    | None => Ok fig
    end
  else Ok fig.

Definition update_dashboard_graphs (w : world) (n : json) (is_running : bool)
    (settings : option dict)
    (relayout1 relayout2 relayout3 relayout4 : option dict) : M (list figure) :=
  ((if is_running then generate_new_data w else ret tt) ;;;
   let settings := or_empty settings in
   let points := dict_get settings "points" (JInt DEFAULT_DISPLAY_POINTS_DASH) in
   let shape := dict_get settings "shape" (JStr "linear") in
   let show_markers := json_eq_str (dict_get settings "markers" JNull) "on" in
   let size := dict_get settings "size" (JInt 6) in
   st <- get ;;
   let num_total := len (items (time_data st)) in
   diff <- lift (int_sub num_total points) ;;
   let start_idx := max0 diff in
   x_slice <- lift (islice_from (items (time_data st)) start_idx num_total) ;;
   let mode := if show_markers then "lines+markers"%string else "lines"%string in
   let marker_dict := if show_markers then [("size"%string, size)] else [] in
   let line_dict := [("shape"%string, shape); ("width"%string, JInt 2)] in
   mapM (fun ir : Z * option dict =>
           let i := fst ir in
           let relayout := snd ir in
           let sensor_name := ("s" +:+ pretty i)%string in
           let fig := create_base_figure ("Sensor " +:+ pretty i) (Some 360) in
           buf <- lift (assoc_item (sensor_data st) sensor_name) ;;
           y_slice <- lift (islice_from (items buf) start_idx num_total) ;;
           fig <- (if nonempty x_slice
                   then trace <- lift (go_Scatter x_slice y_slice mode marker_dict line_dict) ;;
                        ret (add_trace fig trace)
                   else ret fig) ;;
           lift (apply_relayout is_running relayout fig))
        [(1, relayout1); (2, relayout2); (3, relayout3); (4, relayout4)])%py.

(** The [extendData] value: the points to append per trace, the trace
    indices and the number of points to keep. *)
Record extend_data : Type := mkExtend {
  ext_x : list (list datetime);
  ext_y : list (list float);
  ext_traces : list Z;
  ext_max_points : json
}.

(** The [try] block of [update_detail_graph_live]: [None] stands for the
    caught exceptions; a [pathname] of [None] has no [split] and raises an
    [AttributeError], which the [except] clause does not catch. *)
Definition sensor_name_of (pathname : option string) : result (option string) :=
  match pathname with
  | None => Raise AttributeError
  | Some p =>
      match py_int (split_last p) with
      | Ok sensor_index => Ok (Some ("s" +:+ pretty sensor_index)%string)
      | Raise _ => Ok None
      end
  end.

Definition update_detail_graph_live (triggered_id : option string) (n : json)
    (settings : option dict) (pathname : option string) (is_running : bool)
  : M (output figure * output extend_data) :=
  (parsed <- lift (sensor_name_of pathname) ;;
   match parsed with
   | None => ret (no_update, no_update)
   | Some sensor_name =>
       st <- get ;;
       if bool_decide (triggered_id = Some ID_INTERVAL) && is_running
          && nonempty (items (time_data st))
       then
         (* Scenario 1: live update, append one point *)
         new_time <- lift (deque_last (time_data st)) ;;
         buf <- lift (assoc_item (sensor_data st) sensor_name) ;;
         new_value <- lift (deque_last buf) ;;
         settings <- match settings with
                     | Some d => ret d
                     | None => raise AttributeError
                     end ;;
         let points_to_keep :=
           dict_get settings "points" (JInt DEFAULT_DISPLAY_POINTS_DETAIL) in
         ret (no_update,
              update (mkExtend [[new_time]] [[new_value]] [0] points_to_keep))
       else
         (* Scenario 2: page load or settings change, full redraw *)
         let settings := or_empty settings in
         let points := dict_get settings "points" (JInt DEFAULT_DISPLAY_POINTS_DETAIL) in
         let shape := dict_get settings "shape" (JStr "spline") in
         let show_markers := json_eq_str (dict_get settings "markers" JNull) "on" in
         let size := dict_get settings "size" (JInt 6) in
         let num_total := len (items (time_data st)) in
         diff <- lift (int_sub num_total points) ;;
         let start_idx := max0 diff in
         x_slice <- lift (islice_from (items (time_data st)) start_idx num_total) ;;
         buf <- lift (assoc_item (sensor_data st) sensor_name) ;;
         y_slice <- lift (islice_from (items buf) start_idx num_total) ;;
         let fig := create_base_figure "" None in
         let mode := if show_markers then "lines+markers"%string else "lines"%string in
         let marker_dict := if show_markers then [("size"%string, size)] else [] in
         let line_dict := [("shape"%string, shape); ("width"%string, JInt 2)] in
         fig <- (if nonempty x_slice
                 then trace <- lift (go_Scatter x_slice y_slice mode marker_dict line_dict) ;;
                      ret (add_trace fig trace)
                 else ret fig) ;;
         ret (update fig, no_update)
   end)%py.

(** What [display_page] renders for a path. *)
Inductive page : Type :=
| PageDashboard
| PageDetail (sensor_index : Z)
| PageNotFound.

Definition display_page (pathname : option string) : page :=
  let detail :=
    match pathname with
    | Some p =>
        if negb (bool_decide (p = ""%string)) && String.prefix "/sensor-" p then
          match py_int (split_last p) with
          | Ok sensor_index =>
              if (1 <=? sensor_index) && (sensor_index <=? 4)
              then Some sensor_index else None
          | Raise _ => None
          end
        else None
    | None => None
    end in
  match detail with
  | Some sensor_index => PageDetail sensor_index
  | None =>
      if bool_decide (pathname = Some "/"%string) then PageDashboard
      else PageNotFound
  end.

(** One firing of the interval, with the state Dash reads for the
    callbacks it triggers. *)
Record tick : Type := mkTick {
  t_world : world;
  t_n : json;
  t_pathname : option string;
  t_is_running : bool;
  t_dash_settings : option dict;
  t_detail_settings : option dict;
  t_relayout1 : option dict;
  t_relayout2 : option dict;
  t_relayout3 : option dict;
  t_relayout4 : option dict
}.

Inductive tick_output : Type :=
| DashboardFigures (figs : list figure)
| DetailGraph (out : output figure * output extend_data)
| NoOutput.

(** The interval is an input of [update_dashboard_graphs] and of
    [update_detail_graph_live]. Dash runs a callback only when its outputs
    are in the page: the four dashboard graphs are laid out by
    [create_layout_dashboard] alone, the detail graph by
    [create_layout_sensor_detail] alone, and the not-found page has
    neither. *)
Definition on_interval (t : tick) : M tick_output :=
  match display_page (t_pathname t) with
  | PageDashboard =>
      (figs <- update_dashboard_graphs (t_world t) (t_n t) (t_is_running t)
                 (t_dash_settings t) (t_relayout1 t) (t_relayout2 t)
                 (t_relayout3 t) (t_relayout4 t) ;;
       ret (DashboardFigures figs))%py
  | PageDetail _ =>
      (out <- update_detail_graph_live (Some ID_INTERVAL) (t_n t)
                (t_detail_settings t) (t_pathname t) (t_is_running t) ;;
       ret (DetailGraph out))%py
  | PageNotFound => ret NoOutput
  end.

(** The buffers after a sequence of ticks. *)
Definition run (ticks : list tick) (st : store) : store :=
  fold_left (fun st t => snd (on_interval t st)) ticks st.


(** [toggle_settings_modal]: the [display] style of the modal. *)
Definition toggle_settings_modal (triggered_id : option string) (n1 n2 : json) : string :=
  let is_opening := bool_decide (triggered_id = Some ID_BTN_SETTINGS) in
  if is_opening then "flex"%string else "none"%string.

(** [toggle_dash_marker_slider]: whether the slider is disabled. *)
Definition toggle_dash_marker_slider (marker_status : json) : bool :=
  json_eq_str marker_status "off".

(** [toggle_detail_marker_slider_visibility]: the [display] style of the
    slider's wrapper. *)
Definition toggle_detail_marker_slider_visibility (marker_status : json) : string :=
  if json_eq_str marker_status "on" then "grid"%string else "none"%string.

(** [sync_dash_settings_to_store] and [sync_detail_settings_to_store] build
    the same dict. *)
Definition sync_dash_settings_to_store (points shape markers size : json) : dict :=
  <["size"%string := size]>
    (<["markers"%string := markers]>
       (<["shape"%string := shape]> (<["points"%string := points]> ∅))).

Definition sync_detail_settings_to_store (points shape markers size : json) : dict :=
  <["size"%string := size]>
    (<["markers"%string := markers]>
       (<["shape"%string := shape]> (<["points"%string := points]> ∅))).

(** A [dcc.Link] of the navigation header. *)
Record nav_link : Type := mkLink {
  link_label : string;
  link_href : string;
  link_className : string
}.

(** The second output of [display_page]: the dashboard link, then one link per
    sensor, the link to the current path marked active. *)
Definition nav_links (pathname : option string) : list nav_link :=
  let links :=
    mkLink "Dashboard" "/" "nav-link"
      :: map (fun i : Z => mkLink ("Sensor " +:+ pretty i) ("/sensor-" +:+ pretty i) "nav-link")
             [1; 2; 3; 4] in
  map (fun link =>
         if bool_decide (Some (link_href link) = pathname)
         then mkLink (link_label link) (link_href link) (link_className link +:+ " active")
         else link)
      links.

End V2.

(** ** Notions used in the statements *)

(** The Window Extractor as the specification words it:
    [window(totalLength, displayPoints) = (start, end)] with
    [start = max(0, totalLength - displayPoints)] and [end = totalLength].
    The programs have no such function; they compute the two bounds in
    line, and the theorems compare. *)
Definition spec_window (totalLength displayPoints : Z) : Z * Z :=
  (Z.max 0 (totalLength - displayPoints), totalLength).

(** A computation that leaves the buffers as it found them. *)
Definition read_only {A} (c : M A) : Prop :=
  forall st, snd (c st) = st.

(** The shape of the buffers the programs create and maintain: the four
    channels in order, every buffer with the common bound, every channel
    as long as the timestamp buffer, and no buffer longer than the bound. *)
Definition store_ok (st : store) : Prop :=
  maxlen (time_data st) = MAX_BUFFER_SIZE /\
  map fst (sensor_data st) = ["s1"; "s2"; "s3"; "s4"]%string /\
  Forall (fun nb => maxlen (snd nb) = MAX_BUFFER_SIZE /\
                    length (items (snd nb)) = length (items (time_data st)))
         (sensor_data st) /\
  len (items (time_data st)) <= MAX_BUFFER_SIZE.

(** The trace settings of a settings dict that Plotly accepts: the line
    shape and, when the markers are on, the marker size. *)
Definition V1_trace_ok (settings : dict) : bool :=
  valid_line_shape (dict_get settings "line_shape" (JStr "linear")) &&
  (negb (json_eq_str (dict_get settings "show_markers" JNull) "on")
   || valid_marker_size (dict_get settings "marker_size" (JInt 6))).

Definition V2_trace_ok (default_shape : string) (settings : dict) : bool :=
  valid_line_shape (dict_get settings "shape" (JStr default_shape)) &&
  (negb (json_eq_str (dict_get settings "markers" JNull) "on")
   || valid_marker_size (dict_get settings "size" (JInt 6))).

(** A display-point count for which the start of the window is an index
    [islice] accepts, whatever the buffers hold: the count is not below
    [MAX_BUFFER_SIZE - sys.maxsize]. *)
Definition points_ok (display_points : Z) : Prop :=
  MAX_BUFFER_SIZE - display_points <= sys_maxsize.

(** A figure without any axis-range override. *)
Definition no_override (fig : figure) : Prop :=
  fig_xaxis_range fig = None /\ fig_yaxis_range fig = None.

(** The items of [l] at the indices [start <= i < stop], for a range
    [(start, stop)]. *)
Definition items_between {A} (l : list A) (range : Z * Z) : list A :=
  take (Z.to_nat (snd range) - Z.to_nat (fst range))%nat
       (drop (Z.to_nat (fst range)) l).

(** The items of a channel buffer, by name. *)
Definition channel_items (st : store) (name : string) : list float :=
  match assoc_item (sensor_data st) name with
  | Ok buf => items buf
  | Raise _ => []
  end.

(** Chart Assembly before the overlay, for sensor [i] of the single-page
    dashboard: the base figure, with one trace over the window unless the
    window is empty. *)
Definition V1_chart (settings : dict) (st : store) (display_points i : Z) : figure :=
  let range := spec_window (len (items (time_data st))) display_points in
  let xs := items_between (items (time_data st)) range in
  let ys := items_between (channel_items st ("s" +:+ pretty i)) range in
  let show_markers := json_eq_str (dict_get settings "show_markers" JNull) "on" in
  let trace :=
    mkScatter xs ys
      (if show_markers then "lines+markers" else "lines")%string
      (if show_markers
       then [("size"%string, dict_get settings "marker_size" (JInt 6));
             ("color"%string, JStr "#3B82F6")]
       else [])
      [("shape"%string, dict_get settings "line_shape" (JStr "linear"));
       ("width"%string, JInt 2); ("color"%string, JStr "#3B82F6")] in
  let fig := V1.create_base_figure ("Sensor " +:+ pretty i) in
  if nonempty xs then add_trace fig trace else fig.

(** The same for a chart of the multi-page program: [title] and [height]
    are those of the dashboard ([Sensor i], 360) or of the detail page
    (none), [default_shape] the page's default line shape. *)
Definition V2_chart (title : string) (height : option Z) (default_shape : string)
    (settings : dict) (st : store) (display_points i : Z) : figure :=
  let range := spec_window (len (items (time_data st))) display_points in
  let xs := items_between (items (time_data st)) range in
  let ys := items_between (channel_items st ("s" +:+ pretty i)) range in
  let show_markers := json_eq_str (dict_get settings "markers" JNull) "on" in
  let trace :=
    mkScatter xs ys
      (if show_markers then "lines+markers" else "lines")%string
      (if show_markers
       then [("size"%string, dict_get settings "size" (JInt 6))]
       else [])
      [("shape"%string, dict_get settings "shape" (JStr default_shape));
       ("width"%string, JInt 2)] in
  let fig := V2.create_base_figure title height in
  if nonempty xs then add_trace fig trace else fig.

(** The timestamps and the values a figure plots. *)
Definition fig_xs (fig : figure) : list datetime := concat (map sc_x (fig_data fig)).
Definition fig_ys (fig : figure) : list float := concat (map sc_y (fig_data fig)).

(** The Axis-Range Overlay as the specification words it, for one axis:
    while paused, a payload that holds both bounds of the axis sets the range;
    otherwise the range stays as it is. *)
Definition spec_overlay_axis (isPaused : bool) (capturedRange : option dict)
    (lower upper : string) (current : option (json * json)) : option (json * json) :=
  if isPaused then
    match capturedRange with
    | Some r =>
        match r !! lower, r !! upper with
        | Some lo, Some hi => Some (lo, hi)
        | _, _ => current
        end
    | None => current
    end
  else current.

Definition spec_overlay (isPaused : bool) (capturedRange : option dict)
    (chartDef : figure) : figure :=
  mkFigure (fig_title chartDef) (fig_height chartDef) (fig_xaxis_title chartDef)
    (fig_yaxis_title chartDef) (fig_data chartDef)
    (spec_overlay_axis isPaused capturedRange "xaxis.range[0]" "xaxis.range[1]"
       (fig_xaxis_range chartDef))
    (spec_overlay_axis isPaused capturedRange "yaxis.range[0]" "yaxis.range[1]"
       (fig_yaxis_range chartDef)).

(** The export table holds the buffers of [st], row by row. *)
Definition export_reflects (w : world) (n_clicks : json) (st : store) : Prop :=
  exists df b1 b2 b3 b4,
    export_data_as_csv w n_clicks st = (Ok (mkDownload df (now w)), st) /\
    sensor_data st = [("s1", b1); ("s2", b2); ("s3", b3); ("s4", b4)]%string /\
    columns df = ["timestamp"; "s1"; "s2"; "s3"; "s4"]%string /\
    length (rows df) = length (items (time_data st)) /\
    forall (k : nat) (t : datetime),
      items (time_data st) !! k = Some t ->
      exists v1 v2 v3 v4,
        items b1 !! k = Some v1 /\ items b2 !! k = Some v2 /\
        items b3 !! k = Some v3 /\ items b4 !! k = Some v4 /\
        rows df !! k = Some [CTime t; CNum v1; CNum v2; CNum v3; CNum v4].

(** ** Notions used for the further properties *)

(** A value within the plot range. *)
Definition in_range (v : float) : Prop :=
  ((0 <=? v) && (v <=? 120))%float = true.

(** The ticks of an event sequence that happen while capture is on, given
    the capture state it starts in. *)
Fixpoint generating (is_running : bool) (events : list V1.event) : list world :=
  match events with
  | [] => []
  | V1.Click _ :: rest => generating (negb is_running) rest
  | V1.Interval w _ _ _ _ _ _ :: rest =>
      (if is_running then [w] else []) ++ generating is_running rest
  end.

(** The number of clicks in an event sequence. *)
Definition clicks (events : list V1.event) : nat :=
  length (List.filter (fun ev => match ev with V1.Click _ => true | _ => false end) events).

(** Whether a tick of the multi-page program generates data: capture is on
    and the dashboard page is shown. *)
Definition V2_generates (t : V2.tick) : bool :=
  V2.t_is_running t &&
  match V2.display_page (V2.t_pathname t) with
  | V2.PageDashboard => true
  | _ => false
  end.

(** A string whose characters are all digits. *)
Definition all_digits (l : list ascii) : Prop :=
  Forall (fun c => (exists d, digit_of c = Some d) /\
                   Ascii.eqb c "-" = false /\ Ascii.eqb c "+" = false /\
                   is_space c = false) l.

(** ** Sample inputs *)

(** A pan along the x-axis captured while paused: both x bounds, no y
    bound. *)
Definition zoom_x : dict :=
  {[ "xaxis.range[0]"%string := JStr "2025-01-01 10:00:00";
     "xaxis.range[1]"%string := JStr "2025-01-01 10:05:00" ]}.

(** A drag of the lower-left corner of the plot: the lower bound of each
    axis, no upper bound. *)
Definition corner_drag : dict :=
  {[ "xaxis.range[0]"%string := JStr "2025-01-01 10:00:00";
     "yaxis.range[0]"%string := JFloat 40.5 ]}.

Definition paused_world : world := mkWorld 2000000 (fun _ => 0%float).

(** One tick on the dashboard page while capture is running. *)
Definition one_sample : list V2.tick :=
  [V2.mkTick (mkWorld 1000000 (fun _ => 1.5%float)) (JInt 1) (Some "/"%string) true
     None None None None None None].

(** ** Ring buffer lemmas *)

Section DequeFacts.
Context {A : Type}.
Implicit Types (d : deque A) (xs : list A) (x : A).

Lemma deque_append_maxlen d x : maxlen (deque_append d x) = maxlen d.
Proof. reflexivity. Qed.

Lemma deque_extend_maxlen xs : forall d, maxlen (deque_extend d xs) = maxlen d.
Proof.
  unfold deque_extend.
  induction xs as [|x xs IH]; intros d; simpl; [reflexivity|].
  rewrite IH. apply deque_append_maxlen.
Qed.

Lemma deque_extend_snoc d xs x :
  deque_extend d (xs ++ [x]) = deque_append (deque_extend d xs) x.
Proof. unfold deque_extend. rewrite fold_left_app. reflexivity. Qed.

Lemma tail_drop (k : nat) xs : tail (drop k xs) = drop (S k) xs.
Proof.
  revert k; induction xs as [|y ys IH]; intros k.
  - destruct k; reflexivity.
  - destruct k as [|k]; simpl.
    + rewrite drop_0. reflexivity.
    + apply IH.
Qed.

Lemma tail_snoc xs x : xs <> [] -> tail (xs ++ [x]) = tail xs ++ [x].
Proof. destruct xs; [congruence | reflexivity]. Qed.

(** Appending to a deque that is full drops the oldest item; below the
    bound the item is simply added. *)
Lemma deque_append_items d x :
  0 < maxlen d ->
  items (deque_append d x) =
    if len (items d) <? maxlen d then items d ++ [x]
    else tail (items d) ++ [x].
Proof.
  intros Hpos. unfold deque_append, len; simpl.
  rewrite length_app; simpl.
  destruct (Z.ltb_spec (maxlen d) (Z.of_nat (length (items d) + 1)));
    destruct (Z.ltb_spec (Z.of_nat (length (items d))) (maxlen d));
    try lia; try reflexivity.
  apply tail_snoc. intros E. rewrite E in *. simpl in *. lia.
Qed.

(** What a deque created empty holds after a sequence of appends: the last
    [maxlen] of them, in the order they were appended. *)
Lemma deque_extend_new (c : Z) xs :
  items (deque_extend (deque_new c) xs) =
    drop (length xs - Z.to_nat c) xs.
Proof.
  induction xs as [|x xs IH] using rev_ind.
  - reflexivity.
  - rewrite deque_extend_snoc. unfold deque_append.
    rewrite deque_extend_maxlen, IH. simpl. unfold len.
    rewrite !length_app, length_drop. simpl.
    destruct (Z.ltb_spec c (Z.of_nat (length xs - (length xs - Z.to_nat c) + 1))) as [Hlt|Hge].
    + assert (Hc : (Z.to_nat c <= length xs)%nat) by lia.
      replace (length xs + 1 - Z.to_nat c)%nat
        with (S (length xs - Z.to_nat c)) by lia.
      destruct (decide (Z.to_nat c = 0%nat)) as [Hz|Hnz].
      * rewrite Hz, Nat.sub_0_r.
        rewrite !drop_ge by (rewrite ?length_app; simpl; lia).
        reflexivity.
      * rewrite tail_snoc.
        -- rewrite tail_drop, drop_app_le by lia. reflexivity.
        -- intros E. apply (f_equal length) in E.
           rewrite length_drop in E. simpl in E. lia.
    + replace (length xs + 1 - Z.to_nat c)%nat with 0%nat by lia.
      replace (length xs - Z.to_nat c)%nat with 0%nat by lia.
      rewrite !drop_0. reflexivity.
Qed.
End DequeFacts.

(** ** Signal generator lemmas *)

Section FloatOrder.
#[local] Open Scope float_scope.

Lemma ltb_leb (x y : float) : (x <? y) = true -> (x <=? y) = true.
Proof.
  rewrite ltb_spec, leb_spec. unfold SFltb, SFleb.
  destruct (SFcompare (Prim2SF x) (Prim2SF y)) as [[]|]; congruence.
Qed.

Lemma SFmul_comm (prec emax : Z) (x y : spec_float) :
  SFmul prec emax x y = SFmul prec emax y x.
Proof.
  destruct x as [sx|sx| |sx mx ex], y as [sy|sy| |sy my ey]; simpl;
    rewrite ?(xorb_comm sx sy); try reflexivity.
  rewrite (Pos.mul_comm mx my), (Z.add_comm ex ey). reflexivity.
Qed.

Lemma float_mul_comm (x y : float) : x * y = y * x.
Proof.
  apply Prim2SF_inj. rewrite !mul_spec. apply SFmul_comm.
Qed.

(** The three outcomes of the clamp. *)
Lemma clamp_cases (v : float) :
  clamp v =
    if v <? 120 then (if 0 <? v then v else 0) else 120.
Proof.
  unfold clamp, py_max, py_min.
  destruct (v <? 120); reflexivity.
Qed.

(** Whatever the float, a NaN or an infinity included, the clamp returns
    a value between 0 and 120. *)
Lemma clamp_bounds (v : float) :
  (0 <=? clamp v) = true /\ (clamp v <=? 120) = true.
Proof.
  rewrite clamp_cases.
  destruct (v <? 120) eqn:Hhi; [destruct (0 <? v) eqn:Hlo|].
  - split; apply ltb_leb; assumption.
  - split; reflexivity.
  - split; reflexivity.
Qed.
End FloatOrder.

(** Every channel buffer receives the clamped random-walk step of its own
    last value. *)
Lemma generate_channels_spec (w : world) (sd : list (string * deque float)) :
  forall k,
    Forall2 (fun old new =>
               fst new = fst old /\
               exists j : nat,
                 snd new =
                   deque_append (snd old)
                     (clamp (new_val (last_or_default (snd old)) (uniform w j))))
            sd (generate_channels w k sd).
Proof.
  induction sd as [|[name buffer] rest IH]; intros k; simpl.
  - constructor.
  - constructor; [|apply IH].
    simpl. split; [reflexivity|]. exists k. reflexivity.
Qed.

(** C9. The generator computes [last_val + u - 0.1 * (last_val - 50)] for the
    draw [u] and clamps it: the sample is that value when it lies strictly
    between 0 and 120, and 0 or 120 otherwise. The last value is the newest
    item of the channel buffer, and 50.0 when the buffer is empty. A channel
    whose newest item is [last_val] is appended the sample computed from
    [last_val] and its own draw, an empty channel the sample computed from
    50.0, and [generate_new_data] does so for every channel. For a last
    value in [0, 120] and a draw in [-2.5, 2.5] the sample lies in
    [0, 120]. *)
Theorem generator_bounds (last_val u : float) :
  ((0 <=? last_val) && (last_val <=? 120))%float = true ->
  ((-2.5 <=? u) && (u <=? 2.5))%float = true ->
  let sample := clamp (new_val last_val u) in
  new_val last_val u = (last_val + u - 0.1 * (last_val - 50))%float /\
  sample = (if (new_val last_val u <? 120)%float
            then (if (0 <? new_val last_val u)%float then new_val last_val u else 0%float)
            else 120%float) /\
  ((0 <=? sample) && (sample <=? 120))%float = true /\
  (forall (buffer : deque float) (older : list float),
     items buffer = older ++ [last_val] -> last_or_default buffer = last_val) /\
  (forall c : Z, last_or_default (deque_new c) = 50%float) /\
  (forall (w : world) (k : nat) (name : string) (buffer : deque float) older rest,
     items buffer = older ++ [last_val] -> uniform w k = u ->
     generate_channels w k ((name, buffer) :: rest) =
       (name, deque_append buffer sample) :: generate_channels w (S k) rest) /\
  (forall (w : world) (k : nat) (name : string) (c : Z) rest,
     uniform w k = u ->
     generate_channels w k ((name, deque_new c) :: rest) =
       (name, deque_append (deque_new c) (clamp (new_val 50 u)))
         :: generate_channels w (S k) rest) /\
  (forall (w : world) (st : store),
     generate_new_data w st =
       (Ok tt, mkStore (deque_append (time_data st) (now w))
                       (generate_channels w 0 (sensor_data st)))).
Proof.
  intros _ _ sample. subst sample.
  assert (Hlast : forall (buffer : deque float) (older : list float),
             items buffer = older ++ [last_val] -> last_or_default buffer = last_val).
  { intros buffer older E. unfold last_or_default. rewrite E, last_snoc. reflexivity. }
  repeat split.
  - unfold new_val. rewrite (float_mul_comm 0.1). reflexivity.
  - apply clamp_cases.
  - destruct (clamp_bounds (new_val last_val u)) as [H0 H1].
    rewrite H0, H1. reflexivity.
  - exact Hlast.
  - intros w k name buffer older rest E Hu. simpl.
    rewrite (Hlast buffer older E), Hu. reflexivity.
  - intros w k name c rest Hu. simpl. rewrite Hu. reflexivity.
Qed.

Lemma generator_bounds_witness :
  let sample := clamp (new_val 119.5 2.5) in
  let buffer := mkDeque MAX_BUFFER_SIZE [30; 119.5]%float in
  ((0 <=? sample) && (sample <=? 120))%float = true /\
  last_or_default buffer = 119.5%float /\
  generate_channels (mkWorld 0 (fun _ => 2.5%float)) 0 [("s1"%string, buffer)] =
    [("s1"%string, deque_append buffer sample)].
Proof.
  intros sample buffer.
  assert (Hl : ((0 <=? 119.5) && (119.5 <=? 120))%float = true) by reflexivity.
  assert (Hu : ((-2.5 <=? 2.5) && (2.5 <=? 2.5))%float = true) by reflexivity.
  destruct (generator_bounds 119.5 2.5 Hl Hu) as (_ & _ & H3 & H4 & _ & H6 & _).
  split; [exact H3|]. split.
  - apply (H4 buffer [30%float]). reflexivity.
  - apply (H6 (mkWorld 0 (fun _ => 2.5%float)) 0%nat "s1"%string buffer [30%float] []);
      reflexivity.
Defined.

(** ** The callback monad *)

Section ReadOnly.
Context {A B : Type}.

Lemma read_only_ret (a : A) : read_only (ret a).
Proof. intros st. reflexivity. Qed.

Lemma read_only_raise (e : exn) : read_only (@raise A e).
Proof. intros st. reflexivity. Qed.

Lemma read_only_lift (r : result A) : read_only (lift r).
Proof. intros st. reflexivity. Qed.

Lemma read_only_get : read_only get.
Proof. intros st. reflexivity. Qed.

Lemma read_only_bind (c : M A) (k : A -> M B) :
  read_only c -> (forall a, read_only (k a)) -> read_only (bind c k).
Proof.
  intros Hc Hk st. unfold bind. specialize (Hc st).
  destruct (c st) as [[a|e] st']; simpl in *; subst st'.
  - apply Hk.
  - reflexivity.
Qed.

Lemma read_only_mapM (f : A -> M B) (l : list A) :
  (forall a, read_only (f a)) -> read_only (mapM f l).
Proof.
  intros Hf. induction l as [|a l IH]; simpl.
  - intros st. reflexivity.
  - intros st. unfold bind. specialize (Hf a st).
    destruct (f a st) as [[b|e] st1]; simpl in *; subst st1; [|reflexivity].
    specialize (IH st).
    destruct (mapM f l st) as [[bs|e] st2]; simpl in *; subst st2; reflexivity.
Qed.

(** The buffers after [c ;; k] when [k] only reads. *)
Lemma snd_bind_read_only (c : M A) (k : A -> M B) (st : store) :
  (forall a, read_only (k a)) -> snd (bind c k st) = snd (c st).
Proof.
  intros Hk. unfold bind.
  destruct (c st) as [[a|e] st']; simpl; [apply Hk | reflexivity].
Qed.
End ReadOnly.

Ltac ro_step :=
  first
    [ apply read_only_bind; [|intros ?]
    | apply read_only_mapM; intros ?
    | apply read_only_ret | apply read_only_raise
    | apply read_only_lift | apply read_only_get
    | match goal with |- read_only (match ?x with _ => _ end) => destruct x end
    | match goal with |- read_only (if ?b then _ else _) => destruct b end ].

(** ** What a tick does to the buffers *)

Lemma V1_update_graphs_store w n is_running settings r1 r2 r3 r4 st :
  snd (V1.update_graphs w n is_running settings r1 r2 r3 r4 st) =
    if is_running then snd (generate_new_data w st) else st.
Proof.
  unfold V1.update_graphs.
  rewrite snd_bind_read_only.
  - destruct is_running; reflexivity.
  - intros _. repeat ro_step.
Qed.

Lemma V2_update_dashboard_graphs_store w n is_running settings r1 r2 r3 r4 st :
  snd (V2.update_dashboard_graphs w n is_running settings r1 r2 r3 r4 st) =
    if is_running then snd (generate_new_data w st) else st.
Proof.
  unfold V2.update_dashboard_graphs.
  rewrite snd_bind_read_only.
  - destruct is_running; reflexivity.
  - intros _. repeat ro_step.
Qed.

Lemma V2_update_detail_read_only trig n settings pathname is_running :
  read_only (V2.update_detail_graph_live trig n settings pathname is_running).
Proof.
  unfold V2.update_detail_graph_live. repeat ro_step.
Qed.

(** ** The parallel-buffer invariant *)

Lemma deque_append_length {A} (d : deque A) (x : A) :
  length (items (deque_append d x)) =
    if maxlen d <? len (items d) + 1 then length (items d)
    else S (length (items d)).
Proof.
  unfold deque_append, len. simpl. rewrite length_app. simpl.
  replace (Z.of_nat (length (items d) + 1)) with (Z.of_nat (length (items d)) + 1) by lia.
  destruct (maxlen d <? Z.of_nat (length (items d)) + 1).
  - destruct (items d); simpl; [reflexivity|].
    rewrite length_app. simpl. lia.
  - rewrite length_app. simpl. lia.
Qed.

Lemma generate_channels_keys w sd : forall k,
  map fst (generate_channels w k sd) = map fst sd.
Proof.
  induction sd as [|[name buffer] rest IH]; intros k; simpl;
    [reflexivity | rewrite IH; reflexivity].
Qed.

Lemma generate_channels_lengths w (c : Z) (m : nat) sd : forall k,
  Forall (fun nb => maxlen (snd nb) = c /\ length (items (snd nb)) = m) sd ->
  Forall (fun nb => maxlen (snd nb) = c /\
                    length (items (snd nb)) =
                      if c <? Z.of_nat m + 1 then m else S m)
         (generate_channels w k sd).
Proof.
  induction sd as [|[name buffer] rest IH]; intros k Hall;
    cbn [generate_channels].
  - constructor.
  - inversion Hall as [|? ? [Hmax Hlen] Hrest]; subst. cbn [snd] in *.
    constructor; [|apply IH; assumption].
    cbn [snd]. split; [reflexivity|].
    rewrite deque_append_length. reflexivity.
Qed.

Lemma generate_new_data_ok w st :
  store_ok st -> store_ok (snd (generate_new_data w st)).
Proof.
  intros (Hmax & Hkeys & Hall & Hlen). unfold generate_new_data, store_ok.
  cbn [snd time_data sensor_data].
  split; [assumption|]. split; [|split].
  - rewrite generate_channels_keys. assumption.
  - rewrite deque_append_length. unfold len. rewrite Hmax.
    apply generate_channels_lengths. assumption.
  - unfold len in *. rewrite deque_append_length. unfold len. rewrite Hmax.
    unfold MAX_BUFFER_SIZE in *.
    destruct (Z.ltb_spec 10000 (Z.of_nat (length (items (time_data st))) + 1)); lia.
Qed.

Lemma initial_store_ok : store_ok initial_store.
Proof.
  unfold store_ok, initial_store. simpl.
  split; [reflexivity|]. split; [reflexivity|].
  split; [repeat constructor | unfold len, MAX_BUFFER_SIZE; simpl; lia].
Qed.

Lemma V1_on_interval_ok t st : store_ok st -> store_ok (snd (V1.on_interval t st)).
Proof.
  intros Hok. unfold V1.on_interval. rewrite V1_update_graphs_store.
  destruct (V1.t_is_running t); [apply generate_new_data_ok|]; assumption.
Qed.

Lemma V1_run_ok ticks : forall st, store_ok st -> store_ok (V1.run ticks st).
Proof.
  unfold V1.run. induction ticks as [|t ticks IH]; intros st Hok; simpl.
  - assumption.
  - apply IH, V1_on_interval_ok, Hok.
Qed.

(** In the multi-page program a tick generates data on the dashboard page
    only. *)
Lemma V2_on_interval_store t st :
  snd (V2.on_interval t st) =
    match V2.display_page (V2.t_pathname t) with
    | V2.PageDashboard =>
        if V2.t_is_running t then snd (generate_new_data (V2.t_world t) st) else st
    | _ => st
    end.
Proof.
  unfold V2.on_interval.
  destruct (V2.display_page (V2.t_pathname t)).
  - rewrite snd_bind_read_only by (intros ?; apply read_only_ret).
    apply V2_update_dashboard_graphs_store.
  - rewrite snd_bind_read_only by (intros ?; apply read_only_ret).
    apply V2_update_detail_read_only.
  - reflexivity.
Qed.

Lemma V2_on_interval_ok t st : store_ok st -> store_ok (snd (V2.on_interval t st)).
Proof.
  intros Hok. rewrite V2_on_interval_store.
  destruct (V2.display_page (V2.t_pathname t)); try assumption.
  destruct (V2.t_is_running t); [apply generate_new_data_ok|]; assumption.
Qed.

Lemma V2_run_ok ticks : forall st, store_ok st -> store_ok (V2.run ticks st).
Proof.
  unfold V2.run. induction ticks as [|t ticks IH]; intros st Hok; simpl.
  - assumption.
  - apply IH, V2_on_interval_ok, Hok.
Qed.

Lemma store_ok_lengths st :
  store_ok st ->
  Forall (fun nb => len (items (snd nb)) = len (items (time_data st)))
         (sensor_data st).
Proof.
  intros (_ & _ & Hall & _). eapply Forall_impl; [exact Hall|].
  intros nb [_ Hlen]. unfold len. rewrite Hlen. reflexivity.
Qed.

(** C4. After any sequence of ticks, in either program, the four channel
    buffers ['s1'] to ['s4'] each have the length of the timestamp buffer;
    and one data-generation step appends one timestamp to the timestamp
    buffer and one value to every channel buffer. *)
Theorem parallel_buffers :
  (forall ticks,
     let st := V1.run ticks initial_store in
     map fst (sensor_data st) = ["s1"; "s2"; "s3"; "s4"]%string /\
     Forall (fun nb => len (items (snd nb)) = len (items (time_data st)))
            (sensor_data st)) /\
  (forall ticks,
     let st := V2.run ticks initial_store in
     map fst (sensor_data st) = ["s1"; "s2"; "s3"; "s4"]%string /\
     Forall (fun nb => len (items (snd nb)) = len (items (time_data st)))
            (sensor_data st)) /\
  (forall w st,
     let st' := snd (generate_new_data w st) in
     time_data st' = deque_append (time_data st) (now w) /\
     Forall2 (fun old new =>
                fst new = fst old /\
                exists v : float, snd new = deque_append (snd old) v)
             (sensor_data st) (sensor_data st')).
Proof.
  split; [|split].
  - intros ticks st.
    pose proof (V1_run_ok ticks _ initial_store_ok) as Hok. fold st in Hok.
    split; [apply Hok | apply store_ok_lengths, Hok].
  - intros ticks st.
    pose proof (V2_run_ok ticks _ initial_store_ok) as Hok. fold st in Hok.
    split; [apply Hok | apply store_ok_lengths, Hok].
  - intros w st st'. subst st'. simpl. split; [reflexivity|].
    eapply Forall2_impl; [apply generate_channels_spec|].
    intros old new [Hk [j Hj]]. split; [assumption|]. eauto.
Qed.

(** ** The ring buffers of the programs *)

(** The clock readings of the ticks that generate data, in order. *)
Lemma V1_run_time_data ticks : forall st,
  time_data (V1.run ticks st) =
    deque_extend (time_data st)
      (flat_map (fun t => if V1.t_is_running t then [now (V1.t_world t)] else [])
                ticks).
Proof.
  unfold V1.run, deque_extend.
  induction ticks as [|t ticks IH]; intros st; simpl; [reflexivity|].
  rewrite IH. unfold V1.on_interval. rewrite V1_update_graphs_store.
  destruct (V1.t_is_running t); reflexivity.
Qed.

(** C3. A buffer of capacity [MAX_BUFFER_SIZE = 10000] that has received the
    appends [xs] (N of them) holds [min N 10000] items, namely the most recent
    10000 of [xs] in insertion order, oldest first; an append to a buffer
    that holds exactly 10000 items drops its oldest item and adds the new one
    at the end, so its length stays 10000; and the timestamp buffer of the
    dashboard is such a buffer, fed with the clock reading of every tick
    that ran while capture was on. *)
Theorem ring_buffer_capacity (A : Type) :
  (forall xs : list A,
     let d := deque_extend (deque_new MAX_BUFFER_SIZE) xs in
     len (items d) = Z.min (len xs) 10000 /\
     items d = drop (length xs - Z.to_nat 10000) xs) /\
  (forall (d : deque A) (x : A),
     maxlen d = MAX_BUFFER_SIZE ->
     len (items d) = 10000 ->
     items (deque_append d x) = tail (items d) ++ [x] /\
     len (items (deque_append d x)) = 10000) /\
  (forall ticks : list V1.tick,
     let stamps :=
       flat_map (fun t => if V1.t_is_running t then [now (V1.t_world t)] else [])
                ticks in
     items (time_data (V1.run ticks initial_store)) =
       drop (length stamps - Z.to_nat 10000) stamps).
Proof.
  split; [|split].
  - intros xs d. subst d. rewrite deque_extend_new.
    change MAX_BUFFER_SIZE with 10000.
    split; [|reflexivity].
    unfold len. rewrite length_drop. lia.
  - intros d x Hmax Hlen.
    rewrite deque_append_items by (rewrite Hmax; reflexivity).
    rewrite Hmax, Hlen. change (10000 <? MAX_BUFFER_SIZE) with false. simpl.
    split; [reflexivity|].
    unfold len in *. rewrite length_app. simpl.
    destruct (items d); simpl in *; lia.
  - intros ticks stamps. rewrite V1_run_time_data.
    apply (deque_extend_new MAX_BUFFER_SIZE).
Qed.

(** ** The visible window *)

Lemma islice_between {A} (l : list A) (start stop : Z) :
  0 <= start <= sys_maxsize -> 0 <= stop <= sys_maxsize ->
  islice l start stop = Ok (items_between l (start, stop)).
Proof.
  intros Hs He. unfold islice, items_between. simpl.
  destruct (Z.ltb_spec start 0); [lia|].
  destruct (Z.ltb_spec stop 0); [lia|].
  destruct (Z.ltb_spec sys_maxsize start); [lia|].
  destruct (Z.ltb_spec sys_maxsize stop); [lia|].
  cbn [orb]. f_equal. unfold len.
  destruct (Z.le_gt_cases start (Z.of_nat (length l))) as [Hin|Hout].
  - replace (Z.to_nat (start `min` Z.of_nat (length l))) with (Z.to_nat start) by lia.
    destruct (Z.le_gt_cases (stop - start) (Z.of_nat (length l))) as [Hn|Hn].
    + f_equal. lia.
    + rewrite !take_ge by (rewrite length_drop; lia). reflexivity.
  - rewrite !drop_ge by lia. rewrite !take_nil. reflexivity.
Qed.

Lemma islice_above {A} (l : list A) (start stop : Z) :
  sys_maxsize < start -> islice l start stop = Raise ValueError.
Proof.
  intros Hs. unfold islice.
  destruct (Z.ltb_spec sys_maxsize start); [|lia].
  rewrite orb_true_r. reflexivity.
Qed.

(** The two bounds the graph callbacks compute in line are the window of the
    specification, as long as [islice] accepts them. *)
Lemma code_window {A} (l : list A) (total display_points : Z) :
  0 <= total <= sys_maxsize ->
  total - display_points <= sys_maxsize ->
  rbind (int_sub total (JInt display_points))
        (fun diff => islice_from l (max0 diff) total) =
    Ok (items_between l (spec_window total display_points)).
Proof.
  intros Ht Hd. simpl. unfold spec_window. apply islice_between; lia.
Qed.

Lemma code_window_above {A} (l : list A) (total display_points : Z) :
  sys_maxsize < total - display_points ->
  rbind (int_sub total (JInt display_points))
        (fun diff => islice_from l (max0 diff) total) = Raise ValueError.
Proof.
  intros Hd. simpl. apply islice_above. lia.
Qed.

(** The lengths of the buffers the programs maintain are far below
    [sys.maxsize]. *)
Lemma store_ok_len st :
  store_ok st -> 0 <= len (items (time_data st)) <= sys_maxsize.
Proof.
  intros (_ & _ & _ & Hlen). unfold MAX_BUFFER_SIZE in *.
  change sys_maxsize with 9223372036854775807 in *.
  unfold len in *. lia.
Qed.

Lemma store_ok_index st (dp : Z) :
  store_ok st -> points_ok dp ->
  0 <= len (items (time_data st)) <= sys_maxsize /\
  len (items (time_data st)) - dp <= sys_maxsize.
Proof.
  intros (_ & _ & _ & Hlen) Hdp. unfold points_ok, MAX_BUFFER_SIZE in *.
  change sys_maxsize with 9223372036854775807 in *.
  unfold len in *. lia.
Qed.

Lemma items_between_lookup {A} (l : list A) (start stop : Z) (i : nat) :
  0 <= start ->
  items_between l (start, stop) !! i =
    if Z.of_nat i <? stop - start then l !! (Z.to_nat start + i)%nat else None.
Proof.
  intros Hs. unfold items_between. simpl.
  destruct (Z.ltb_spec (Z.of_nat i) (stop - start)).
  - rewrite lookup_take_lt by lia. apply lookup_drop.
  - apply lookup_take_ge. lia.
Qed.

Lemma items_between_window {A} (l : list A) (display_points : Z) :
  items_between l (spec_window (len l) display_points) =
    drop (Z.to_nat (len l - display_points)) l.
Proof.
  unfold items_between, spec_window, len. simpl.
  rewrite take_ge by (rewrite length_drop; lia).
  f_equal. lia.
Qed.

Lemma store_ok_shape st :
  store_ok st ->
  exists b1 b2 b3 b4,
    sensor_data st = [("s1", b1); ("s2", b2); ("s3", b3); ("s4", b4)]%string /\
    length (items b1) = length (items (time_data st)) /\
    length (items b2) = length (items (time_data st)) /\
    length (items b3) = length (items (time_data st)) /\
    length (items b4) = length (items (time_data st)).
Proof.
  intros (_ & Hkeys & Hall & _).
  destruct (sensor_data st) as [|[k1 b1] [|[k2 b2] [|[k3 b3] [|[k4 b4] [|]]]]];
    try discriminate Hkeys.
  simpl in Hkeys. injection Hkeys as -> -> -> ->.
  exists b1, b2, b3, b4.
  repeat match goal with
         | H : Forall _ (_ :: _) |- _ => inversion H; clear H; subst
         end.
  simpl in *. intuition.
Qed.

Lemma pretty_1 : pretty 1 = "1"%string.
Proof. reflexivity. Qed.
Lemma pretty_2 : pretty 2 = "2"%string.
Proof. reflexivity. Qed.
Lemma pretty_3 : pretty 3 = "3"%string.
Proof. reflexivity. Qed.
Lemma pretty_4 : pretty 4 = "4"%string.
Proof. reflexivity. Qed.

(** ** What the graph callbacks return *)

Lemma assoc_item_hit {V} (k : string) (v : V) d : assoc_item ((k, v) :: d) k = Ok v.
Proof. simpl. rewrite bool_decide_eq_true_2; reflexivity. Qed.

Lemma assoc_item_miss {V} (k k' : string) (v : V) d :
  k' <> k -> assoc_item ((k', v) :: d) k = assoc_item d k.
Proof. intros H. simpl. rewrite bool_decide_eq_false_2; [reflexivity | assumption]. Qed.

Ltac eval_names :=
  rewrite ?pretty_1, ?pretty_2, ?pretty_3, ?pretty_4;
  change ("s" +:+ "1")%string with "s1"%string;
  change ("s" +:+ "2")%string with "s2"%string;
  change ("s" +:+ "3")%string with "s3"%string;
  change ("s" +:+ "4")%string with "s4"%string;
  change ("Sensor " +:+ "1")%string with "Sensor 1"%string;
  change ("Sensor " +:+ "2")%string with "Sensor 2"%string;
  change ("Sensor " +:+ "3")%string with "Sensor 3"%string;
  change ("Sensor " +:+ "4")%string with "Sensor 4"%string;
  repeat (rewrite assoc_item_hit || rewrite assoc_item_miss by discriminate).

Lemma valid_attr_hit (check : json -> bool) (k : string) (v : json) d :
  valid_attr check ((k, v) :: d) k = check v.
Proof. simpl. rewrite bool_decide_eq_true_2; reflexivity. Qed.

Lemma V1_trace_ok_attrs (s : dict) :
  valid_attr valid_line_shape
    [("shape"%string, dict_get s "line_shape" (JStr "linear"));
     ("width"%string, JInt 2); ("color"%string, JStr "#3B82F6")] "shape" &&
  valid_attr valid_marker_size
    (if json_eq_str (dict_get s "show_markers" JNull) "on"
     then [("size"%string, dict_get s "marker_size" (JInt 6));
           ("color"%string, JStr "#3B82F6")]
     else []) "size" = V1_trace_ok s.
Proof.
  unfold V1_trace_ok. rewrite valid_attr_hit.
  destruct (json_eq_str (dict_get s "show_markers" JNull) "on");
    [rewrite valid_attr_hit|]; reflexivity.
Qed.

Lemma V2_trace_ok_attrs (sh : string) (s : dict) :
  valid_attr valid_line_shape
    [("shape"%string, dict_get s "shape" (JStr sh)); ("width"%string, JInt 2)] "shape" &&
  valid_attr valid_marker_size
    (if json_eq_str (dict_get s "markers" JNull) "on"
     then [("size"%string, dict_get s "size" (JInt 6))]
     else []) "size" = V2_trace_ok sh s.
Proof.
  unfold V2_trace_ok. rewrite valid_attr_hit.
  destruct (json_eq_str (dict_get s "markers" JNull) "on");
    [rewrite valid_attr_hit|]; reflexivity.
Qed.

(** What [update_graphs] returns for an integer display-point count in the
    range of [islice]: a [ValueError] when there is something to plot and
    Plotly refuses the trace settings, and otherwise the four charts with
    the overlay applied. *)
Lemma V1_update_graphs_cases_at w n (is_running : bool) (s : dict) dp r1 r2 r3 r4 st :
  store_ok st ->
  dict_get s "display_points"%string (JInt V1.DEFAULT_DISPLAY_POINTS) = JInt dp ->
  let st' := if is_running then snd (generate_new_data w st) else st in
  let xs := items_between (items (time_data st'))
              (spec_window (len (items (time_data st'))) dp) in
  len (items (time_data st')) - dp <= sys_maxsize ->
  fst (V1.update_graphs w n is_running (Some s) r1 r2 r3 r4 st) =
    if nonempty xs && negb (V1_trace_ok s) then Raise ValueError
    else
      rbind (V1.apply_relayout is_running r1 (V1_chart s st' dp 1)) (fun f1 =>
      rbind (V1.apply_relayout is_running r2 (V1_chart s st' dp 2)) (fun f2 =>
      rbind (V1.apply_relayout is_running r3 (V1_chart s st' dp 3)) (fun f3 =>
      rbind (V1.apply_relayout is_running r4 (V1_chart s st' dp 4)) (fun f4 =>
      Ok [f1; f2; f3; f4])))).
Proof.
  intros Hok Hdp st' xs0 Hstart. subst xs0.
  assert (Hok' : store_ok st').
  { subst st'. destruct is_running; [apply generate_new_data_ok|]; assumption. }
  assert (Hst : (if is_running then generate_new_data w else ret tt) st = (Ok tt, st')).
  { subst st'. destruct is_running; reflexivity. }
  unfold V1.update_graphs. unfold bind at 1. rewrite Hst.
  unfold bind at 1. cbn [ret raise].
  rewrite Hdp.
  unfold bind at 1. cbn [get].
  unfold bind at 1. cbn [lift int_sub max0 islice_from].
  destruct (store_ok_shape _ Hok') as (b1 & b2 & b3 & b4 & Hsd & H1 & H2 & H3 & H4).
  pose proof (store_ok_len _ Hok') as Hlen.
  rewrite islice_between by lia.
  unfold bind at 1. cbn [lift].
  rewrite Hsd. cbn [V1.slice_channels islice_from].
  rewrite !islice_between by lia. cbn [rbind].
  unfold bind at 1. cbn [lift].
  cbn [mapM fst snd].
  unfold go_Scatter. rewrite V1_trace_ok_attrs.
  unfold V1_chart, channel_items. rewrite Hsd.
  eval_names.
  change (spec_window (len (items (time_data st'))) dp)
    with (0 `max` (len (items (time_data st')) - dp), len (items (time_data st'))).
  set (xs := items_between (items (time_data st')) _).
  unfold bind, lift, ret.
  destruct (nonempty xs); destruct (V1_trace_ok s);
    cbn -[items_between V1.apply_relayout];
    repeat (match goal with
            | |- context [V1.apply_relayout ?a ?b ?c] =>
                destruct (V1.apply_relayout a b c)
            end; cbn -[items_between V1.apply_relayout]);
    try reflexivity.
Qed.

Lemma V1_update_graphs_cases w n (is_running : bool) (s : dict) dp r1 r2 r3 r4 st :
  store_ok st ->
  dict_get s "display_points"%string (JInt V1.DEFAULT_DISPLAY_POINTS) = JInt dp ->
  points_ok dp ->
  let st' := if is_running then snd (generate_new_data w st) else st in
  let xs := items_between (items (time_data st'))
              (spec_window (len (items (time_data st'))) dp) in
  fst (V1.update_graphs w n is_running (Some s) r1 r2 r3 r4 st) =
    if nonempty xs && negb (V1_trace_ok s) then Raise ValueError
    else
      rbind (V1.apply_relayout is_running r1 (V1_chart s st' dp 1)) (fun f1 =>
      rbind (V1.apply_relayout is_running r2 (V1_chart s st' dp 2)) (fun f2 =>
      rbind (V1.apply_relayout is_running r3 (V1_chart s st' dp 3)) (fun f3 =>
      rbind (V1.apply_relayout is_running r4 (V1_chart s st' dp 4)) (fun f4 =>
      Ok [f1; f2; f3; f4])))).
Proof.
  intros Hok Hdp Hpts st' xs.
  apply V1_update_graphs_cases_at; [assumption | assumption |].
  apply store_ok_index; [|assumption].
  subst st'. destruct is_running; [apply generate_new_data_ok|]; assumption.
Qed.

Lemma V1_update_graphs_figs w n (is_running : bool) (s : dict) dp r1 r2 r3 r4 st :
  store_ok st ->
  dict_get s "display_points"%string (JInt V1.DEFAULT_DISPLAY_POINTS) = JInt dp ->
  points_ok dp ->
  V1_trace_ok s = true ->
  let st' := if is_running then snd (generate_new_data w st) else st in
  fst (V1.update_graphs w n is_running (Some s) r1 r2 r3 r4 st) =
    rbind (V1.apply_relayout is_running r1 (V1_chart s st' dp 1)) (fun f1 =>
    rbind (V1.apply_relayout is_running r2 (V1_chart s st' dp 2)) (fun f2 =>
    rbind (V1.apply_relayout is_running r3 (V1_chart s st' dp 3)) (fun f3 =>
    rbind (V1.apply_relayout is_running r4 (V1_chart s st' dp 4)) (fun f4 =>
    Ok [f1; f2; f3; f4])))).
Proof.
  intros Hok Hdp Hpts Hstyle st'.
  rewrite (V1_update_graphs_cases _ _ _ _ dp) by assumption.
  rewrite Hstyle, andb_false_r. reflexivity.
Qed.

(** The same for [update_dashboard_graphs]. *)
Lemma V2_update_dashboard_cases_at w n (is_running : bool) (settings : option dict) dp
    r1 r2 r3 r4 st :
  store_ok st ->
  dict_get (V2.or_empty settings) "points"%string (JInt V2.DEFAULT_DISPLAY_POINTS_DASH) = JInt dp ->
  let st' := if is_running then snd (generate_new_data w st) else st in
  let xs := items_between (items (time_data st'))
              (spec_window (len (items (time_data st'))) dp) in
  len (items (time_data st')) - dp <= sys_maxsize ->
  fst (V2.update_dashboard_graphs w n is_running settings r1 r2 r3 r4 st) =
    if nonempty xs && negb (V2_trace_ok "linear" (V2.or_empty settings))
    then Raise ValueError
    else
      rbind (V2.apply_relayout is_running r1
               (V2_chart "Sensor 1" (Some 360) "linear" (V2.or_empty settings) st' dp 1)) (fun f1 =>
      rbind (V2.apply_relayout is_running r2
               (V2_chart "Sensor 2" (Some 360) "linear" (V2.or_empty settings) st' dp 2)) (fun f2 =>
      rbind (V2.apply_relayout is_running r3
               (V2_chart "Sensor 3" (Some 360) "linear" (V2.or_empty settings) st' dp 3)) (fun f3 =>
      rbind (V2.apply_relayout is_running r4
               (V2_chart "Sensor 4" (Some 360) "linear" (V2.or_empty settings) st' dp 4)) (fun f4 =>
      Ok [f1; f2; f3; f4])))).
Proof.
  intros Hok Hdp st' xs0 Hstart. subst xs0.
  assert (Hok' : store_ok st').
  { subst st'. destruct is_running; [apply generate_new_data_ok|]; assumption. }
  assert (Hst : (if is_running then generate_new_data w else ret tt) st = (Ok tt, st')).
  { subst st'. destruct is_running; reflexivity. }
  unfold V2.update_dashboard_graphs. unfold bind at 1. rewrite Hst.
  cbv zeta. rewrite Hdp.
  unfold bind at 1. cbn [get].
  unfold bind at 1. cbn [lift int_sub max0 islice_from].
  destruct (store_ok_shape _ Hok') as (b1 & b2 & b3 & b4 & Hsd & H1 & H2 & H3 & H4).
  pose proof (store_ok_len _ Hok') as Hlen.
  rewrite islice_between by lia.
  unfold bind at 1. cbn [lift].
  cbn [mapM fst snd].
  unfold go_Scatter. rewrite V2_trace_ok_attrs.
  unfold V2_chart, channel_items. rewrite Hsd.
  eval_names.
  change (spec_window (len (items (time_data st'))) dp)
    with (0 `max` (len (items (time_data st')) - dp), len (items (time_data st'))).
  set (xs := items_between (items (time_data st')) _).
  unfold bind, lift, ret. cbn [islice_from].
  rewrite !islice_between by lia.
  destruct (nonempty xs); destruct (V2_trace_ok "linear" (V2.or_empty settings));
    cbn -[items_between V2.apply_relayout];
    repeat (match goal with
            | |- context [V2.apply_relayout ?a ?b ?c] =>
                destruct (V2.apply_relayout a b c)
            end; cbn -[items_between V2.apply_relayout]);
    try reflexivity.
Qed.

Lemma V2_update_dashboard_cases w n (is_running : bool) (settings : option dict) dp r1 r2 r3 r4 st :
  store_ok st ->
  dict_get (V2.or_empty settings) "points"%string (JInt V2.DEFAULT_DISPLAY_POINTS_DASH) = JInt dp ->
  points_ok dp ->
  let st' := if is_running then snd (generate_new_data w st) else st in
  let xs := items_between (items (time_data st'))
              (spec_window (len (items (time_data st'))) dp) in
  fst (V2.update_dashboard_graphs w n is_running settings r1 r2 r3 r4 st) =
    if nonempty xs && negb (V2_trace_ok "linear" (V2.or_empty settings))
    then Raise ValueError
    else
      rbind (V2.apply_relayout is_running r1
               (V2_chart "Sensor 1" (Some 360) "linear" (V2.or_empty settings) st' dp 1)) (fun f1 =>
      rbind (V2.apply_relayout is_running r2
               (V2_chart "Sensor 2" (Some 360) "linear" (V2.or_empty settings) st' dp 2)) (fun f2 =>
      rbind (V2.apply_relayout is_running r3
               (V2_chart "Sensor 3" (Some 360) "linear" (V2.or_empty settings) st' dp 3)) (fun f3 =>
      rbind (V2.apply_relayout is_running r4
               (V2_chart "Sensor 4" (Some 360) "linear" (V2.or_empty settings) st' dp 4)) (fun f4 =>
      Ok [f1; f2; f3; f4])))).
Proof.
  intros Hok Hdp Hpts st' xs.
  apply V2_update_dashboard_cases_at; [assumption | assumption |].
  apply store_ok_index; [|assumption].
  subst st'. destruct is_running; [apply generate_new_data_ok|]; assumption.
Qed.

Lemma V2_update_dashboard_figs w n (is_running : bool) (settings : option dict) dp r1 r2 r3 r4 st :
  store_ok st ->
  dict_get (V2.or_empty settings) "points"%string (JInt V2.DEFAULT_DISPLAY_POINTS_DASH) = JInt dp ->
  points_ok dp ->
  V2_trace_ok "linear" (V2.or_empty settings) = true ->
  let st' := if is_running then snd (generate_new_data w st) else st in
  fst (V2.update_dashboard_graphs w n is_running settings r1 r2 r3 r4 st) =
    rbind (V2.apply_relayout is_running r1
             (V2_chart "Sensor 1" (Some 360) "linear" (V2.or_empty settings) st' dp 1)) (fun f1 =>
    rbind (V2.apply_relayout is_running r2
             (V2_chart "Sensor 2" (Some 360) "linear" (V2.or_empty settings) st' dp 2)) (fun f2 =>
    rbind (V2.apply_relayout is_running r3
             (V2_chart "Sensor 3" (Some 360) "linear" (V2.or_empty settings) st' dp 3)) (fun f3 =>
    rbind (V2.apply_relayout is_running r4
             (V2_chart "Sensor 4" (Some 360) "linear" (V2.or_empty settings) st' dp 4)) (fun f4 =>
    Ok [f1; f2; f3; f4])))).
Proof.
  intros Hok Hdp Hpts Hstyle st'.
  rewrite (V2_update_dashboard_cases _ _ _ _ dp) by assumption.
  rewrite Hstyle, andb_false_r. reflexivity.
Qed.

(** A display-point count below the range of [islice] makes both graph
    updates raise a [ValueError]. *)
Lemma V1_update_graphs_below w n (is_running : bool) (s : dict) dp r1 r2 r3 r4 st :
  dict_get s "display_points"%string (JInt V1.DEFAULT_DISPLAY_POINTS) = JInt dp ->
  let st' := if is_running then snd (generate_new_data w st) else st in
  sys_maxsize < len (items (time_data st')) - dp ->
  fst (V1.update_graphs w n is_running (Some s) r1 r2 r3 r4 st) = Raise ValueError.
Proof.
  intros Hdp st' Hlow.
  assert (Hst : (if is_running then generate_new_data w else ret tt) st = (Ok tt, st')).
  { subst st'. destruct is_running; reflexivity. }
  unfold V1.update_graphs. unfold bind at 1. rewrite Hst.
  unfold bind at 1. cbn [ret raise].
  rewrite Hdp.
  unfold bind at 1. cbn [get].
  unfold bind at 1. cbn [lift int_sub max0 islice_from].
  rewrite islice_above by lia.
  reflexivity.
Qed.

Lemma V2_update_dashboard_below w n (is_running : bool) (settings : option dict) dp
    r1 r2 r3 r4 st :
  dict_get (V2.or_empty settings) "points"%string (JInt V2.DEFAULT_DISPLAY_POINTS_DASH) = JInt dp ->
  let st' := if is_running then snd (generate_new_data w st) else st in
  sys_maxsize < len (items (time_data st')) - dp ->
  fst (V2.update_dashboard_graphs w n is_running settings r1 r2 r3 r4 st) = Raise ValueError.
Proof.
  intros Hdp st' Hlow.
  assert (Hst : (if is_running then generate_new_data w else ret tt) st = (Ok tt, st')).
  { subst st'. destruct is_running; reflexivity. }
  unfold V2.update_dashboard_graphs. unfold bind at 1. rewrite Hst.
  cbv zeta. rewrite Hdp.
  unfold bind at 1. cbn [get].
  unfold bind at 1. cbn [lift int_sub max0 islice_from].
  rewrite islice_above by lia.
  reflexivity.
Qed.

Lemma display_page_detail pathname i :
  V2.display_page pathname = V2.PageDetail i ->
  exists p, pathname = Some p /\ py_int (split_last p) = Ok i /\ 1 <= i <= 4.
Proof.
  unfold V2.display_page. intros H.
  destruct pathname as [p|]; [|discriminate H].
  destruct (negb (bool_decide (p = ""%string)) && String.prefix "/sensor-" p).
  - destruct (py_int (split_last p)) as [z|e] eqn:Hz.
    + destruct ((1 <=? z) && (z <=? 4)) eqn:Hr.
      * injection H as <-. exists p.
        apply andb_prop in Hr as [Hlo Hhi].
        apply Z.leb_le in Hlo, Hhi. auto.
      * destruct (bool_decide (Some p = Some "/"%string)); discriminate H.
    + destruct (bool_decide (Some p = Some "/"%string)); discriminate H.
  - destruct (bool_decide (Some p = Some "/"%string)); discriminate H.
Qed.

Lemma nonempty_last {A} (l : list A) :
  nonempty l = true -> exists x, last l = Some x.
Proof.
  destruct l as [|a l] using rev_ind; [discriminate|].
  intros _. exists a. apply last_snoc.
Qed.

Lemma nonempty_same_length {A B} (l : list A) (m : list B) :
  length l = length m -> nonempty l = nonempty m.
Proof. destruct l, m; simpl; congruence. Qed.

(** What [update_detail_graph_live] returns on a detail page: the live
    append, or the redrawn chart (a [ValueError] when there is something to
    plot and Plotly refuses the trace settings). *)
Lemma V2_detail_result trig n (s : dict) pathname (is_running : bool) i st :
  store_ok st ->
  V2.display_page pathname = V2.PageDetail i ->
  let live := bool_decide (trig = Some V2.ID_INTERVAL) && is_running
              && nonempty (items (time_data st)) in
  let out := fst (V2.update_detail_graph_live trig n (Some s) pathname is_running st) in
  (live = true ->
   exists t v,
     last (items (time_data st)) = Some t /\
     last (channel_items st ("s" +:+ pretty i)) = Some v /\
     out = Ok (no_update,
               update (V2.mkExtend [[t]] [[v]] [0]
                         (dict_get s "points" (JInt V2.DEFAULT_DISPLAY_POINTS_DETAIL))))) /\
  (live = false ->
   forall dp,
     dict_get s "points"%string (JInt V2.DEFAULT_DISPLAY_POINTS_DETAIL) = JInt dp ->
     points_ok dp ->
     out =
       if nonempty (items_between (items (time_data st))
                      (spec_window (len (items (time_data st))) dp))
          && negb (V2_trace_ok "spline" s)
       then Raise ValueError
       else Ok (update (V2_chart "" None "spline" s st dp i), no_update)).
Proof.
  intros Hok Hpage live out.
  destruct (display_page_detail _ _ Hpage) as (p & -> & Hint & Hi).
  destruct (store_ok_shape _ Hok) as (b1 & b2 & b3 & b4 & Hsd & H1 & H2 & H3 & H4).
  assert (Hcases : i = 1 \/ i = 2 \/ i = 3 \/ i = 4) by lia.
  split.
  - intros Hlive.
    assert (Hout : out =
      match last (items (time_data st)), last (channel_items st ("s" +:+ pretty i)) with
      | Some t, Some v =>
          Ok (no_update,
              update (V2.mkExtend [[t]] [[v]] [0]
                        (dict_get s "points" (JInt V2.DEFAULT_DISPLAY_POINTS_DETAIL))))
      | _, _ => Raise IndexError
      end).
    { subst out. unfold V2.update_detail_graph_live, V2.sensor_name_of.
      rewrite Hint. unfold bind at 1. cbn [lift]. unfold bind at 1. cbn [get].
      fold live. rewrite Hlive.
      unfold channel_items, deque_last. rewrite Hsd.
      destruct Hcases as [-> | [-> | [-> | ->]]]; eval_names;
        unfold bind, lift, ret;
        repeat match goal with
               | |- context [last ?l] => destruct (last l)
               end;
        reflexivity. }
    rewrite Hout.
    assert (Hne : nonempty (items (time_data st)) = true).
    { subst live. apply andb_prop in Hlive as [_ H]. exact H. }
    destruct (nonempty_last _ Hne) as [t Ht].
    assert (Hne' : nonempty (channel_items st ("s" +:+ pretty i)) = true).
    { erewrite nonempty_same_length; [exact Hne|].
      unfold channel_items. rewrite Hsd.
      destruct Hcases as [-> | [-> | [-> | ->]]]; eval_names;
        cbv beta iota; assumption. }
    destruct (nonempty_last _ Hne') as [v Hv].
    exists t, v. rewrite Ht, Hv. auto.
  - intros Hlive dp Hdp Hpts.
    destruct (store_ok_index _ dp Hok Hpts) as [Hlen Hstart].
    subst out. unfold V2.update_detail_graph_live, V2.sensor_name_of.
    rewrite Hint. unfold bind at 1. cbn [lift]. unfold bind at 1. cbn [get].
    fold live. rewrite Hlive. cbn [V2.or_empty]. rewrite Hdp.
    unfold go_Scatter. rewrite V2_trace_ok_attrs.
    unfold V2_chart, channel_items. rewrite Hsd.
    change (spec_window (len (items (time_data st))) dp)
      with (0 `max` (len (items (time_data st)) - dp), len (items (time_data st))).
    destruct Hcases as [-> | [-> | [-> | ->]]]; eval_names;
      unfold bind, lift, ret; cbn [int_sub max0 islice_from];
      rewrite ?islice_between by lia;
      destruct (nonempty (items_between (items (time_data st)) _));
      destruct (V2_trace_ok "spline" s); reflexivity.
Qed.

(** ** The zoom/pan overlay *)

(** The single-page program applies the overlay of the specification and
    never raises. *)
Lemma V1_apply_relayout_spec (is_running : bool) (relayout_data : option dict) fig :
  V1.apply_relayout is_running relayout_data fig =
    Ok (spec_overlay (negb is_running) relayout_data fig).
Proof.
  unfold V1.apply_relayout, spec_overlay, spec_overlay_axis, dict_truthy.
  destruct is_running; simpl; [destruct fig; reflexivity|].
  destruct relayout_data as [r|]; [|destruct fig; reflexivity].
  destruct (bool_decide (r = ∅)) eqn:He; simpl.
  - apply bool_decide_eq_true_1 in He. subst r.
    rewrite !lookup_empty. destruct fig; reflexivity.
  - unfold dict_in, dict_item.
    destruct (r !! "xaxis.range[0]"%string), (r !! "xaxis.range[1]"%string),
      (r !! "yaxis.range[0]"%string), (r !! "yaxis.range[1]"%string);
      destruct fig; reflexivity.
Qed.

Lemma V1_apply_relayout_running (r : option dict) fig :
  V1.apply_relayout true r fig = Ok fig.
Proof. reflexivity. Qed.

Lemma V2_apply_relayout_running (r : option dict) fig :
  V2.apply_relayout true r fig = Ok fig.
Proof. reflexivity. Qed.

Lemma V1_chart_no_override s st dp i : no_override (V1_chart s st dp i).
Proof. unfold V1_chart. cbv zeta. destruct (nonempty _); split; reflexivity. Qed.

Lemma V2_chart_no_override title h sh s st dp i :
  no_override (V2_chart title h sh s st dp i).
Proof. unfold V2_chart. cbv zeta. destruct (nonempty _); split; reflexivity. Qed.

Lemma add_trace_no_override fig t : no_override fig -> no_override (add_trace fig t).
Proof. intros [H1 H2]. split; assumption. Qed.

Ltac running_figs :=
  repeat match goal with
         | |- context [match ?x with Ok _ => _ | Raise _ => _ end] =>
             match x with
             | context [match _ with Ok _ => _ | Raise _ => _ end] => fail 1
             | _ => destruct x; cbn [fst snd]; try discriminate
             end
         | |- context [if nonempty ?x then _ else _] =>
             destruct (nonempty x); cbn [fst snd]; try discriminate
         end;
  intros [= <-]; repeat constructor.

(** While capture is running, a figure either graph update returns has no
    axis range, whatever the settings and the buffers. *)
Lemma V1_running_no_override w n s r1 r2 r3 r4 st figs :
  fst (V1.update_graphs w n true s r1 r2 r3 r4 st) = Ok figs ->
  Forall no_override figs.
Proof.
  unfold V1.update_graphs.
  destruct s as [s|]; [|discriminate].
  unfold bind, lift, ret, get.
  cbn [mapM fst snd generate_new_data V1.apply_relayout negb andb].
  running_figs.
Qed.

Lemma V2_running_no_override w n s r1 r2 r3 r4 st figs :
  fst (V2.update_dashboard_graphs w n true s r1 r2 r3 r4 st) = Ok figs ->
  Forall no_override figs.
Proof.
  unfold V2.update_dashboard_graphs.
  unfold bind, lift, ret, get.
  cbn [mapM fst snd generate_new_data V2.apply_relayout negb andb].
  running_figs.
Qed.

(** C8. While capture is running, the dashboard graph update of either
    program does not read the zoom/pan payloads of the four graphs: it
    returns what it returns without any payload, and no figure it returns has
    an x-axis or y-axis range override. With trace settings Plotly accepts
    and a display-point count in the range of [islice], it returns four such
    figures. *)
Theorem running_drops_overlay :
  (forall w n (s : option dict) r1 r2 r3 r4 st,
     V1.update_graphs w n true s r1 r2 r3 r4 st =
       V1.update_graphs w n true s None None None None st /\
     forall figs,
       fst (V1.update_graphs w n true s r1 r2 r3 r4 st) = Ok figs ->
       Forall no_override figs) /\
  (forall w n (s : option dict) r1 r2 r3 r4 st,
     V2.update_dashboard_graphs w n true s r1 r2 r3 r4 st =
       V2.update_dashboard_graphs w n true s None None None None st /\
     forall figs,
       fst (V2.update_dashboard_graphs w n true s r1 r2 r3 r4 st) = Ok figs ->
       Forall no_override figs) /\
  (forall (ticks : list V1.tick) w n (s : dict) dp r1 r2 r3 r4,
     dict_get s "display_points" (JInt V1.DEFAULT_DISPLAY_POINTS) = JInt dp ->
     points_ok dp ->
     V1_trace_ok s = true ->
     exists figs,
       fst (V1.update_graphs w n true (Some s) r1 r2 r3 r4
              (V1.run ticks initial_store)) = Ok figs /\
       length figs = 4%nat /\ Forall no_override figs) /\
  (forall (ticks : list V2.tick) w n (s : option dict) dp r1 r2 r3 r4,
     dict_get (V2.or_empty s) "points" (JInt V2.DEFAULT_DISPLAY_POINTS_DASH) = JInt dp ->
     points_ok dp ->
     V2_trace_ok "linear" (V2.or_empty s) = true ->
     exists figs,
       fst (V2.update_dashboard_graphs w n true s r1 r2 r3 r4
              (V2.run ticks initial_store)) = Ok figs /\
       length figs = 4%nat /\ Forall no_override figs).
Proof.
  split; [|split; [|split]].
  - intros. split; [reflexivity|]. apply V1_running_no_override.
  - intros. split; [reflexivity|]. apply V2_running_no_override.
  - intros ticks w n s dp r1 r2 r3 r4 Hdp Hpts Hstyle.
    rewrite (V1_update_graphs_figs _ _ _ _ dp)
      by (auto using V1_run_ok, initial_store_ok).
    rewrite !V1_apply_relayout_running. cbn [rbind].
    eexists; split; [reflexivity|]. split; [reflexivity|].
    repeat constructor; apply V1_chart_no_override.
  - intros ticks w n s dp r1 r2 r3 r4 Hdp Hpts Hstyle.
    rewrite (V2_update_dashboard_figs _ _ _ _ dp)
      by (auto using V2_run_ok, initial_store_ok).
    rewrite !V2_apply_relayout_running. cbn [rbind].
    eexists; split; [reflexivity|]. split; [reflexivity|].
    repeat constructor; apply V2_chart_no_override.
Qed.

Lemma running_drops_overlay_witness :
  (exists figs,
     fst (V1.update_graphs (mkWorld 0 (fun _ => 0%float)) JNull true (Some ∅)
            (Some zoom_x) None None None (V1.run [] initial_store)) = Ok figs /\
     length figs = 4%nat /\ Forall no_override figs) /\
  (exists figs,
     fst (V2.update_dashboard_graphs (mkWorld 0 (fun _ => 0%float)) JNull true None
            (Some zoom_x) None None None (V2.run [] initial_store)) = Ok figs /\
     length figs = 4%nat /\ Forall no_override figs).
Proof.
  destruct running_drops_overlay as (_ & _ & H1 & H2).
  split.
  - apply (H1 [] (mkWorld 0 (fun _ => 0%float)) JNull ∅ 50);
      [reflexivity | vm_compute; discriminate | reflexivity].
  - apply (H2 [] (mkWorld 0 (fun _ => 0%float)) JNull None 100);
      [reflexivity | vm_compute; discriminate | reflexivity].
Defined.

(** ** Window *)

Lemma V2_apply_relayout_data (is_running : bool) r fig f :
  V2.apply_relayout is_running r fig = Ok f -> fig_data f = fig_data fig.
Proof.
  unfold V2.apply_relayout.
  destruct (negb is_running && dict_truthy r); [|intros [= <-]; reflexivity].
  destruct r as [r|]; [|intros [= <-]; reflexivity].
  destruct (dict_in "xaxis.range[0]" r && dict_in "yaxis.range[0]" r);
    [|intros [= <-]; reflexivity].
  unfold dict_item.
  destruct (r !! "xaxis.range[0]"%string); [|discriminate].
  destruct (r !! "xaxis.range[1]"%string); [|discriminate].
  destruct (r !! "yaxis.range[0]"%string); [|discriminate].
  destruct (r !! "yaxis.range[1]"%string); [|discriminate].
  simpl. intros [= <-]. reflexivity.
Qed.

(** The only exception the overlay of the multi-page program raises is a
    [KeyError], and only while paused. *)
Lemma V2_apply_relayout_raise (is_running : bool) r fig e :
  V2.apply_relayout is_running r fig = Raise e ->
  is_running = false /\ exists k, e = KeyError k.
Proof.
  unfold V2.apply_relayout.
  destruct is_running; [discriminate|]. simpl.
  destruct (dict_truthy r); [|discriminate].
  destruct r as [r|]; [|discriminate].
  destruct (dict_in "xaxis.range[0]" r && dict_in "yaxis.range[0]" r);
    [|discriminate].
  unfold dict_item. intros H. split; [reflexivity|].
  destruct (r !! "xaxis.range[0]"%string); [|injection H as <-; eauto].
  destruct (r !! "xaxis.range[1]"%string); [|injection H as <-; eauto].
  destruct (r !! "yaxis.range[0]"%string); [|injection H as <-; eauto].
  destruct (r !! "yaxis.range[1]"%string); [|injection H as <-; eauto].
  discriminate H.
Qed.

Lemma nonempty_false {A} (l : list A) : nonempty l = false -> l = [].
Proof. destruct l; [reflexivity | discriminate]. Qed.

Lemma items_between_nil_length {A B} (l : list A) (m : list B) range :
  length l = length m -> items_between l range = [] -> items_between m range = [].
Proof.
  unfold items_between. intros Hlen H.
  apply (f_equal length) in H. apply length_zero_iff_nil.
  rewrite length_take, length_drop in H. rewrite length_take, length_drop.
  simpl in H. lia.
Qed.

Lemma channel_items_length st (i : Z) :
  store_ok st -> 1 <= i <= 4 ->
  length (channel_items st ("s" +:+ pretty i)) = length (items (time_data st)).
Proof.
  intros Hok Hi.
  destruct (store_ok_shape _ Hok) as (b1 & b2 & b3 & b4 & Hsd & H1 & H2 & H3 & H4).
  unfold channel_items. rewrite Hsd.
  assert (Hcases : i = 1 \/ i = 2 \/ i = 3 \/ i = 4) by lia.
  destruct Hcases as [-> | [-> | [-> | ->]]]; eval_names; cbv beta iota; assumption.
Qed.

(** The points of a chart are the window of the timestamp buffer and of the
    sensor's buffer. *)
Lemma V1_chart_points s st dp i :
  store_ok st -> 1 <= i <= 4 ->
  let range := spec_window (len (items (time_data st))) dp in
  fig_xs (V1_chart s st dp i) = items_between (items (time_data st)) range /\
  fig_ys (V1_chart s st dp i) = items_between (channel_items st ("s" +:+ pretty i)) range.
Proof.
  intros Hok Hi range. unfold V1_chart. cbv zeta. fold range.
  destruct (nonempty (items_between (items (time_data st)) range)) eqn:Hne.
  - unfold fig_xs, fig_ys. simpl. rewrite !app_nil_r. split; reflexivity.
  - apply nonempty_false in Hne. rewrite Hne. split; [reflexivity|].
    symmetry. eapply items_between_nil_length; [|exact Hne].
    symmetry. apply channel_items_length; assumption.
Qed.

Lemma V2_chart_points title h sh s st dp i :
  store_ok st -> 1 <= i <= 4 ->
  let range := spec_window (len (items (time_data st))) dp in
  fig_xs (V2_chart title h sh s st dp i) = items_between (items (time_data st)) range /\
  fig_ys (V2_chart title h sh s st dp i) =
    items_between (channel_items st ("s" +:+ pretty i)) range.
Proof.
  intros Hok Hi range. unfold V2_chart. cbv zeta. fold range.
  destruct (nonempty (items_between (items (time_data st)) range)) eqn:Hne.
  - unfold fig_xs, fig_ys. simpl. rewrite !app_nil_r. split; reflexivity.
  - apply nonempty_false in Hne. rewrite Hne. split; [reflexivity|].
    symmetry. eapply items_between_nil_length; [|exact Hne].
    symmetry. apply channel_items_length; assumption.
Qed.

(** A display-point count below the range of [islice]: with empty buffers
    and a count of [-2^63], zero or negative, both graph updates raise a
    [ValueError] where the window of the specification is empty. *)
Lemma window_count_below_range :
  let count := - 2 ^ 63 in
  count <= 0 /\
  fst (V1.update_graphs paused_world (JInt 1) false
         (Some {[ "display_points"%string := JInt count ]})
         None None None None initial_store) = Raise ValueError /\
  fst (V2.update_dashboard_graphs paused_world (JInt 1) false
         (Some {[ "points"%string := JInt count ]})
         None None None None initial_store) = Raise ValueError /\
  rbind (int_sub (len (@nil datetime)) (JInt count))
        (fun diff => islice_from (@nil datetime) (max0 diff) (len (@nil datetime))) =
    Raise ValueError.
Proof.
  split; [vm_compute; discriminate|]. split; [|split]; reflexivity.
Qed.

(** C7. As long as the start of the window is an index [islice]
    accepts, that is [totalLength - displayPoints <= sys.maxsize], the window
    the graph updates derive is the index range
    [max(0, totalLength - displayPoints) <= i < totalLength]: the in-line
    computation of the callbacks returns exactly the items at these indices;
    below that range it raises a [ValueError]. A display-point count above
    the length gives the whole buffer and one that is zero or negative gives
    nothing; [window(30, 50) = (0, 30)] and [window(500, 50) = (450, 500)];
    and, with trace settings Plotly accepts, the figures both dashboard
    updates return plot these items of the timestamp buffer and of their
    sensor's buffer (the multi-page update may instead fail in its overlay
    step while paused, with a [KeyError]). *)
Theorem window_correct :
  (forall (A : Type) (l : list A) (displayPoints : Z),
     len l <= sys_maxsize ->
     let visible := items_between l (spec_window (len l) displayPoints) in
     let computed :=
       rbind (int_sub (len l) (JInt displayPoints))
             (fun diff => islice_from l (max0 diff) (len l)) in
     (len l - displayPoints <= sys_maxsize -> computed = Ok visible) /\
     (sys_maxsize < len l - displayPoints -> computed = Raise ValueError) /\
     (forall i : nat,
        visible !! i = l !! (Z.to_nat (Z.max 0 (len l - displayPoints)) + i)%nat) /\
     (len l < displayPoints -> visible = l) /\
     (displayPoints <= 0 -> visible = [])) /\
  spec_window 30 50 = (0, 30) /\
  spec_window 500 50 = (450, 500) /\
  (forall ticks w n (is_running : bool) (s : dict) dp r1 r2 r3 r4,
     dict_get s "display_points" (JInt V1.DEFAULT_DISPLAY_POINTS) = JInt dp ->
     let st := V1.run ticks initial_store in
     let st' := if is_running then snd (generate_new_data w st) else st in
     let range := spec_window (len (items (time_data st'))) dp in
     let out := fst (V1.update_graphs w n is_running (Some s) r1 r2 r3 r4 st) in
     (len (items (time_data st')) - dp <= sys_maxsize -> V1_trace_ok s = true ->
      exists figs,
        out = Ok figs /\
        Forall2 (fun i fig =>
                   fig_xs fig = items_between (items (time_data st')) range /\
                   fig_ys fig = items_between (channel_items st' ("s" +:+ pretty i)) range)
                [1; 2; 3; 4] figs) /\
     (sys_maxsize < len (items (time_data st')) - dp -> out = Raise ValueError)) /\
  (forall ticks w n (is_running : bool) (s : option dict) dp r1 r2 r3 r4,
     dict_get (V2.or_empty s) "points" (JInt V2.DEFAULT_DISPLAY_POINTS_DASH) = JInt dp ->
     let st := V2.run ticks initial_store in
     let st' := if is_running then snd (generate_new_data w st) else st in
     let range := spec_window (len (items (time_data st'))) dp in
     let out := fst (V2.update_dashboard_graphs w n is_running s r1 r2 r3 r4 st) in
     (len (items (time_data st')) - dp <= sys_maxsize ->
      V2_trace_ok "linear" (V2.or_empty s) = true ->
      (exists figs,
         out = Ok figs /\
         Forall2 (fun i fig =>
                    fig_xs fig = items_between (items (time_data st')) range /\
                    fig_ys fig = items_between (channel_items st' ("s" +:+ pretty i)) range)
                 [1; 2; 3; 4] figs) \/
      (is_running = false /\ exists k, out = Raise (KeyError k))) /\
     (sys_maxsize < len (items (time_data st')) - dp -> out = Raise ValueError)).
Proof.
  split; [|split; [reflexivity|split; [reflexivity|split]]].
  - intros A l dp Hmax visible computed. subst visible computed.
    split; [|split; [|split; [|split]]].
    + intros Hd. apply code_window; [unfold len in *; lia | assumption].
    + intros Hd. apply code_window_above. assumption.
    + intros i. rewrite items_between_window, lookup_drop.
      f_equal. unfold len. lia.
    + intros H. rewrite items_between_window.
      replace (Z.to_nat (len l - dp)) with 0%nat by (unfold len in *; lia).
      apply drop_0.
    + intros H. rewrite items_between_window.
      apply drop_ge. unfold len. lia.
  - intros ticks w n is_running s dp r1 r2 r3 r4 Hdp st st' range out.
    assert (Hok : store_ok st) by (apply V1_run_ok, initial_store_ok).
    assert (Hok' : store_ok st').
    { subst st'. destruct is_running; [apply generate_new_data_ok|]; assumption. }
    split.
    + intros Hpts Hstyle. subst out.
      rewrite (V1_update_graphs_cases_at _ _ _ _ dp) by assumption.
      rewrite Hstyle, andb_false_r.
      rewrite !V1_apply_relayout_spec. cbn [rbind]. fold st'.
      eexists; split; [reflexivity|].
      repeat constructor; apply (V1_chart_points s st' dp); (assumption || lia).
    + intros Hlow. subst out. apply (V1_update_graphs_below _ _ _ _ dp); assumption.
  - intros ticks w n is_running s dp r1 r2 r3 r4 Hdp st st' range out.
    assert (Hok : store_ok st) by (apply V2_run_ok, initial_store_ok).
    assert (Hok' : store_ok st').
    { subst st'. destruct is_running; [apply generate_new_data_ok|]; assumption. }
    split.
    + intros Hpts Hstyle.
      subst out. rewrite (V2_update_dashboard_cases_at _ _ _ _ dp) by assumption.
      rewrite Hstyle, andb_false_r. fold st'.
      repeat match goal with
             | |- context [V2.apply_relayout ?a ?b ?c] =>
                 let H := fresh "Ho" in
                 destruct (V2.apply_relayout a b c) eqn:H; cbn [rbind];
                 [apply V2_apply_relayout_data in H
                 |apply V2_apply_relayout_raise in H as [-> [k ->]];
                  right; split; [reflexivity|]; eauto]
             end.
      left. eexists; split; [reflexivity|].
      unfold fig_xs, fig_ys.
      repeat constructor;
        match goal with
        | H : fig_data ?f = _ |- context [fig_data ?f] => rewrite H
        end;
        (apply (V2_chart_points _ _ _ (V2.or_empty s) st' dp)
         || apply (V2_chart_points _ _ _ (V2.or_empty s) st' dp));
        (assumption || lia).
    + intros Hlow. subst out. apply (V2_update_dashboard_below _ _ _ _ dp); assumption.
Qed.

Lemma window_correct_witness :
  rbind (int_sub (len [10; 20; 30]) (JInt 2))
        (fun diff => islice_from [10; 20; 30] (max0 diff) (len [10; 20; 30])) =
    Ok [20; 30] /\
  (exists figs,
     fst (V1.update_graphs paused_world (JInt 1) false
            (Some {[ "display_points"%string := JInt 0 ]})
            None None None None (V1.run [] initial_store)) = Ok figs /\
     Forall (fun fig => fig_xs fig = [] /\ fig_ys fig = []) figs).
Proof.
  destruct window_correct as (Hwin & _ & _ & Hv1 & _).
  split.
  - assert (Hmax : len [10; 20; 30] <= sys_maxsize) by (vm_compute; discriminate).
    destruct (Hwin Z [10; 20; 30] 2 Hmax) as (Hcode & _).
    apply Hcode. vm_compute. discriminate.
  - assert (Hpts : len (items (time_data (V1.run [] initial_store))) - 0 <= sys_maxsize)
      by (vm_compute; discriminate).
    assert (Hdp : dict_get {[ "display_points"%string := JInt 0 ]} "display_points"
                    (JInt V1.DEFAULT_DISPLAY_POINTS) = JInt 0) by reflexivity.
    assert (Hstyle : V1_trace_ok {[ "display_points"%string := JInt 0 ]} = true)
      by reflexivity.
    destruct (Hv1 [] paused_world (JInt 1) false
                {[ "display_points"%string := JInt 0 ]} 0 None None None None Hdp)
      as [Hfigs _].
    destruct (Hfigs Hpts Hstyle) as (figs & Hout & Hall).
    exists figs. split; [exact Hout|].
    repeat match goal with
           | H : Forall2 _ _ _ |- _ => inversion H; clear H; subst
           end.
    repeat constructor; tauto.
Defined.

(** ** Export *)

Lemma export_of_ok_store w n st : store_ok st -> export_reflects w n st.
Proof.
  intros Hok.
  destruct (store_ok_shape _ Hok) as (b1 & b2 & b3 & b4 & Hsd & H1 & H2 & H3 & H4).
  unfold export_reflects, export_data_as_csv, bind, get, lift, ret.
  rewrite Hsd. unfold assoc_update.
  repeat (cbn [map fold_left assoc_set fst snd];
          rewrite ?bool_decide_eq_false_2 by discriminate).
  unfold DataFrame.
  cbn [forallb snd]. rewrite !length_map, H1, H2, H3, H4.
  rewrite !bool_decide_eq_true_2 by reflexivity. cbn [andb].
  eexists _, b1, b2, b3, b4.
  split; [reflexivity|]. split; [reflexivity|].
  cbn [columns rows map fst].
  split; [reflexivity|]. split.
  - rewrite length_map, length_seq. reflexivity.
  - intros k t Hk.
    assert (Hlt : (k < length (items (time_data st)))%nat)
      by (eapply lookup_lt_Some; eassumption).
    destruct (lookup_lt_is_Some_2 (items b1) k) as [v1 Hv1]; [lia|].
    destruct (lookup_lt_is_Some_2 (items b2) k) as [v2 Hv2]; [lia|].
    destruct (lookup_lt_is_Some_2 (items b3) k) as [v3 Hv3]; [lia|].
    destruct (lookup_lt_is_Some_2 (items b4) k) as [v4 Hv4]; [lia|].
    exists v1, v2, v3, v4. repeat (split; [assumption|]).
    rewrite list_lookup_fmap, lookup_seq_lt by assumption.
    cbn [fmap option_fmap option_map omap list_omap snd plus].
    rewrite !list_lookup_fmap, Hk, Hv1, Hv2, Hv3, Hv4. reflexivity.
Qed.

(** C10. In either program, after any sequence of ticks, the export builds
    a table with the columns [timestamp, s1, s2, s3, s4] in this order and
    one row per buffered sample, the k-th row holding the k-th timestamp and
    the k-th value of each channel, oldest first, and leaves the buffers as
    they are; before any tick the table has these columns and no row. *)
Theorem export_table :
  (forall (ticks : list V1.tick) w n,
     export_reflects w n (V1.run ticks initial_store)) /\
  (forall (ticks : list V2.tick) w n,
     export_reflects w n (V2.run ticks initial_store)) /\
  (forall w n,
     fst (export_data_as_csv w n initial_store) =
       Ok (mkDownload
             (mkDataFrame ["timestamp"; "s1"; "s2"; "s3"; "s4"]%string [])
             (now w))).
Proof.
  split; [|split].
  - intros. apply export_of_ok_store, V1_run_ok, initial_store_ok.
  - intros. apply export_of_ok_store, V2_run_ok, initial_store_ok.
  - intros. reflexivity.
Qed.

(** ** The detail page *)




(** C5 (the code departs from the claim). On a detail page of the multi-page
    program the interval triggers [update_detail_graph_live] only, and that
    callback never touches the buffers: a tick while capture is running
    appends nothing there, and the live update emits again the point it
    emitted on the previous tick. On the dashboard pages a tick appends one
    sample exactly when capture is running. *)
Theorem detail_tick_appends_nothing :
  (forall trig n settings pathname is_running st,
     snd (V2.update_detail_graph_live trig n settings pathname is_running st) = st) /\
  (forall (t : V2.tick) (st : store) (i : Z),
     V2.display_page (V2.t_pathname t) = V2.PageDetail i ->
     V2.t_is_running t = true ->
     snd (V2.on_interval t st) = st) /\
  (let st := V2.run one_sample initial_store in
   let t := V2.mkTick (mkWorld 1500000 (fun _ => 2%float)) (JInt 2)
              (Some "/sensor-2"%string) true None (Some ∅) None None None None in
   V2.on_interval t st =
     (Ok (V2.DetailGraph
            (no_update,
             update (V2.mkExtend [[1000000]] [[51.5%float]] [0] (JInt 500)))),
      st) /\
   V2.run [t; t; t] st = st).
Proof.
  split; [|split].
  - intros. apply V2_update_detail_read_only.
  - intros t st i Hpage _. rewrite V2_on_interval_store, Hpage. reflexivity.
  - split; vm_compute; reflexivity.
Qed.

(** On the dashboards a tick changes the buffers exactly by one
    data-generation step when capture is running, and not at all when it is
    paused. *)
Lemma dashboard_tick_store :
  (forall (t : V1.tick) st,
     snd (V1.on_interval t st) =
       if V1.t_is_running t then snd (generate_new_data (V1.t_world t) st) else st) /\
  (forall (t : V2.tick) st,
     V2.display_page (V2.t_pathname t) = V2.PageDashboard ->
     snd (V2.on_interval t st) =
       if V2.t_is_running t then snd (generate_new_data (V2.t_world t) st) else st).
Proof.
  split.
  - intros t st. apply V1_update_graphs_store.
  - intros t st Hpage. rewrite V2_on_interval_store, Hpage. reflexivity.
Qed.

(** ** The overlay of the multi-page program *)

(** The single-page program validates each axis on its own: its overlay is
    the one the specification describes, for every payload. *)
Lemma V1_overlay_independent (relayout_data : option dict) (fig : figure) :
  exists fig',
    V1.apply_relayout false relayout_data fig = Ok fig' /\
    fig_xaxis_range fig' =
      spec_overlay_axis true relayout_data "xaxis.range[0]" "xaxis.range[1]"
        (fig_xaxis_range fig) /\
    fig_yaxis_range fig' =
      spec_overlay_axis true relayout_data "yaxis.range[0]" "yaxis.range[1]"
        (fig_yaxis_range fig) /\
    fig_data fig' = fig_data fig /\ fig_title fig' = fig_title fig.
Proof.
  eexists. split; [apply V1_apply_relayout_spec|]. repeat split.
Qed.

(** C1 (the code departs from the claim). In the multi-page program a
    payload that holds both x-axis bounds and no y-axis bound is not
    applied: the overlay returns the figure as it was, where the single-page
    program sets the x-axis range. The multi-page overlay tests the two
    lower bounds together instead of each axis on its own. *)
Theorem multipage_overlay_drops_x_only :
  (forall fig : figure,
     V2.apply_relayout false (Some zoom_x) fig = Ok fig /\
     V1.apply_relayout false (Some zoom_x) fig =
       Ok (set_xaxis_range fig (JStr "2025-01-01 10:00:00") (JStr "2025-01-01 10:05:00"))) /\
  (let st := V2.run one_sample initial_store in
   match fst (V2.update_dashboard_graphs paused_world (JInt 2) false None
                (Some zoom_x) None None None st) with
   | Ok (fig1 :: _) => fig_xaxis_range fig1 = None /\ fig_yaxis_range fig1 = None
   | _ => False
   end /\
   match fst (V1.update_graphs paused_world (JInt 2) false (Some ∅)
                (Some zoom_x) None None None st) with
   | Ok (fig1 :: _) =>
       fig_xaxis_range fig1 =
         Some (JStr "2025-01-01 10:00:00", JStr "2025-01-01 10:05:00") /\
       fig_yaxis_range fig1 = None
   | _ => False
   end).
Proof.
  split.
  - intros fig. split; [reflexivity|].
    rewrite V1_apply_relayout_spec. destruct fig; reflexivity.
  - split; vm_compute; split; reflexivity.
Qed.

(** C2 (the code departs from the claim). In the multi-page program a
    payload that holds the lower bound of each axis and no upper bound makes
    the dashboard graph update raise [KeyError('xaxis.range[1]')]; the
    single-page program returns its four figures on the same input. *)
Theorem multipage_overlay_partial_raises :
  (forall fig : figure,
     V2.apply_relayout false (Some corner_drag) fig = Raise (KeyError "xaxis.range[1]") /\
     V1.apply_relayout false (Some corner_drag) fig = Ok fig) /\
  (let st := V2.run one_sample initial_store in
   fst (V2.update_dashboard_graphs paused_world (JInt 2) false None
          (Some corner_drag) None None None st) =
     Raise (KeyError "xaxis.range[1]") /\
   exists figs,
     fst (V1.update_graphs paused_world (JInt 2) false (Some ∅)
            (Some corner_drag) None None None st) = Ok figs /\
     length figs = 4%nat /\ Forall no_override figs).
Proof.
  split.
  - intros fig. split; [reflexivity|].
    rewrite V1_apply_relayout_spec. destruct fig; reflexivity.
  - split; [vm_compute; reflexivity|].
    eexists. split; [vm_compute; reflexivity|].
    split; [reflexivity|]. repeat constructor.
Qed.

(** For every payload, complete or partial, the overlay of the single-page
    program returns a figure. *)
Lemma V1_overlay_never_raises (is_running : bool) (relayout_data : option dict) fig :
  exists fig', V1.apply_relayout is_running relayout_data fig = Ok fig'.
Proof. eexists. apply V1_apply_relayout_spec. Qed.

(** ** Further properties: the buffers *)

Lemma deque_append_Forall {A} (P : A -> Prop) (d : deque A) (x : A) :
  Forall P (items d) -> P x -> Forall P (items (deque_append d x)).
Proof.
  intros Hd Hx. unfold deque_append. cbn [items].
  assert (Hall : Forall P (items d ++ [x])) by (apply Forall_app; auto).
  destruct (maxlen d <? len (items d ++ [x])); [|exact Hall].
  destruct (items d ++ [x]); [constructor|].
  inversion Hall; assumption.
Qed.

Lemma clamp_in_range (v : float) : in_range (clamp v).
Proof.
  unfold in_range. destruct (clamp_bounds v) as [H0 H1].
  rewrite H0, H1. reflexivity.
Qed.

Lemma generate_channels_in_range w sd : forall k,
  Forall (fun nb => Forall in_range (items (snd nb))) sd ->
  Forall (fun nb => Forall in_range (items (snd nb))) (generate_channels w k sd).
Proof.
  induction sd as [|[name buffer] rest IH]; intros k Hall; cbn [generate_channels].
  - constructor.
  - inversion Hall as [|? ? Hb Hrest]; subst. cbn [snd] in Hb.
    constructor; [|apply IH; assumption].
    cbn [snd]. apply deque_append_Forall; [assumption | apply clamp_in_range].
Qed.

Lemma V1_run_in_range ticks : forall st,
  Forall (fun nb => Forall in_range (items (snd nb))) (sensor_data st) ->
  Forall (fun nb => Forall in_range (items (snd nb))) (sensor_data (V1.run ticks st)).
Proof.
  unfold V1.run. induction ticks as [|t ticks IH]; intros st H; simpl; [assumption|].
  apply IH. unfold V1.on_interval. rewrite V1_update_graphs_store.
  destruct (V1.t_is_running t); [|assumption].
  apply generate_channels_in_range, H.
Qed.

Lemma V2_run_in_range ticks : forall st,
  Forall (fun nb => Forall in_range (items (snd nb))) (sensor_data st) ->
  Forall (fun nb => Forall in_range (items (snd nb))) (sensor_data (V2.run ticks st)).
Proof.
  unfold V2.run. induction ticks as [|t ticks IH]; intros st H; simpl; [assumption|].
  apply IH. rewrite V2_on_interval_store.
  destruct (V2.display_page (V2.t_pathname t)); try assumption.
  destruct (V2.t_is_running t); [|assumption].
  apply generate_channels_in_range, H.
Qed.

(** X1. Whatever the random draws (a NaN or an infinity included) and
    whatever the ticks, every value held in every channel buffer of either
    program lies between 0 and 120. *)
Theorem buffered_values_in_range :
  (forall ticks : list V1.tick,
     Forall (fun nb => Forall in_range (items (snd nb)))
            (sensor_data (V1.run ticks initial_store))) /\
  (forall ticks : list V2.tick,
     Forall (fun nb => Forall in_range (items (snd nb)))
            (sensor_data (V2.run ticks initial_store))).
Proof.
  split; intros ticks.
  - apply V1_run_in_range. repeat constructor.
  - apply V2_run_in_range. repeat constructor.
Qed.

(** ** Further properties: capture state and sample count *)

Lemma generate_new_data_time w st :
  time_data (snd (generate_new_data w st)) = deque_append (time_data st) (now w).
Proof. reflexivity. Qed.

Lemma app_run_from events : forall (is_running : bool) st,
  store_ok st ->
  let final := fold_left V1.app_step events (is_running, st) in
  fst final = xorb is_running (Nat.odd (clicks events)) /\
  store_ok (snd final) /\
  time_data (snd final) =
    deque_extend (time_data st) (map now (generating is_running events)).
Proof.
  induction events as [|ev events IH]; intros is_running st Hok; cbn [fold_left].
  - cbn. rewrite xorb_false_r. auto.
  - destruct ev as [n_clicks | w n settings r1 r2 r3 r4]; cbn [V1.app_step fst snd].
    + destruct (IH (toggle_running_state n_clicks is_running) st Hok) as (Hr & Hs & Ht).
      split; [|split; [exact Hs|exact Ht]].
      rewrite Hr. unfold toggle_running_state, clicks. cbn [List.filter length].
      rewrite Nat.odd_succ, <- Nat.negb_odd.
      destruct is_running, (Nat.odd _); reflexivity.
    + rewrite V1_update_graphs_store.
      assert (Hok' : store_ok (if is_running then snd (generate_new_data w st) else st)).
      { destruct is_running; [apply generate_new_data_ok|]; assumption. }
      destruct (IH is_running _ Hok') as (Hr & Hs & Ht).
      split; [exact Hr|]. split; [exact Hs|].
      rewrite Ht. cbn [generating]. rewrite map_app.
      destruct is_running; reflexivity.
Qed.

Lemma deque_extend_items_new {A} (c : Z) (xs : list A) (d : deque A) :
  d = deque_new c -> items (deque_extend d xs) = drop (length xs - Z.to_nat c) xs.
Proof. intros ->. apply deque_extend_new. Qed.

Lemma capture_sample_count_aux (events : list V1.event) :
  let final := V1.app_run events in
  let stamps := map now (generating false events) in
  fst final = Nat.odd (clicks events) /\
  items (time_data (snd final)) = drop (length stamps - Z.to_nat 10000) stamps.
Proof.
  intros final stamps.
  destruct (app_run_from events false initial_store initial_store_ok)
    as (Hr & Hok & Ht).
  fold (V1.app_run events) in Hr, Hok, Ht. fold final in Hr, Hok, Ht.
  split; [exact Hr|].
  rewrite Ht. apply (deque_extend_items_new MAX_BUFFER_SIZE). reflexivity.
Qed.

Lemma app_run_ok (events : list V1.event) : store_ok (snd (V1.app_run events)).
Proof. apply (app_run_from events false initial_store initial_store_ok). Qed.

(** X2. In the single-page program, after any sequence of clicks on the
    capture button and interval ticks from start-up: capture is on exactly
    when the number of clicks is odd; the timestamp buffer holds the clock
    readings of the ticks that happened while capture was on, the most
    recent 10000 of them, oldest first; and every channel buffer holds as
    many values, that is min(number of such ticks, 10000). *)
Theorem capture_sample_count (events : list V1.event) :
  let final := V1.app_run events in
  let stamps := map now (generating false events) in
  fst final = Nat.odd (clicks events) /\
  items (time_data (snd final)) = drop (length stamps - Z.to_nat 10000) stamps /\
  Forall (fun nb => len (items (snd nb)) = Z.min (len stamps) 10000)
         (sensor_data (snd final)).
Proof.
  intros final stamps.
  destruct (app_run_from events false initial_store initial_store_ok)
    as (Hr & Hok & Ht).
  fold (V1.app_run events) in Hr, Hok, Ht. fold final in Hr, Hok, Ht.
  assert (Hitems : items (time_data (snd final)) =
                   drop (length stamps - Z.to_nat 10000) stamps).
  { rewrite Ht. apply (deque_extend_items_new MAX_BUFFER_SIZE). reflexivity. }
  split; [exact Hr|]. split; [exact Hitems|].
  eapply Forall_impl; [apply store_ok_lengths, Hok|].
  intros nb Hnb. cbn beta in Hnb. rewrite Hnb, Hitems.
  unfold len. rewrite length_drop. lia.
Qed.

Lemma V2_run_time_data ticks : forall st,
  time_data (V2.run ticks st) =
    deque_extend (time_data st)
      (map (fun t => now (V2.t_world t)) (List.filter V2_generates ticks)).
Proof.
  unfold V2.run, deque_extend.
  induction ticks as [|t ticks IH]; intros st; cbn [fold_left List.filter]; [reflexivity|].
  rewrite IH, V2_on_interval_store. unfold V2_generates.
  destruct (V2.display_page (V2.t_pathname t)), (V2.t_is_running t); reflexivity.
Qed.

(** X3. In the multi-page program a tick adds a sample only while capture is
    on and the dashboard page is shown: after any sequence of ticks the
    timestamp buffer holds the clock readings of those ticks, the most recent
    10000 of them, oldest first, and every channel buffer holds as many
    values; ticks on a detail page or on the not-found page add nothing. *)
Theorem multipage_sample_count (ticks : list V2.tick) :
  let st := V2.run ticks initial_store in
  let stamps := map (fun t => now (V2.t_world t)) (List.filter V2_generates ticks) in
  items (time_data st) = drop (length stamps - Z.to_nat 10000) stamps /\
  Forall (fun nb => len (items (snd nb)) = Z.min (len stamps) 10000)
         (sensor_data st).
Proof.
  intros st stamps.
  assert (Hitems : items (time_data st) = drop (length stamps - Z.to_nat 10000) stamps).
  { subst st. rewrite V2_run_time_data.
    apply (deque_extend_items_new MAX_BUFFER_SIZE). reflexivity. }
  split; [exact Hitems|].
  eapply Forall_impl; [apply store_ok_lengths, V2_run_ok, initial_store_ok|].
  intros nb Hnb. cbn beta in Hnb. fold st in Hnb. rewrite Hnb, Hitems.
  unfold len. rewrite length_drop. lia.
Qed.

(** ** Further properties: the status display *)

Lemma nonempty_drop_last {A} (xs : list A) (c : nat) :
  (0 < c)%nat -> nonempty (drop (length xs - c) xs) = nonempty xs.
Proof.
  intros Hc. destruct xs as [|x xs]; [reflexivity|].
  destruct (drop (length (x :: xs) - c) (x :: xs)) eqn:E; [|reflexivity].
  apply (f_equal length) in E. rewrite length_drop in E. simpl in E. lia.
Qed.

(** X4. The status shown by the single-page program after any sequence of
    clicks and ticks from start-up, when the status callback runs: [Exported
    CSV] if the export button triggered it; otherwise [Waiting for data...]
    as long as no tick has happened while capture was on, even if capture is
    on now; otherwise [Logging: RUNNING] or [PAUSED - Zoom/Pan Enabled]
    according to the capture state. The callback leaves the buffers as they
    are. *)
Theorem status_after_events (events : list V1.event) (triggered_id : option string)
    (export_clicks : json) :
  let final := V1.app_run events in
  let out := update_status_display triggered_id (fst final) export_clicks (snd final) in
  snd out = snd final /\
  exists style,
    fst out =
      Ok ((if bool_decide (triggered_id = Some ID_BTN_EXPORT) then "Exported CSV"
           else if nonempty (generating false events) then
                  if Nat.odd (clicks events) then "Logging: RUNNING"
                  else "PAUSED - Zoom/Pan Enabled"
                else "Waiting for data...")%string,
          style).
Proof.
  intros final out.
  destruct (capture_sample_count_aux events) as (Hr & Hitems).
  fold final in Hr, Hitems.
  subst out. unfold update_status_display.
  destruct (bool_decide (triggered_id = Some ID_BTN_EXPORT)).
  - split; [reflexivity|]. eexists. reflexivity.
  - unfold bind, get. cbn [fst snd].
    rewrite Hitems, nonempty_drop_last by lia.
    assert (Hne : nonempty (map now (generating false events)) =
                  nonempty (generating false events))
      by (destruct (generating false events); reflexivity).
    rewrite Hne, Hr.
    destruct (nonempty (generating false events)); cbn [negb];
      [destruct (Nat.odd (clicks events))|];
      (split; [reflexivity|]; eexists; reflexivity).
Qed.

(** ** Further properties: export after capture *)

(** X5. In the single-page program, after any sequence of clicks and ticks
    from start-up, the export returns a table with one row per tick that
    happened while capture was on, capped at the 10000 most recent, and
    leaves the buffers as they are. *)
Theorem export_row_count (events : list V1.event) (w : world) (n_clicks : json) :
  let st := snd (V1.app_run events) in
  exists df,
    export_data_as_csv w n_clicks st = (Ok (mkDownload df (now w)), st) /\
    columns df = ["timestamp"; "s1"; "s2"; "s3"; "s4"]%string /\
    len (rows df) = Z.min (len (generating false events)) 10000.
Proof.
  intros st.
  destruct (export_of_ok_store w n_clicks st (app_run_ok events))
    as (df & b1 & b2 & b3 & b4 & Hout & _ & Hcols & Hrows & _).
  exists df. split; [exact Hout|]. split; [exact Hcols|].
  destruct (capture_sample_count_aux events) as (_ & Hitems).
  fold st in Hitems. unfold len. rewrite Hrows, Hitems, length_drop, length_map. lia.
Qed.

(** ** Further properties: the size of the window *)

Lemma items_between_window_length {A} (l : list A) (dp : Z) :
  len (items_between l (spec_window (len l) dp)) = Z.min (len l) (Z.max 0 dp).
Proof.
  rewrite items_between_window. unfold len. rewrite length_drop. lia.
Qed.

Lemma last_drop_lt {A} (l : list A) (k : nat) :
  (k < length l)%nat -> last (drop k l) = last l.
Proof.
  intros Hk. rewrite !last_lookup, lookup_drop, length_drop.
  f_equal. lia.
Qed.

Lemma items_between_window_last {A} (l : list A) (dp : Z) :
  0 < dp -> last (items_between l (spec_window (len l) dp)) = last l.
Proof.
  intros Hdp. rewrite items_between_window.
  destruct l as [|x l]; [rewrite drop_nil; reflexivity|].
  apply last_drop_lt. unfold len. simpl. lia.
Qed.

(** What the dashboard update of the single-page program returns on buffers
    of the right shape: the four charts with the overlay of the
    specification. *)
Lemma V1_update_graphs_out w n (is_running : bool) (s : dict) dp r1 r2 r3 r4 st :
  store_ok st ->
  dict_get s "display_points" (JInt V1.DEFAULT_DISPLAY_POINTS) = JInt dp ->
  points_ok dp ->
  V1_trace_ok s = true ->
  let st' := if is_running then snd (generate_new_data w st) else st in
  fst (V1.update_graphs w n is_running (Some s) r1 r2 r3 r4 st) =
    Ok [spec_overlay (negb is_running) r1 (V1_chart s st' dp 1);
        spec_overlay (negb is_running) r2 (V1_chart s st' dp 2);
        spec_overlay (negb is_running) r3 (V1_chart s st' dp 3);
        spec_overlay (negb is_running) r4 (V1_chart s st' dp 4)].
Proof.
  intros Hok Hdp Hpts Hstyle st'.
  rewrite (V1_update_graphs_figs _ _ _ _ dp) by assumption.
  rewrite !V1_apply_relayout_spec. reflexivity.
Qed.

(** The same for the multi-page program, whose overlay may raise while
    paused. *)
Lemma V2_dashboard_outcome w n (is_running : bool) (s : option dict) dp r1 r2 r3 r4 st :
  store_ok st ->
  dict_get (V2.or_empty s) "points" (JInt V2.DEFAULT_DISPLAY_POINTS_DASH) = JInt dp ->
  points_ok dp ->
  V2_trace_ok "linear" (V2.or_empty s) = true ->
  let st' := if is_running then snd (generate_new_data w st) else st in
  let out := fst (V2.update_dashboard_graphs w n is_running s r1 r2 r3 r4 st) in
  (exists f1 f2 f3 f4,
     out = Ok [f1; f2; f3; f4] /\
     fig_data f1 = fig_data (V2_chart "Sensor 1" (Some 360) "linear" (V2.or_empty s) st' dp 1) /\
     fig_data f2 = fig_data (V2_chart "Sensor 2" (Some 360) "linear" (V2.or_empty s) st' dp 2) /\
     fig_data f3 = fig_data (V2_chart "Sensor 3" (Some 360) "linear" (V2.or_empty s) st' dp 3) /\
     fig_data f4 = fig_data (V2_chart "Sensor 4" (Some 360) "linear" (V2.or_empty s) st' dp 4)) \/
  (is_running = false /\ exists k, out = Raise (KeyError k)).
Proof.
  intros Hok Hdp Hpts Hstyle st' out. subst out.
  rewrite (V2_update_dashboard_figs _ _ _ _ dp) by assumption. fold st'.
  repeat match goal with
         | |- context [V2.apply_relayout ?a ?b ?c] =>
             let H := fresh "Ho" in
             destruct (V2.apply_relayout a b c) eqn:H; cbn [rbind];
             [apply V2_apply_relayout_data in H
             |apply V2_apply_relayout_raise in H as [-> [k ->]];
              right; split; [reflexivity|]; eauto]
         end.
  left. do 4 eexists. split; [reflexivity|]. auto.
Qed.

Lemma deque_append_last {A} (d : deque A) (x : A) :
  0 < maxlen d -> last (items (deque_append d x)) = Some x.
Proof.
  intros Hpos. rewrite deque_append_items by assumption.
  destruct (len (items d) <? maxlen d); apply last_snoc.
Qed.

Lemma V1_chart_size s st dp i :
  store_ok st -> 1 <= i <= 4 ->
  len (fig_xs (V1_chart s st dp i)) = Z.min (len (items (time_data st))) (Z.max 0 dp) /\
  len (fig_ys (V1_chart s st dp i)) = Z.min (len (items (time_data st))) (Z.max 0 dp) /\
  (0 < dp -> last (fig_xs (V1_chart s st dp i)) = last (items (time_data st))).
Proof.
  intros Hok Hi.
  destruct (V1_chart_points s st dp i Hok Hi) as [Hx Hy].
  rewrite Hx, Hy.
  pose proof (channel_items_length st i Hok Hi) as Hlen.
  assert (Hl : len (items (time_data st)) = len (channel_items st ("s" +:+ pretty i)))
    by (unfold len; rewrite Hlen; reflexivity).
  split; [apply items_between_window_length|]. split.
  - rewrite Hl. apply items_between_window_length.
  - apply items_between_window_last.
Qed.

(** X6. The size of the window on the single-page dashboard: after any
    sequence of clicks and ticks from start-up, a tick with trace settings
    Plotly accepts and an integer display-point count [dp] in the range of
    [islice] returns four figures, each plotting
    min(buffer length, max(0, dp)) timestamps and as many values; when [dp]
    is positive the last plotted timestamp is the newest buffered one, which
    is the clock reading of this very tick when capture is on. *)
Theorem window_size (events : list V1.event) (w : world) (n : json) (s : dict)
    (dp : Z) (r1 r2 r3 r4 : option dict) :
  dict_get s "display_points" (JInt V1.DEFAULT_DISPLAY_POINTS) = JInt dp ->
  points_ok dp ->
  V1_trace_ok s = true ->
  let state := V1.app_run events in
  let st' := snd (V1.app_step state (V1.Interval w n (Some s) r1 r2 r3 r4)) in
  exists figs,
    fst (V1.update_graphs w n (fst state) (Some s) r1 r2 r3 r4 (snd state)) = Ok figs /\
    length figs = 4%nat /\
    Forall (fun fig =>
              len (fig_xs fig) = Z.min (len (items (time_data st'))) (Z.max 0 dp) /\
              len (fig_ys fig) = len (fig_xs fig) /\
              (0 < dp -> last (fig_xs fig) = last (items (time_data st'))) /\
              (0 < dp -> fst state = true -> last (fig_xs fig) = Some (now w)))
           figs.
Proof.
  intros Hdp Hpts Hstyle state st'.
  assert (Hok : store_ok (snd state)) by apply app_run_ok.
  assert (Hst' : st' = if fst state then snd (generate_new_data w (snd state))
                       else snd state).
  { subst st'. cbn [V1.app_step snd]. apply V1_update_graphs_store. }
  assert (Hok' : store_ok st').
  { rewrite Hst'. destruct (fst state); [apply generate_new_data_ok|]; assumption. }
  rewrite (V1_update_graphs_out _ _ _ _ dp) by assumption. rewrite <- Hst'.
  eexists. split; [reflexivity|]. split; [reflexivity|].
  assert (Hone : forall r i, 1 <= i <= 4 ->
    let fig := spec_overlay (negb (fst state)) r (V1_chart s st' dp i) in
    len (fig_xs fig) = Z.min (len (items (time_data st'))) (Z.max 0 dp) /\
    len (fig_ys fig) = len (fig_xs fig) /\
    (0 < dp -> last (fig_xs fig) = last (items (time_data st'))) /\
    (0 < dp -> fst state = true -> last (fig_xs fig) = Some (now w))).
  { intros r i Hi fig.
    destruct (V1_chart_size s st' dp i Hok' Hi) as (Hx & Hy & Hl).
    change (fig_xs fig) with (fig_xs (V1_chart s st' dp i)).
    change (fig_ys fig) with (fig_ys (V1_chart s st' dp i)).
    rewrite Hx, Hy. repeat split; [exact Hl|].
    intros Hpos Hrun. rewrite (Hl Hpos), Hst', Hrun.
    apply deque_append_last. destruct Hok as (-> & _). reflexivity. }
  repeat constructor; apply Hone; lia.
Qed.

Lemma window_size_witness :
  exists figs,
    fst (V1.update_graphs (mkWorld 7 (fun _ => 0%float)) JNull true (Some ∅)
           None None None None initial_store) = Ok figs /\
    Forall (fun fig => len (fig_xs fig) = 1 /\ last (fig_xs fig) = Some 7) figs.
Proof.
  assert (Hdp : dict_get ∅ "display_points" (JInt V1.DEFAULT_DISPLAY_POINTS) = JInt 50)
    by reflexivity.
  assert (Hpts : points_ok 50) by (vm_compute; discriminate).
  assert (Hstyle : V1_trace_ok ∅ = true) by reflexivity.
  destruct (window_size [V1.Click JNull] (mkWorld 7 (fun _ => 0%float)) JNull ∅ 50
              None None None None Hdp Hpts Hstyle) as (figs & Hout & _ & Hall).
  exists figs. split; [exact Hout|].
  eapply Forall_impl; [exact Hall|].
  intros fig (Hx & _ & _ & Hlast). split; [exact Hx|].
  apply Hlast; [lia | reflexivity].
Defined.

(** ** Further properties: settings *)

Lemma V1_sync_get (dp ls sm ms d : json) :
  let s := V1.sync_settings_to_store dp ls sm ms in
  dict_get s "display_points" d = dp /\
  dict_get s "line_shape" d = ls /\
  dict_get s "show_markers" d = sm /\
  dict_get s "marker_size" d = ms.
Proof.
  unfold V1.sync_settings_to_store, dict_get.
  repeat split; simplify_map_eq; reflexivity.
Qed.

Lemma V2_sync_get (points shape markers size d : json) :
  let s := V2.sync_dash_settings_to_store points shape markers size in
  dict_get s "points" d = points /\
  dict_get s "shape" d = shape /\
  dict_get s "markers" d = markers /\
  dict_get s "size" d = size.
Proof.
  unfold V2.sync_dash_settings_to_store, dict_get.
  repeat split; simplify_map_eq; reflexivity.
Qed.

Lemma V1_chart_traces (s : dict) st dp i :
  Forall (fun tr =>
            sc_line tr = [("shape"%string, dict_get s "line_shape" (JStr "linear"));
                          ("width"%string, JInt 2); ("color"%string, JStr "#3B82F6")] /\
            sc_mode tr = (if json_eq_str (dict_get s "show_markers" JNull) "on"
                          then "lines+markers" else "lines")%string /\
            sc_marker tr = (if json_eq_str (dict_get s "show_markers" JNull) "on"
                            then [("size"%string, dict_get s "marker_size" (JInt 6));
                                  ("color"%string, JStr "#3B82F6")]
                            else []))
         (fig_data (V1_chart s st dp i)).
Proof.
  unfold V1_chart. cbv zeta. destruct (nonempty _); repeat constructor.
Qed.

Lemma V2_chart_traces title h sh (s : dict) st dp i :
  Forall (fun tr =>
            sc_line tr = [("shape"%string, dict_get s "shape" (JStr sh));
                          ("width"%string, JInt 2)] /\
            sc_mode tr = (if json_eq_str (dict_get s "markers" JNull) "on"
                          then "lines+markers" else "lines")%string /\
            sc_marker tr = (if json_eq_str (dict_get s "markers" JNull) "on"
                            then [("size"%string, dict_get s "size" (JInt 6))]
                            else []))
         (fig_data (V2_chart title h sh s st dp i)).
Proof.
  unfold V2_chart. cbv zeta. destruct (nonempty _); repeat constructor.
Qed.

Lemma V2_chart_size title h sh s st dp i :
  store_ok st -> 1 <= i <= 4 ->
  len (fig_xs (V2_chart title h sh s st dp i)) =
    Z.min (len (items (time_data st))) (Z.max 0 dp) /\
  len (fig_ys (V2_chart title h sh s st dp i)) =
    Z.min (len (items (time_data st))) (Z.max 0 dp) /\
  (0 < dp -> last (fig_xs (V2_chart title h sh s st dp i)) = last (items (time_data st))) /\
  (0 < dp -> last (fig_ys (V2_chart title h sh s st dp i)) =
             last (channel_items st ("s" +:+ pretty i))).
Proof.
  intros Hok Hi.
  destruct (V2_chart_points title h sh s st dp i Hok Hi) as [Hx Hy].
  rewrite Hx, Hy.
  pose proof (channel_items_length st i Hok Hi) as Hlen.
  assert (Hl : len (items (time_data st)) = len (channel_items st ("s" +:+ pretty i)))
    by (unfold len; rewrite Hlen; reflexivity).
  split; [apply items_between_window_length|]. split; [|split].
  - rewrite Hl. apply items_between_window_length.
  - apply items_between_window_last.
  - rewrite Hl. apply items_between_window_last.
Qed.

Lemma window_nonempty {A} (l : list A) (dp : Z) :
  0 < dp -> nonempty l = true ->
  nonempty (items_between l (spec_window (len l) dp)) = true.
Proof.
  intros Hdp Hne.
  destruct (nonempty_last _ Hne) as [x Hx].
  pose proof (items_between_window_last l dp Hdp) as Hlast.
  rewrite Hx in Hlast.
  destruct (items_between l (spec_window (len l) dp)); [discriminate Hlast | reflexivity].
Qed.

(** X7. The settings written by the sync callbacks are the ones the
    dashboard updates read back: with the store filled by
    [sync_settings_to_store] (single-page) or [sync_dash_settings_to_store]
    (multi-page) from an integer display-point count in the range of
    [islice], a line shape, a marker choice and a marker size, when Plotly
    accepts the line shape and, with the choice ['on'], the marker size,
    every trace of every figure returned has that line shape, has markers of
    that size exactly when the choice is ['on'], and plots
    min(buffer length, max(0, display points)) points (the multi-page update
    may instead fail in its overlay step while paused, with a [KeyError]);
    when Plotly refuses them and there is a point to plot, the update raises
    a [ValueError]. *)
Theorem settings_round_trip :
  (forall (events : list V1.event) w n (dp : Z) (shape markers size : json) r1 r2 r3 r4,
     let state := V1.app_run events in
     let s := V1.sync_settings_to_store (JInt dp) shape markers size in
     let st' := snd (V1.app_step state (V1.Interval w n (Some s) r1 r2 r3 r4)) in
     let out := fst (V1.update_graphs w n (fst state) (Some s) r1 r2 r3 r4 (snd state)) in
     let accepted :=
       valid_line_shape shape &&
       (negb (json_eq_str markers "on") || valid_marker_size size) in
     points_ok dp ->
     (accepted = true ->
      exists figs,
        out = Ok figs /\
        Forall (fun fig =>
                  len (fig_xs fig) = Z.min (len (items (time_data st'))) (Z.max 0 dp) /\
                  Forall (fun tr =>
                            sc_line tr = [("shape"%string, shape); ("width"%string, JInt 2);
                                          ("color"%string, JStr "#3B82F6")] /\
                            sc_mode tr = (if json_eq_str markers "on"
                                          then "lines+markers" else "lines")%string /\
                            sc_marker tr = (if json_eq_str markers "on"
                                            then [("size"%string, size);
                                                  ("color"%string, JStr "#3B82F6")]
                                            else []))
                         (fig_data fig))
               figs) /\
     (accepted = false -> 0 < dp -> nonempty (items (time_data st')) = true ->
      out = Raise ValueError)) /\
  (forall (ticks : list V2.tick) w n (is_running : bool) (dp : Z)
          (shape markers size : json) r1 r2 r3 r4,
     let st := V2.run ticks initial_store in
     let s := V2.sync_dash_settings_to_store (JInt dp) shape markers size in
     let st' := snd (V2.update_dashboard_graphs w n is_running (Some s) r1 r2 r3 r4 st) in
     let out := fst (V2.update_dashboard_graphs w n is_running (Some s) r1 r2 r3 r4 st) in
     let accepted :=
       valid_line_shape shape &&
       (negb (json_eq_str markers "on") || valid_marker_size size) in
     points_ok dp ->
     (accepted = true ->
      (exists figs,
         out = Ok figs /\
         Forall (fun fig =>
                   len (fig_xs fig) = Z.min (len (items (time_data st'))) (Z.max 0 dp) /\
                   Forall (fun tr =>
                             sc_line tr = [("shape"%string, shape); ("width"%string, JInt 2)] /\
                             sc_mode tr = (if json_eq_str markers "on"
                                           then "lines+markers" else "lines")%string /\
                             sc_marker tr = (if json_eq_str markers "on"
                                             then [("size"%string, size)] else []))
                          (fig_data fig))
                figs) \/
      (is_running = false /\ exists k, out = Raise (KeyError k))) /\
     (accepted = false -> 0 < dp -> nonempty (items (time_data st')) = true ->
      out = Raise ValueError)).
Proof.
  split.
  - intros events w n dp shape markers size r1 r2 r3 r4 state s st' out accepted Hpts.
    destruct (V1_sync_get (JInt dp) shape markers size (JInt V1.DEFAULT_DISPLAY_POINTS))
      as (Hdp & _).
    destruct (V1_sync_get (JInt dp) shape markers size (JStr "linear")) as (_ & Hls & _).
    destruct (V1_sync_get (JInt dp) shape markers size JNull) as (_ & _ & Hsm & _).
    destruct (V1_sync_get (JInt dp) shape markers size (JInt 6)) as (_ & _ & _ & Hms).
    fold s in Hdp, Hls, Hsm, Hms.
    assert (Hacc : V1_trace_ok s = accepted).
    { unfold V1_trace_ok. rewrite Hls, Hsm, Hms. reflexivity. }
    assert (Hok : store_ok (snd state)) by apply app_run_ok.
    assert (Hst' : st' = if fst state then snd (generate_new_data w (snd state))
                         else snd state).
    { subst st'. cbn [V1.app_step snd]. apply V1_update_graphs_store. }
    assert (Hok' : store_ok st').
    { rewrite Hst'. destruct (fst state); [apply generate_new_data_ok|]; assumption. }
    split.
    + intros Ha. rewrite <- Hacc in Ha. subst out.
      rewrite (V1_update_graphs_out _ _ _ _ dp) by assumption. rewrite <- Hst'.
      eexists. split; [reflexivity|].
      assert (Hone : forall r i, 1 <= i <= 4 ->
        let fig := spec_overlay (negb (fst state)) r (V1_chart s st' dp i) in
        len (fig_xs fig) = Z.min (len (items (time_data st'))) (Z.max 0 dp) /\
        Forall (fun tr =>
                  sc_line tr = [("shape"%string, shape); ("width"%string, JInt 2);
                                ("color"%string, JStr "#3B82F6")] /\
                  sc_mode tr = (if json_eq_str markers "on"
                                then "lines+markers" else "lines")%string /\
                  sc_marker tr = (if json_eq_str markers "on"
                                  then [("size"%string, size);
                                        ("color"%string, JStr "#3B82F6")]
                                  else []))
               (fig_data fig)).
      { intros r i Hi fig. split.
        - apply (V1_chart_size s st' dp i Hok' Hi).
        - pose proof (V1_chart_traces s st' dp i) as Ht.
          rewrite Hls, Hsm, Hms in Ht. exact Ht. }
      repeat constructor; apply Hone; lia.
    + intros Ha Hpos Hne. rewrite <- Hacc in Ha. subst out.
      rewrite (V1_update_graphs_cases _ _ _ _ dp) by assumption. rewrite <- Hst'.
      rewrite window_nonempty by assumption. rewrite Ha. reflexivity.
  - intros ticks w n is_running dp shape markers size r1 r2 r3 r4 st s st' out accepted Hpts.
    destruct (V2_sync_get (JInt dp) shape markers size (JInt V2.DEFAULT_DISPLAY_POINTS_DASH))
      as (Hdp & _).
    destruct (V2_sync_get (JInt dp) shape markers size (JStr "linear")) as (_ & Hls & _).
    destruct (V2_sync_get (JInt dp) shape markers size JNull) as (_ & _ & Hsm & _).
    destruct (V2_sync_get (JInt dp) shape markers size (JInt 6)) as (_ & _ & _ & Hms).
    fold s in Hdp, Hls, Hsm, Hms.
    assert (Hacc : V2_trace_ok "linear" s = accepted).
    { unfold V2_trace_ok. rewrite Hls, Hsm, Hms. reflexivity. }
    assert (Hok : store_ok st) by (apply V2_run_ok, initial_store_ok).
    assert (Hst' : st' = if is_running then snd (generate_new_data w st) else st).
    { subst st'. apply V2_update_dashboard_graphs_store. }
    assert (Hok' : store_ok st').
    { rewrite Hst'. destruct is_running; [apply generate_new_data_ok|]; assumption. }
    split.
    + intros Ha. rewrite <- Hacc in Ha.
      destruct (V2_dashboard_outcome w n is_running (Some s) dp r1 r2 r3 r4 st Hok Hdp Hpts Ha)
        as [(f1 & f2 & f3 & f4 & Hout & H1 & H2 & H3 & H4) | Hraise];
        [left | right; exact Hraise].
      exists [f1; f2; f3; f4]. split; [exact Hout|].
      rewrite <- Hst' in H1, H2, H3, H4. cbn [V2.or_empty] in H1, H2, H3, H4.
      assert (Hone : forall title i fig, 1 <= i <= 4 ->
        fig_data fig = fig_data (V2_chart title (Some 360) "linear" s st' dp i) ->
        len (fig_xs fig) = Z.min (len (items (time_data st'))) (Z.max 0 dp) /\
        Forall (fun tr =>
                  sc_line tr = [("shape"%string, shape); ("width"%string, JInt 2)] /\
                  sc_mode tr = (if json_eq_str markers "on"
                                then "lines+markers" else "lines")%string /\
                  sc_marker tr = (if json_eq_str markers "on"
                                  then [("size"%string, size)] else []))
               (fig_data fig)).
      { intros title i fig Hi Hfig. split.
        - unfold fig_xs. rewrite Hfig.
          apply (V2_chart_size title (Some 360) "linear" s st' dp i Hok' Hi).
        - rewrite Hfig.
          pose proof (V2_chart_traces title (Some 360) "linear" s st' dp i) as Ht.
          rewrite Hls, Hsm, Hms in Ht. exact Ht. }
      repeat constructor; eapply Hone; try eassumption; lia.
    + intros Ha Hpos Hne. rewrite <- Hacc in Ha. subst out.
      rewrite (V2_update_dashboard_cases _ _ _ _ dp) by assumption.
      cbn [V2.or_empty]. rewrite <- Hst'.
      rewrite window_nonempty by assumption. rewrite Ha. reflexivity.
Qed.

Lemma settings_round_trip_witness :
  fst (V1.update_graphs (mkWorld 7 (fun _ => 0%float)) JNull true
         (Some (V1.sync_settings_to_store (JInt 50) (JStr "bogus") (JStr "off") (JInt 6)))
         None None None None initial_store) = Raise ValueError /\
  exists figs,
    fst (V1.update_graphs (mkWorld 7 (fun _ => 0%float)) JNull true
           (Some (V1.sync_settings_to_store (JInt 50) (JStr "hv") (JStr "on") (JInt 8)))
           None None None None initial_store) = Ok figs /\
    Forall (fun fig =>
              Forall (fun tr => sc_marker tr = [("size"%string, JInt 8);
                                                ("color"%string, JStr "#3B82F6")])
                     (fig_data fig))
           figs.
Proof.
  destruct settings_round_trip as [Hv1 _].
  assert (Hpts : points_ok 50) by (vm_compute; discriminate).
  split.
  - destruct (Hv1 [V1.Click JNull] (mkWorld 7 (fun _ => 0%float)) JNull 50
                (JStr "bogus") (JStr "off") (JInt 6) None None None None Hpts)
      as [_ Hbad].
    assert (Ha : valid_line_shape (JStr "bogus") &&
                 (negb (json_eq_str (JStr "off") "on") || valid_marker_size (JInt 6)) = false)
      by reflexivity.
    assert (Hpos : 0 < 50) by lia.
    apply (Hbad Ha Hpos). reflexivity.
  - destruct (Hv1 [V1.Click JNull] (mkWorld 7 (fun _ => 0%float)) JNull 50
                (JStr "hv") (JStr "on") (JInt 8) None None None None Hpts)
      as [Hgood _].
    assert (Ha : valid_line_shape (JStr "hv") &&
                 (negb (json_eq_str (JStr "on") "on") || valid_marker_size (JInt 8)) = true)
      by reflexivity.
    destruct (Hgood Ha) as (figs & Hout & Hall).
    exists figs. split; [exact Hout|].
    eapply Forall_impl; [exact Hall|].
    intros fig [_ Ht]. eapply Forall_impl; [exact Ht|].
    intros tr (_ & _ & Hm). exact Hm.
Defined.

(** ** Further properties: the overlay of the multi-page program, in general *)

Lemma V2_apply_relayout_paused (r : dict) (fig : figure) :
  V2.apply_relayout false (Some r) fig =
    match r !! "xaxis.range[0]"%string, r !! "yaxis.range[0]"%string with
    | Some x0, Some y0 =>
        match r !! "xaxis.range[1]"%string with
        | Some x1 =>
            match r !! "yaxis.range[1]"%string with
            | Some y1 => Ok (set_yaxis_range (set_xaxis_range fig x0 x1) y0 y1)
            | None => Raise (KeyError "yaxis.range[1]")
            end
        | None => Raise (KeyError "xaxis.range[1]")
        end
    | _, _ => Ok fig
    end.
Proof.
  unfold V2.apply_relayout, dict_truthy, dict_in, dict_item. cbn [negb andb].
  destruct (bool_decide (r = ∅)) eqn:He.
  - apply bool_decide_eq_true_1 in He. subst r. rewrite !lookup_empty. reflexivity.
  - cbn [negb].
    destruct (r !! "xaxis.range[0]"%string), (r !! "yaxis.range[0]"%string),
      (r !! "xaxis.range[1]"%string), (r !! "yaxis.range[1]"%string); reflexivity.
Qed.

Lemma is_Some_None_False {A} : is_Some (@None A) -> False.
Proof. intros [x H]. discriminate H. Qed.

(** X8. The overlay step of the multi-page dashboard, for every payload
    captured while paused: when the payload holds all four bounds it sets
    both ranges, exactly as the single-page program does; it raises (a
    [KeyError]) exactly when the payload holds both lower bounds and lacks an
    upper bound; in every other case it returns the figure unchanged. *)
Theorem multipage_overlay_cases (r : dict) (fig : figure) :
  let has k := is_Some (r !! k) in
  (has "xaxis.range[0]"%string -> has "xaxis.range[1]"%string ->
   has "yaxis.range[0]"%string -> has "yaxis.range[1]"%string ->
   V2.apply_relayout false (Some r) fig = V1.apply_relayout false (Some r) fig /\
   V2.apply_relayout false (Some r) fig = Ok (spec_overlay true (Some r) fig)) /\
  ((exists e, V2.apply_relayout false (Some r) fig = Raise e) <->
   has "xaxis.range[0]"%string /\ has "yaxis.range[0]"%string /\
   ~ (has "xaxis.range[1]"%string /\ has "yaxis.range[1]"%string)) /\
  (~ (has "xaxis.range[0]"%string /\ has "yaxis.range[0]"%string) ->
   V2.apply_relayout false (Some r) fig = Ok fig).
Proof.
  intros has. subst has. cbv beta.
  rewrite V1_apply_relayout_spec, V2_apply_relayout_paused.
  unfold spec_overlay, spec_overlay_axis. cbn [negb].
  destruct (r !! "xaxis.range[0]"%string) as [x0|],
           (r !! "yaxis.range[0]"%string) as [y0|],
           (r !! "xaxis.range[1]"%string) as [x1|],
           (r !! "yaxis.range[1]"%string) as [y1|];
    (split; [|split]).
  all: try (intros; exfalso; eauto using @is_Some_None_False; fail).
  all: try (intros; destruct fig; split; reflexivity).
  all: try (intros; reflexivity).
  all: try (intros H; exfalso; apply H; split; eauto; fail).
  all: split.
  all: try (intros [e H]; discriminate H).
  all: try (intros (H1 & H2 & H3); exfalso;
            solve [ apply H3; split; eauto
                  | eauto using @is_Some_None_False ]).
  all: try (intros _; repeat split; eauto;
            intros [H1 H2]; solve [eauto using @is_Some_None_False]).
  all: try (intros _; eauto).
Qed.

(** ** Further properties: navigation *)

(** X9. The navigation header of the multi-page program, for every current
    path: it holds the dashboard link and one link per sensor, in this
    order; each link's target is routed by [display_page] to the page the
    link names, never to the not-found page; and a link is marked active
    exactly when its target is the current path. *)
Theorem nav_links_route (pathname : option string) :
  Forall2 (fun pg link =>
             V2.display_page (Some (V2.link_href link)) = pg /\
             (pathname = Some (V2.link_href link) ->
              V2.link_className link = "nav-link active"%string) /\
             (pathname <> Some (V2.link_href link) ->
              V2.link_className link = "nav-link"%string))
          [V2.PageDashboard; V2.PageDetail 1; V2.PageDetail 2;
           V2.PageDetail 3; V2.PageDetail 4]
          (V2.nav_links pathname) /\
  map V2.link_label (V2.nav_links pathname) =
    ["Dashboard"; "Sensor 1"; "Sensor 2"; "Sensor 3"; "Sensor 4"]%string.
Proof.
  unfold V2.nav_links. cbn [map].
  rewrite pretty_1, pretty_2, pretty_3, pretty_4.
  cbn [V2.link_href V2.link_label V2.link_className].
  repeat case_bool_decide;
    (split;
     [ repeat (apply List.Forall2_cons;
               [ cbn [V2.link_href V2.link_className];
                 split; [vm_compute; reflexivity|];
                 split; intros ?; first [reflexivity | congruence]
               | ]);
       apply List.Forall2_nil
     | reflexivity ]).
Qed.

(** ** Further properties: the detail callback off its page *)

Lemma sensor_name_not_channel (idx : Z) (b1 b2 b3 b4 : deque float) :
  ~ (1 <= idx <= 4) ->
  assoc_item [("s1", b1); ("s2", b2); ("s3", b3); ("s4", b4)]%string
             ("s" +:+ pretty idx) = Raise (KeyError ("s" +:+ pretty idx)).
Proof.
  intros Hidx.
  assert (Hne : forall i : Z, 1 <= i <= 4 ->
            ("s" +:+ pretty i)%string <> ("s" +:+ pretty idx)%string).
  { intros i Hi Heq. injection Heq as Heq.
    change (pretty i = pretty idx) in Heq.
    apply (inj (pretty : Z -> string)) in Heq. lia. }
  pose proof (Hne 1 ltac:(lia)) as H1. pose proof (Hne 2 ltac:(lia)) as H2.
  pose proof (Hne 3 ltac:(lia)) as H3. pose proof (Hne 4 ltac:(lia)) as H4.
  rewrite pretty_1 in H1. rewrite pretty_2 in H2.
  rewrite pretty_3 in H3. rewrite pretty_4 in H4.
  change ("s" +:+ "1")%string with "s1"%string in H1.
  change ("s" +:+ "2")%string with "s2"%string in H2.
  change ("s" +:+ "3")%string with "s3"%string in H3.
  change ("s" +:+ "4")%string with "s4"%string in H4.
  rewrite !assoc_item_miss by assumption. reflexivity.
Qed.

(** X11. When the last segment of the path is an integer outside 1..4
    (a path such as [/sensor-7], which [display_page] answers with the
    not-found page), the detail callback, run on buffers any tick sequence
    has produced, raises [KeyError('s<index>')] and leaves the buffers as
    they are: on the live path whatever the settings, on the redraw path
    with an integer [points] setting in the range of [islice]. *)
Theorem detail_unknown_sensor
    (ticks : list V2.tick) (trig : option string) (n : json) (s : dict) (p : string)
    (is_running : bool) (idx : Z) :
  py_int (split_last p) = Ok idx ->
  ~ (1 <= idx <= 4) ->
  let st := V2.run ticks initial_store in
  let live := bool_decide (trig = Some V2.ID_INTERVAL) && is_running
              && nonempty (items (time_data st)) in
  let out := V2.update_detail_graph_live trig n (Some s) (Some p) is_running st in
  (live = true -> out = (Raise (KeyError ("s" +:+ pretty idx)), st)) /\
  (live = false ->
   forall dp,
     dict_get s "points" (JInt V2.DEFAULT_DISPLAY_POINTS_DETAIL) = JInt dp ->
     points_ok dp ->
     out = (Raise (KeyError ("s" +:+ pretty idx)), st)).
Proof.
  intros Hp Hidx st live out.
  assert (Hok : store_ok st) by (apply V2_run_ok, initial_store_ok).
  destruct (store_ok_shape _ Hok) as (b1 & b2 & b3 & b4 & Hsd & _).
  assert (Hout : out =
    V2.update_detail_graph_live trig n (Some s) (Some p) is_running st) by reflexivity.
  unfold V2.update_detail_graph_live, V2.sensor_name_of in Hout.
  rewrite Hp in Hout. unfold bind at 1 in Hout. cbn [lift] in Hout.
  unfold bind at 1 in Hout. cbn [get] in Hout.
  fold live in Hout. cbn [V2.or_empty] in Hout. rewrite Hsd in Hout.
  rewrite sensor_name_not_channel in Hout by assumption.
  split.
  - intros Hlive. rewrite Hout, Hlive.
    assert (Hne : nonempty (items (time_data st)) = true).
    { subst live. apply andb_prop in Hlive as [_ H]. exact H. }
    destruct (nonempty_last _ Hne) as [t Ht].
    unfold bind, lift, deque_last. rewrite Ht. reflexivity.
  - intros Hlive dp Hdp Hpts. rewrite Hout, Hlive, Hdp.
    destruct (store_ok_index _ dp Hok Hpts) as [Hlen Hstart].
    unfold bind, lift. cbn [int_sub max0 islice_from].
    rewrite islice_between by lia. reflexivity.
Qed.

Lemma detail_unknown_sensor_witness :
  V2.update_detail_graph_live None JNull (Some ∅) (Some "/sensor-7"%string) false
    (V2.run one_sample initial_store) =
    (Raise (KeyError "s7"), V2.run one_sample initial_store) /\
  V2.update_detail_graph_live (Some V2.ID_INTERVAL) JNull (Some ∅)
    (Some "/sensor-7"%string) true (V2.run one_sample initial_store) =
    (Raise (KeyError "s7"), V2.run one_sample initial_store).
Proof.
  assert (Hp : py_int (split_last "/sensor-7") = Ok 7) by reflexivity.
  assert (Hidx : ~ (1 <= 7 <= 4)) by lia.
  assert (Hdp : dict_get ∅ "points" (JInt V2.DEFAULT_DISPLAY_POINTS_DETAIL) = JInt 500)
    by reflexivity.
  assert (Hpts : points_ok 500) by (vm_compute; discriminate).
  split.
  - destruct (detail_unknown_sensor one_sample None JNull ∅ "/sensor-7" false 7
                Hp Hidx) as [_ Hredraw].
    assert (Hl : bool_decide (@None string = Some V2.ID_INTERVAL) && false
                 && nonempty (items (time_data (V2.run one_sample initial_store)))
                 = false) by reflexivity.
    exact (Hredraw Hl 500 Hdp Hpts).
  - destruct (detail_unknown_sensor one_sample (Some V2.ID_INTERVAL) JNull ∅
                "/sensor-7" true 7 Hp Hidx) as [Hlive _].
    assert (Hl : bool_decide (Some V2.ID_INTERVAL = Some V2.ID_INTERVAL) && true
                 && nonempty (items (time_data (V2.run one_sample initial_store)))
                 = true) by reflexivity.
    exact (Hlive Hl).
Defined.

(** ** Further properties: the two paths of the detail page *)

(** X12. On a detail page, with a sample buffered, [points] a positive
    integer and trace settings Plotly accepts, the point the live path
    appends is the last point a full redraw plots: the two update paths
    never disagree on the newest sample. *)
Theorem detail_live_matches_redraw
    (ticks : list V2.tick) (n : json) (s : dict) (pathname : option string)
    (i dp : Z) :
  V2.display_page pathname = V2.PageDetail i ->
  dict_get s "points" (JInt V2.DEFAULT_DISPLAY_POINTS_DETAIL) = JInt dp ->
  0 < dp ->
  V2_trace_ok "spline" s = true ->
  let st := V2.run ticks initial_store in
  nonempty (items (time_data st)) = true ->
  exists t v fig,
    fst (V2.update_detail_graph_live (Some V2.ID_INTERVAL) n (Some s) pathname true st) =
      Ok (no_update, update (V2.mkExtend [[t]] [[v]] [0] (JInt dp))) /\
    fst (V2.update_detail_graph_live (Some V2.ID_DETAIL_SETTINGS_STORE) n (Some s)
           pathname true st) = Ok (update fig, no_update) /\
    last (fig_xs fig) = Some t /\
    last (fig_ys fig) = Some v.
Proof.
  intros Hpage Hdp Hpos Hstyle st Hne.
  assert (Hok : store_ok st) by (apply V2_run_ok, initial_store_ok).
  assert (Hpts : points_ok dp).
  { unfold points_ok, MAX_BUFFER_SIZE. change sys_maxsize with 9223372036854775807. lia. }
  destruct (display_page_detail _ _ Hpage) as (p & _ & _ & Hi).
  destruct (V2_detail_result (Some V2.ID_INTERVAL) n s pathname true i st
              Hok Hpage) as [Hlive _].
  destruct (V2_detail_result (Some V2.ID_DETAIL_SETTINGS_STORE) n s pathname true i st
              Hok Hpage) as [_ Hredraw].
  destruct Hlive as (t & v & Ht & Hv & Hout).
  { rewrite Hne. reflexivity. }
  exists t, v, (V2_chart "" None "spline" s st dp i).
  split; [rewrite Hout, Hdp; reflexivity|]. split.
  - rewrite (Hredraw eq_refl dp Hdp Hpts), Hstyle, andb_false_r. reflexivity.
  - destruct (V2_chart_size "" None "spline" s st dp i Hok Hi) as (_ & _ & Hx & Hy).
    rewrite (Hx Hpos), (Hy Hpos). auto.
Qed.

Lemma detail_live_matches_redraw_witness :
  exists t v fig,
    fst (V2.update_detail_graph_live (Some V2.ID_INTERVAL) JNull (Some ∅)
           (Some "/sensor-3"%string) true (V2.run one_sample initial_store)) =
      Ok (no_update, update (V2.mkExtend [[t]] [[v]] [0] (JInt 500))) /\
    fst (V2.update_detail_graph_live (Some V2.ID_DETAIL_SETTINGS_STORE) JNull (Some ∅)
           (Some "/sensor-3"%string) true (V2.run one_sample initial_store)) =
      Ok (update fig, no_update) /\
    last (fig_xs fig) = Some t /\
    last (fig_ys fig) = Some v.
Proof.
  assert (Hpage : V2.display_page (Some "/sensor-3"%string) = V2.PageDetail 3)
    by reflexivity.
  assert (Hdp : dict_get ∅ "points" (JInt V2.DEFAULT_DISPLAY_POINTS_DETAIL) = JInt 500)
    by reflexivity.
  assert (Hpos : 0 < 500) by lia.
  assert (Hstyle : V2_trace_ok "spline" ∅ = true) by reflexivity.
  assert (Hne : nonempty (items (time_data (V2.run one_sample initial_store))) = true)
    by reflexivity.
  exact (detail_live_matches_redraw one_sample JNull ∅ (Some "/sensor-3"%string) 3 500
           Hpage Hdp Hpos Hstyle Hne).
Defined.

(** ** Further properties: settings the sliders cannot produce *)

(** X13. A display-point count that is not a number (null, a string, a
    list, an object) makes the dashboard update of either program raise
    [TypeError]; a running tick has nevertheless appended its sample before
    the charts were attempted, and a paused one has left the buffers as they
    were. *)
Theorem non_numeric_display_points
    (w : world) (n : json) (is_running : bool) (s : dict) (v : json)
    (r1 r2 r3 r4 : option dict) (st : store) :
  (forall z, v <> JInt z) -> (forall b, v <> JBool b) -> (forall f, v <> JFloat f) ->
  (dict_get s "display_points" (JInt V1.DEFAULT_DISPLAY_POINTS) = v ->
   V1.update_graphs w n is_running (Some s) r1 r2 r3 r4 st =
     (Raise TypeError, if is_running then snd (generate_new_data w st) else st)) /\
  (dict_get s "points" (JInt V2.DEFAULT_DISPLAY_POINTS_DASH) = v ->
   V2.update_dashboard_graphs w n is_running (Some s) r1 r2 r3 r4 st =
     (Raise TypeError, if is_running then snd (generate_new_data w st) else st)).
Proof.
  intros Hint Hbool Hfloat.
  assert (Hsub : forall k, int_sub k v = Raise TypeError).
  { intros k. destruct v; try reflexivity.
    - exfalso. eapply Hbool; reflexivity.
    - exfalso. eapply Hint; reflexivity.
    - exfalso. eapply Hfloat; reflexivity. }
  split; intros Hv.
  - unfold V1.update_graphs, bind, lift, get, ret, generate_new_data.
    destruct is_running; cbv beta iota zeta; rewrite Hv, Hsub; reflexivity.
  - unfold V2.update_dashboard_graphs, bind, lift, get, ret, generate_new_data.
    cbn [V2.or_empty].
    destruct is_running; cbv beta iota zeta; rewrite Hv, Hsub; reflexivity.
Qed.

Lemma non_numeric_display_points_witness :
  V1.update_graphs (mkWorld 5 (fun _ => 0%float)) JNull true
    (Some (V1.sync_settings_to_store JNull (JStr "linear") (JStr "off") (JInt 6)))
    None None None None initial_store =
    (Raise TypeError, snd (generate_new_data (mkWorld 5 (fun _ => 0%float)) initial_store)).
Proof.
  apply (non_numeric_display_points (mkWorld 5 (fun _ => 0%float)) JNull true
           (V1.sync_settings_to_store JNull (JStr "linear") (JStr "off") (JInt 6))
           JNull None None None None initial_store);
    [discriminate | discriminate | discriminate | reflexivity].
Defined.

(** ** Further properties: integers in paths *)

Lemma pretty_N_char_digit (d : N) :
  (d < 10)%N ->
  digit_of (pretty_N_char d) = Some (Z.of_N d) /\
  Ascii.eqb (pretty_N_char d) "_" = false /\
  Ascii.eqb (pretty_N_char d) "-" = false /\
  Ascii.eqb (pretty_N_char d) "+" = false /\
  is_space (pretty_N_char d) = false.
Proof.
  intros Hd.
  assert (d = 0 \/ d = 1 \/ d = 2 \/ d = 3 \/ d = 4 \/ d = 5 \/ d = 6
          \/ d = 7 \/ d = 8 \/ d = 9)%N as Hcases by lia.
  repeat (destruct Hcases as [-> | Hcases]; [repeat split; reflexivity|]).
  subst d. repeat split; reflexivity.
Qed.

Lemma pretty_N_go_parse (x : N) :
  (0 < x)%N ->
  forall s b,
    parse_digits 0 b (list_ascii_of_string (pretty_N_go x s)) =
      parse_digits (Z.of_N x) true (list_ascii_of_string s).
Proof.
  induction (N.lt_wf_0 x) as [x _ IH]. intros Hx s b.
  assert (H10 : (10 <> 0)%N) by discriminate.
  rewrite pretty_N_go_step by assumption.
  destruct (pretty_N_char_digit (x `mod` 10)%N) as (Hd & Hu & _);
    [apply N.mod_lt; lia|].
  destruct (decide (x `div` 10 = 0)%N) as [Hz|Hnz].
  - rewrite Hz, pretty_N_go_0. cbn [list_ascii_of_string parse_digits].
    rewrite Hu, Hd. f_equal.
    pose proof (N.div_mod x 10 H10). lia.
  - rewrite IH; [|apply N.div_lt; lia|apply N.neq_0_lt_0; assumption].
    cbn [list_ascii_of_string parse_digits].
    rewrite Hu, Hd. f_equal.
    pose proof (N.div_mod x 10 H10). lia.
Qed.

Lemma pretty_N_go_digits (x : N) :
  forall s, all_digits (list_ascii_of_string s) ->
            all_digits (list_ascii_of_string (pretty_N_go x s)).
Proof.
  induction (N.lt_wf_0 x) as [x _ IH]. intros s Hs.
  destruct (decide (x = 0)%N) as [->|Hx]; [rewrite pretty_N_go_0; exact Hs|].
  rewrite pretty_N_go_step by lia.
  apply IH; [apply N.div_lt; lia|].
  cbn [list_ascii_of_string]. constructor; [|exact Hs].
  destruct (pretty_N_char_digit (x `mod` 10)%N) as (Hd & _ & Hm & Hp & Hsp);
    [apply N.mod_lt; lia|].
  eauto.
Qed.

Lemma pretty_N_digits (x : N) : all_digits (list_ascii_of_string (pretty x)).
Proof.
  unfold pretty, pretty_N. destruct (decide (x = 0)%N).
  - repeat constructor; eauto.
  - apply pretty_N_go_digits. constructor.
Qed.

Lemma strip_left_head (c : ascii) (l : list ascii) :
  is_space c = false -> strip_left (c :: l) = c :: l.
Proof. intros H. cbn [strip_left]. rewrite H. reflexivity. Qed.

Lemma strip_no_space_ends (c1 c2 : ascii) (l : list ascii) :
  is_space c1 = false -> is_space c2 = false ->
  strip (c1 :: l ++ [c2]) = c1 :: l ++ [c2].
Proof.
  intros H1 H2. unfold strip.
  rewrite strip_left_head by assumption.
  change (c1 :: l ++ [c2]) with ((c1 :: l) ++ [c2]).
  rewrite rev_app_distr. cbn [rev app].
  rewrite strip_left_head by assumption.
  change (c2 :: rev l ++ [c1]) with ([c2] ++ rev (c1 :: l)).
  rewrite rev_app_distr, rev_involutive. reflexivity.
Qed.

Lemma strip_single (c : ascii) : is_space c = false -> strip [c] = [c].
Proof.
  intros H. unfold strip. rewrite strip_left_head by assumption.
  cbn [rev app]. rewrite strip_left_head by assumption. reflexivity.
Qed.

Lemma all_digits_last (l : list ascii) :
  all_digits l -> l <> [] ->
  exists l' c, l = l' ++ [c] /\ is_space c = false.
Proof.
  intros Hl Hne. destruct l as [|c l] using rev_ind; [congruence|].
  exists l, c. split; [reflexivity|].
  apply Forall_app in Hl as [_ Hc]. inversion Hc as [|? ? (_ & _ & _ & Hs) _]. exact Hs.
Qed.

(** Stripping leaves a string alone when its first and its last characters
    are not whitespace. *)
Lemma strip_ends (c : ascii) (l : list ascii) :
  is_space c = false ->
  (l = [] \/ exists l' c', l = l' ++ [c'] /\ is_space c' = false) ->
  strip (c :: l) = c :: l.
Proof.
  intros Hc [-> | (l' & c' & -> & Hc')].
  - apply strip_single, Hc.
  - apply strip_no_space_ends; assumption.
Qed.

Lemma strip_digits (l : list ascii) : all_digits l -> strip l = l.
Proof.
  intros Hl. destruct l as [|c l]; [reflexivity|].
  inversion Hl as [|? ? (_ & _ & _ & Hc) Hr]; subst.
  apply strip_ends; [exact Hc|].
  destruct l as [|c' l]; [left; reflexivity|right].
  apply all_digits_last; [exact Hr | discriminate].
Qed.

Lemma strip_minus_digits (l : list ascii) :
  all_digits l -> strip ("-"%char :: l) = "-"%char :: l.
Proof.
  intros Hl. apply strip_ends; [reflexivity|].
  destruct l as [|c' l]; [left; reflexivity|right].
  apply all_digits_last; [exact Hl | discriminate].
Qed.

Lemma count_digits_le (l : list ascii) : count_digits l <= len l.
Proof.
  unfold count_digits, len. pose proof (List.filter_length_le
    (fun c => bool_decide (is_Some (digit_of c))) l). lia.
Qed.

Lemma count_digits_minus (l : list ascii) :
  count_digits ("-"%char :: l) = count_digits l.
Proof. reflexivity. Qed.

(** A number below [10^k] is written with at most [k] digits. *)
Lemma pretty_N_go_length (k : N) :
  forall (x : N) (s : string),
    (x < 10 ^ k)%N ->
    len (list_ascii_of_string (pretty_N_go x s)) <=
      len (list_ascii_of_string s) + Z.of_N k.
Proof.
  induction k as [|k IH] using N.peano_ind; intros x s Hx.
  - assert (x = 0%N) as -> by (rewrite N.pow_0_r in Hx; lia).
    rewrite pretty_N_go_0. lia.
  - destruct (decide (x = 0)%N) as [->|Hnz]; [rewrite pretty_N_go_0; lia|].
    rewrite pretty_N_go_step by lia.
    rewrite N.pow_succ_r' in Hx.
    assert (Hdiv : (x `div` 10 < 10 ^ k)%N)
      by (apply N.Div0.div_lt_upper_bound; exact Hx).
    specialize (IH _ (String (pretty_N_char (x `mod` 10)) s) Hdiv).
    cbn [list_ascii_of_string] in IH. unfold len in *. cbn [length] in IH. lia.
Qed.

Lemma pretty_N_count_digits (x : N) :
  (x < 10 ^ 4300)%N ->
  count_digits (list_ascii_of_string (pretty x)) <= MAX_STR_DIGITS.
Proof.
  intros Hx. etransitivity; [apply count_digits_le|].
  unfold pretty, pretty_N. destruct (decide (x = 0)%N).
  - unfold MAX_STR_DIGITS, len. simpl. lia.
  - pose proof (pretty_N_go_length 4300 x "" Hx) as H.
    unfold MAX_STR_DIGITS, len in *. cbn [list_ascii_of_string length] in H. lia.
Qed.

Lemma pos_below_limit (p : positive) :
  Z.pos p < 10 ^ MAX_STR_DIGITS -> (N.pos p < 10 ^ 4300)%N.
Proof.
  intros H. apply N2Z.inj_lt. rewrite N2Z.inj_pow. exact H.
Qed.

Lemma pretty_N_go_grows (x : N) :
  forall s, len (list_ascii_of_string s) <= len (list_ascii_of_string (pretty_N_go x s)).
Proof.
  induction (N.lt_wf_0 x) as [x _ IH]. intros s.
  destruct (decide (x = 0)%N) as [->|Hx]; [rewrite pretty_N_go_0; lia|].
  rewrite pretty_N_go_step by lia.
  etransitivity; [|apply IH; apply N.div_lt; lia].
  cbn [list_ascii_of_string]. unfold len. cbn [length]. lia.
Qed.

(** A number from [10^k] on is written with more than [k] digits. *)
Lemma pretty_N_go_length_ge (k : N) :
  forall (x : N) (s : string),
    (10 ^ k <= x)%N ->
    len (list_ascii_of_string s) + Z.of_N k + 1 <=
      len (list_ascii_of_string (pretty_N_go x s)).
Proof.
  induction k as [|k IH] using N.peano_ind; intros x s Hx.
  - rewrite N.pow_0_r in Hx. rewrite pretty_N_go_step by lia.
    etransitivity; [|apply pretty_N_go_grows].
    cbn [list_ascii_of_string]. unfold len. cbn [length]. lia.
  - rewrite N.pow_succ_r' in Hx.
    assert (Hpos : (0 < 10 ^ k)%N) by (apply N.neq_0_lt_0, N.pow_nonzero; discriminate).
    rewrite pretty_N_go_step by lia.
    assert (Hdiv : (10 ^ k <= x `div` 10)%N)
      by (apply N.div_le_lower_bound; [discriminate | exact Hx]).
    specialize (IH _ (String (pretty_N_char (x `mod` 10)) s) Hdiv).
    cbn [list_ascii_of_string] in IH. unfold len in *. cbn [length] in IH. lia.
Qed.

Lemma count_digits_all (l : list ascii) : all_digits l -> count_digits l = len l.
Proof.
  intros Hl. unfold count_digits. f_equal.
  induction Hl as [|c l ([d Hd] & _) _ IH]; [reflexivity|].
  cbn [List.filter]. rewrite Hd. cbn. f_equal. exact IH.
Qed.

(** [int] refuses the decimal text of an integer of more than
    [MAX_STR_DIGITS] digits. *)
Lemma py_int_pretty_long (z : Z) :
  10 ^ MAX_STR_DIGITS <= z -> py_int (pretty z) = Raise ValueError.
Proof.
  intros Hz.
  assert (Hpos : 0 < 10 ^ MAX_STR_DIGITS) by (apply Z.pow_pos_nonneg; [lia | discriminate]).
  destruct z as [|p|p]; try lia.
  change (pretty (Z.pos p)) with (pretty (N.pos p)).
  pose proof (pretty_N_digits (N.pos p)) as Hd.
  assert (Hge : (10 ^ 4300 <= N.pos p)%N).
  { apply N2Z.inj_le. rewrite N2Z.inj_pow. exact Hz. }
  assert (Hcnt : MAX_STR_DIGITS < count_digits (list_ascii_of_string (pretty (N.pos p)))).
  { rewrite count_digits_all by exact Hd.
    unfold pretty, pretty_N. rewrite decide_False by discriminate.
    pose proof (pretty_N_go_length_ge 4300 (N.pos p) "" Hge) as H.
    unfold MAX_STR_DIGITS, len in *. cbn [list_ascii_of_string length] in H. lia. }
  unfold py_int. rewrite strip_digits by exact Hd.
  destruct (Z.ltb_spec MAX_STR_DIGITS
              (count_digits (list_ascii_of_string (pretty (N.pos p))))); [|lia].
  destruct (list_ascii_of_string (pretty (N.pos p))) as [|c r]; [reflexivity|].
  destruct (Ascii.eqb c "-"); [destruct (Z.opp <$> parse_digits 0 false r); reflexivity|].
  destruct (Ascii.eqb c "+"); [destruct (parse_digits 0 false r); reflexivity|].
  destruct (parse_digits 0 false (c :: r)); reflexivity.
Qed.

(** [int(str(z)) == z] for an integer of at most [MAX_STR_DIGITS] digits: the
    decimal text of the integer parses back to it. *)
Lemma py_int_pretty (z : Z) :
  - 10 ^ MAX_STR_DIGITS < z < 10 ^ MAX_STR_DIGITS -> py_int (pretty z) = Ok z.
Proof.
  intros Hz. unfold py_int. destruct z as [|p|p]; [reflexivity| |].
  - change (pretty (Z.pos p)) with (pretty (N.pos p)).
    pose proof (pretty_N_digits (N.pos p)) as Hd.
    pose proof (pretty_N_count_digits (N.pos p) (pos_below_limit p (proj2 Hz))) as Hcnt.
    rewrite strip_digits by exact Hd.
    assert (Hparse : parse_digits 0 false (list_ascii_of_string (pretty (N.pos p))) =
                     Some (Z.pos p)).
    { unfold pretty, pretty_N. rewrite decide_False by discriminate.
      rewrite pretty_N_go_parse by reflexivity. reflexivity. }
    destruct (list_ascii_of_string (pretty (N.pos p))) as [|c r] eqn:El;
      [discriminate Hparse|].
    inversion Hd as [|? ? (_ & Hm & Hp & _) _]; subst.
    rewrite Hm, Hp, Hparse.
    destruct (Z.ltb_spec MAX_STR_DIGITS (count_digits (c :: r))); [lia | reflexivity].
  - change (pretty (Z.neg p)) with (String "-" (pretty (N.pos p))).
    cbn [list_ascii_of_string].
    pose proof (pretty_N_digits (N.pos p)) as Hd.
    assert (Hlt : Z.pos p < 10 ^ MAX_STR_DIGITS).
    { destruct Hz as [Hlo _]. change (Z.neg p) with (- Z.pos p) in Hlo. lia. }
    pose proof (pretty_N_count_digits (N.pos p) (pos_below_limit p Hlt)) as Hcnt.
    rewrite strip_minus_digits by exact Hd.
    assert (Hparse : parse_digits 0 false (list_ascii_of_string (pretty (N.pos p))) =
                     Some (Z.pos p)).
    { unfold pretty, pretty_N. rewrite decide_False by discriminate.
      rewrite pretty_N_go_parse by reflexivity. reflexivity. }
    change (Ascii.eqb "-" "-") with true. cbv iota.
    rewrite Hparse, count_digits_minus.
    destruct (Z.ltb_spec MAX_STR_DIGITS
                (count_digits (list_ascii_of_string (pretty (N.pos p)))));
      [lia | reflexivity].
Qed.

Lemma last_segment_dash_free (l : list ascii) : forall acc,
  Forall (fun c => Ascii.eqb c "-" = false) l ->
  last_segment acc l = rev acc ++ l.
Proof.
  induction l as [|c l IH]; intros acc Hl; cbn [last_segment].
  - rewrite app_nil_r. reflexivity.
  - inversion Hl as [|? ? Hc Hr]; subst. rewrite Hc, IH by assumption.
    cbn [rev]. rewrite <- app_assoc. reflexivity.
Qed.

Lemma last_segment_after_dash (l1 l2 : list ascii) : forall acc,
  last_segment acc (l1 ++ "-"%char :: l2) = last_segment [] l2.
Proof.
  induction l1 as [|c l1 IH]; intros acc; cbn [last_segment app].
  - reflexivity.
  - destruct (Ascii.eqb c "-"); apply IH.
Qed.

Lemma all_digits_dash_free (l : list ascii) :
  all_digits l -> Forall (fun c => Ascii.eqb c "-" = false) l.
Proof.
  intros H. eapply Forall_impl; [exact H|]. intros c (_ & Hm & _). exact Hm.
Qed.

Lemma pretty_nonneg_digits (z : Z) :
  0 <= z -> all_digits (list_ascii_of_string (pretty z)).
Proof.
  intros Hz. destruct z as [|p|p]; [|apply (pretty_N_digits (N.pos p))|lia].
  repeat constructor; eauto.
Qed.

Lemma split_last_sensor_path (z : Z) :
  0 <= z -> split_last ("/sensor-" +:+ pretty z) = pretty z.
Proof.
  intros Hz. unfold split_last.
  change ("/sensor-" +:+ pretty z)%string
    with (String "/" (String "s" (String "e" (String "n" (String "s" (String "o"
           (String "r" (String "-" (pretty z))))))))).
  cbn [list_ascii_of_string].
  assert (Hseg : last_segment []
            ("/" :: "s" :: "e" :: "n" :: "s" :: "o" :: "r" :: "-"
               :: list_ascii_of_string (pretty z))%char =
          list_ascii_of_string (pretty z)).
  { etransitivity;
      [apply (last_segment_after_dash ["/"; "s"; "e"; "n"; "s"; "o"; "r"]%char)|].
    rewrite last_segment_dash_free
      by (apply all_digits_dash_free, pretty_nonneg_digits, Hz).
    reflexivity. }
  rewrite Hseg. apply string_of_list_ascii_of_string.
Qed.

(** X14. Encoding a sensor index into a path and reading it back: for every
    integer [z >= 0] of at most [MAX_STR_DIGITS] digits, the path
    ['/sensor-<z>'] is routed to the detail page of sensor [z] when
    [1 <= z <= 4] and to the not-found page otherwise, and the detail
    callback reads from it the channel name ['s<z>']; for a longer [z],
    [int] refuses the text, the path is routed to the not-found page and the
    detail callback reads no channel name. *)
Theorem sensor_path_round_trip (z : Z) :
  0 <= z ->
  let p := ("/sensor-" +:+ pretty z)%string in
  (z < 10 ^ MAX_STR_DIGITS ->
   V2.display_page (Some p) =
     (if (1 <=? z) && (z <=? 4) then V2.PageDetail z else V2.PageNotFound) /\
   V2.sensor_name_of (Some p) = Ok (Some ("s" +:+ pretty z)%string)) /\
  (10 ^ MAX_STR_DIGITS <= z ->
   V2.display_page (Some p) = V2.PageNotFound /\
   V2.sensor_name_of (Some p) = Ok None).
Proof.
  intros Hz p.
  assert (Hpos : 0 < 10 ^ MAX_STR_DIGITS) by (apply Z.pow_pos_nonneg; [lia | discriminate]).
  assert (Hpre : negb (bool_decide (p = ""%string)) && String.prefix "/sensor-" p = true).
  { subst p.
    change ("/sensor-" +:+ pretty z)%string
      with (String "/" (String "s" (String "e" (String "n" (String "s" (String "o"
             (String "r" (String "-" (pretty z))))))))).
    rewrite bool_decide_eq_false_2 by discriminate.
    generalize (pretty z). intros d. destruct d; reflexivity. }
  assert (Hroot : bool_decide (Some p = Some "/"%string) = false).
  { apply bool_decide_eq_false_2. subst p. intros H. discriminate H. }
  split; intros Hlim.
  - assert (Hint : py_int (split_last p) = Ok z).
    { subst p. rewrite split_last_sensor_path by assumption. apply py_int_pretty. lia. }
    split.
    + unfold V2.display_page. rewrite Hint, Hpre.
      destruct ((1 <=? z) && (z <=? 4)); [reflexivity|].
      rewrite Hroot. reflexivity.
    + unfold V2.sensor_name_of. rewrite Hint. reflexivity.
  - assert (Hint : py_int (split_last p) = Raise ValueError).
    { subst p. rewrite split_last_sensor_path by assumption.
      apply py_int_pretty_long. assumption. }
    split.
    + unfold V2.display_page. rewrite Hint, Hpre, Hroot. reflexivity.
    + unfold V2.sensor_name_of. rewrite Hint. reflexivity.
Qed.

Lemma sensor_path_round_trip_witness :
  V2.display_page (Some ("/sensor-" +:+ pretty 12)%string) = V2.PageNotFound /\
  V2.sensor_name_of (Some ("/sensor-" +:+ pretty 12)%string) = Ok (Some ("s" +:+ pretty 12)%string).
Proof.
  assert (H : 0 <= 12) by lia.
  assert (Hlim : 12 < 10 ^ MAX_STR_DIGITS) by (vm_compute; reflexivity).
  exact (proj1 (sensor_path_round_trip 12 H) Hlim).
Defined.

(** ** Further properties: paths the detail callback ignores *)

Lemma parse_digits_bad_end (l : list ascii) (c : ascii) :
  digit_of c = None -> forall acc b, parse_digits acc b (l ++ [c]) = None.
Proof.
  intros Hc. induction l as [|a l IH]; intros acc b; cbn [app parse_digits].
  - rewrite Hc. destruct (Ascii.eqb c "_"), b; reflexivity.
  - destruct (Ascii.eqb a "_"); [destruct b; [apply IH | reflexivity]|].
    destruct (digit_of a); [apply IH | reflexivity].
Qed.

Lemma strip_left_keeps_last (l : list ascii) (c : ascii) :
  is_space c = false -> exists l2, strip_left (l ++ [c]) = l2 ++ [c].
Proof.
  intros Hc. induction l as [|a l IH]; cbn [app strip_left].
  - rewrite Hc. exists []. reflexivity.
  - destruct (is_space a); [exact IH | exists (a :: l); reflexivity].
Qed.

Lemma strip_keeps_last (l : list ascii) (c : ascii) :
  is_space c = false -> exists l2, strip (l ++ [c]) = l2 ++ [c].
Proof.
  intros Hc. unfold strip.
  destruct (strip_left_keeps_last l c Hc) as [l2 ->].
  rewrite rev_app_distr. cbn [rev app].
  rewrite strip_left_head by assumption.
  exists l2. cbn [rev]. rewrite rev_involutive. reflexivity.
Qed.

Lemma py_int_bad_end (s : string) (l : list ascii) (c : ascii) :
  list_ascii_of_string s = l ++ [c] ->
  digit_of c = None -> is_space c = false ->
  py_int s = Raise ValueError.
Proof.
  intros Hs Hd Hsp. unfold py_int. rewrite Hs.
  destruct (strip_keeps_last l c Hsp) as [l2 ->].
  destruct l2 as [|a r]; cbn [app].
  - pose proof (parse_digits_bad_end [] c Hd 0 false) as Hp. cbn [app] in Hp.
    destruct (Ascii.eqb c "-"); [reflexivity|].
    destruct (Ascii.eqb c "+"); [reflexivity|].
    rewrite Hp. reflexivity.
  - pose proof (parse_digits_bad_end r c Hd 0 false) as Hr.
    pose proof (parse_digits_bad_end (a :: r) c Hd 0 false) as Har.
    cbn [app] in Har.
    destruct (Ascii.eqb a "-"); [rewrite Hr; reflexivity|].
    destruct (Ascii.eqb a "+"); [rewrite Hr; reflexivity|].
    rewrite Har. reflexivity.
Qed.

Lemma last_segment_ends_dash (l : list ascii) : forall acc,
  last_segment acc (l ++ ["-"%char]) = [].
Proof.
  intros acc. rewrite last_segment_after_dash. reflexivity.
Qed.

Lemma last_segment_keeps_last (l : list ascii) (c : ascii) :
  Ascii.eqb c "-" = false ->
  forall acc, exists l3, last_segment acc (l ++ [c]) = l3 ++ [c].
Proof.
  intros Hc. induction l as [|a l IH]; intros acc; cbn [app last_segment].
  - rewrite Hc. exists (rev acc). reflexivity.
  - destruct (Ascii.eqb a "-"); apply IH.
Qed.

Lemma unparseable_path (p : string) (l : list ascii) (c : ascii) :
  list_ascii_of_string p = l ++ [c] ->
  digit_of c = None -> is_space c = false ->
  py_int (split_last p) = Raise ValueError.
Proof.
  intros Hp Hd Hsp. unfold split_last. rewrite Hp.
  destruct (Ascii.eqb c "-") eqn:Hdash.
  - apply Ascii.eqb_eq in Hdash. subst c.
    rewrite last_segment_ends_dash. reflexivity.
  - destruct (last_segment_keeps_last l c Hdash []) as [l3 Hl3].
    rewrite Hl3. eapply py_int_bad_end; [|exact Hd|exact Hsp].
    apply list_ascii_of_string_of_list_ascii.
Qed.

(** X10. A path that ends in an ASCII character other than a digit or
    whitespace (['/'], ['/sensor-'], ['/sensor-abc'], ...) is ignored by the
    detail callback: it returns [no_update] for both outputs, whatever the
    trigger, the settings, the capture state and the buffers, which it leaves
    as they are. *)
Theorem detail_ignores_non_numeric_path
    (trig : option string) (n : json) (settings : option dict) (p : string)
    (l : list ascii) (c : ascii) (is_running : bool) (st : store) :
  list_ascii_of_string p = l ++ [c] ->
  (nat_of_ascii c < 128)%nat ->
  digit_of c = None ->
  is_space c = false ->
  V2.update_detail_graph_live trig n settings (Some p) is_running st =
    (Ok (no_update, no_update), st).
Proof.
  intros Hp _ Hd Hsp. unfold V2.update_detail_graph_live, V2.sensor_name_of.
  rewrite (unparseable_path p l c Hp Hd Hsp). reflexivity.
Qed.

Lemma detail_ignores_non_numeric_path_witness :
  V2.update_detail_graph_live (Some V2.ID_INTERVAL) (JInt 3) None
    (Some "/sensor-abc"%string) true initial_store =
    (Ok (no_update, no_update), initial_store).
Proof.
  apply (detail_ignores_non_numeric_path (Some V2.ID_INTERVAL) (JInt 3) None
           "/sensor-abc" (list_ascii_of_string "/sensor-ab") "c"%char true
           initial_store);
    [reflexivity | vm_compute; lia | reflexivity | reflexivity].
Defined.

(** ** Further properties: the settings of the detail page *)

Lemma V2_sync_detail_get (points shape markers size d : json) :
  let s := V2.sync_detail_settings_to_store points shape markers size in
  dict_get s "points" d = points /\
  dict_get s "shape" d = shape /\
  dict_get s "markers" d = markers /\
  dict_get s "size" d = size.
Proof.
  unfold V2.sync_detail_settings_to_store, dict_get.
  repeat split; simplify_map_eq; reflexivity.
Qed.

(** X15. On a detail page, the settings written by
    [sync_detail_settings_to_store] from an integer [points], a line shape,
    a marker choice and a marker size are the ones the detail callback reads
    back: the live path tells the graph to keep [points] points; the full
    redraw, for [points] in the range of [islice], plots
    min(buffer length, max(0, points)) points in one trace with that line
    shape and with markers of that size exactly when the choice is ['on'],
    when Plotly accepts the line shape and, with the choice ['on'], the
    marker size, and raises a [ValueError] when Plotly refuses them and there
    is a point to plot. *)
Theorem detail_settings_round_trip
    (ticks : list V2.tick) (trig : option string) (n : json) (dp : Z)
    (shape markers size : json) (pathname : option string) (is_running : bool)
    (i : Z) :
  V2.display_page pathname = V2.PageDetail i ->
  let st := V2.run ticks initial_store in
  let s := V2.sync_detail_settings_to_store (JInt dp) shape markers size in
  let live := bool_decide (trig = Some V2.ID_INTERVAL) && is_running
              && nonempty (items (time_data st)) in
  let out := fst (V2.update_detail_graph_live trig n (Some s) pathname is_running st) in
  let accepted :=
    valid_line_shape shape &&
    (negb (json_eq_str markers "on") || valid_marker_size size) in
  (live = true ->
   exists x y, out = Ok (no_update, update (V2.mkExtend [[x]] [[y]] [0] (JInt dp)))) /\
  (live = false -> points_ok dp -> accepted = true ->
   exists fig,
     out = Ok (update fig, no_update) /\
     len (fig_xs fig) = Z.min (len (items (time_data st))) (Z.max 0 dp) /\
     len (fig_ys fig) = len (fig_xs fig) /\
     Forall (fun tr =>
               sc_line tr = [("shape"%string, shape); ("width"%string, JInt 2)] /\
               sc_mode tr = (if json_eq_str markers "on"
                             then "lines+markers" else "lines")%string /\
               sc_marker tr = (if json_eq_str markers "on"
                               then [("size"%string, size)] else []))
            (fig_data fig)) /\
  (live = false -> points_ok dp -> accepted = false ->
   0 < dp -> nonempty (items (time_data st)) = true ->
   out = Raise ValueError).
Proof.
  intros Hpage st s live out accepted.
  destruct (V2_sync_detail_get (JInt dp) shape markers size
              (JInt V2.DEFAULT_DISPLAY_POINTS_DETAIL)) as (Hdp & _).
  destruct (V2_sync_detail_get (JInt dp) shape markers size (JStr "spline"))
    as (_ & Hls & _).
  destruct (V2_sync_detail_get (JInt dp) shape markers size JNull) as (_ & _ & Hsm & _).
  destruct (V2_sync_detail_get (JInt dp) shape markers size (JInt 6)) as (_ & _ & _ & Hms).
  fold s in Hdp, Hls, Hsm, Hms.
  assert (Hacc : V2_trace_ok "spline" s = accepted).
  { unfold V2_trace_ok. rewrite Hls, Hsm, Hms. reflexivity. }
  assert (Hok : store_ok st) by (apply V2_run_ok, initial_store_ok).
  destruct (display_page_detail _ _ Hpage) as (p & _ & _ & Hi).
  destruct (V2_detail_result trig n s pathname is_running i st Hok Hpage)
    as [Hlive Hredraw].
  split; [|split].
  - intros Hl. destruct (Hlive Hl) as (t & v & _ & _ & Hout).
    rewrite Hdp in Hout. eauto.
  - intros Hl Hpts Ha. exists (V2_chart "" None "spline" s st dp i).
    split.
    { subst out. rewrite (Hredraw Hl dp Hdp Hpts), Hacc, Ha, andb_false_r. reflexivity. }
    destruct (V2_chart_size "" None "spline" s st dp i Hok Hi) as (Hx & Hy & _).
    split; [exact Hx|]. split; [rewrite Hx, Hy; reflexivity|].
    pose proof (V2_chart_traces "" None "spline" s st dp i) as Ht.
    rewrite Hls, Hsm, Hms in Ht. exact Ht.
  - intros Hl Hpts Ha Hpos Hne.
    subst out. rewrite (Hredraw Hl dp Hdp Hpts), Hacc, Ha.
    rewrite window_nonempty by assumption. reflexivity.
Qed.

Lemma detail_settings_round_trip_witness :
  (exists fig,
     fst (V2.update_detail_graph_live None JNull
            (Some (V2.sync_detail_settings_to_store (JInt 200) (JStr "linear")
                     (JStr "on") (JInt 9)))
            (Some "/sensor-4"%string) false (V2.run one_sample initial_store)) =
       Ok (update fig, no_update) /\
     len (fig_xs fig) = 1 /\
     Forall (fun tr => sc_marker tr = [("size"%string, JInt 9)]) (fig_data fig)) /\
  fst (V2.update_detail_graph_live None JNull
         (Some (V2.sync_detail_settings_to_store (JInt 200) (JStr "bogus")
                  (JStr "off") (JInt 9)))
         (Some "/sensor-4"%string) false (V2.run one_sample initial_store)) =
    Raise ValueError.
Proof.
  assert (Hpage : V2.display_page (Some "/sensor-4"%string) = V2.PageDetail 4)
    by reflexivity.
  assert (Hpts : points_ok 200) by (vm_compute; discriminate).
  assert (Hl : bool_decide (@None string = Some V2.ID_INTERVAL) && false
               && nonempty (items (time_data (V2.run one_sample initial_store)))
               = false) by reflexivity.
  split.
  - destruct (detail_settings_round_trip one_sample None JNull 200 (JStr "linear")
                (JStr "on") (JInt 9) (Some "/sensor-4"%string) false 4 Hpage)
      as (_ & Hredraw & _).
    assert (Ha : valid_line_shape (JStr "linear") &&
                 (negb (json_eq_str (JStr "on") "on") || valid_marker_size (JInt 9)) = true)
      by reflexivity.
    destruct (Hredraw Hl Hpts Ha) as (fig & Hout & Hx & _ & Ht).
    exists fig. split; [exact Hout|]. split; [exact Hx|].
    eapply Forall_impl; [exact Ht|]. intros tr (_ & _ & Hm). exact Hm.
  - destruct (detail_settings_round_trip one_sample None JNull 200 (JStr "bogus")
                (JStr "off") (JInt 9) (Some "/sensor-4"%string) false 4 Hpage)
      as (_ & _ & Hbad).
    assert (Ha : valid_line_shape (JStr "bogus") &&
                 (negb (json_eq_str (JStr "off") "on") || valid_marker_size (JInt 9)) = false)
      by reflexivity.
    assert (Hpos : 0 < 200) by lia.
    assert (Hne : nonempty (items (time_data (V2.run one_sample initial_store))) = true)
      by reflexivity.
    exact (Hbad Hl Hpts Ha Hpos Hne).
Defined.
